(** * Tempoest: a shallow embedding of the day-plan analyzer and of the
      time-shift engine, with the properties of its specification.

    Modelling conventions.

    - A JavaScript string is a Rocq [string]: a sequence of code units, here
      restricted to the code units below 256 (ASCII and Latin-1).  The
      whitespace class of [\s] and of [String.prototype.trim] is, in that
      range, the code units 9-13, 32 and 160; the regular-expression dot
      excludes the line terminators 10 and 13.
    - A JavaScript number that holds an integer is a [Z].  Doubles are exact
      on integers below 2^53; every comparison the code performs on larger
      values (durations, offsets) is decided the same way on the exact
      integer, because rounding is monotone and the thresholds are small.
      The loops of [applyTimeOffsetToTimeString] are the one place where the
      rounding of large numbers decides what the program does; there every
      operation rounds ([Js.toDouble]), and a loop that does not end makes
      the result of the function [None].
    - A [Date] is [option Z] ([None] is the Invalid Date): the local
      wall-clock minute count since the epoch of a host whose local zone
      keeps a constant offset from UTC.  Every date the program builds has
      zero seconds and milliseconds, and [toISOString] is injective on valid
      dates, so a task's [start] and [end] strings are represented by the
      instants they denote.
    - A caught exception is a value of a sum type; an exception that is not
      caught ([RangeError] of [toISOString] on an Invalid Date) is the
      [Throw] result of the function and of its callers.
    - Each regular expression of the source is embedded as the recognizer
      that the backtracking matcher computes on it; the expression is quoted
      next to its recognizer. *)

From Stdlib Require Import ZArith List String Ascii Bool Lia.
From Stdlib Require Import DecimalString HexadecimalString.
Import ListNotations.

Open Scope string_scope.
Open Scope Z_scope.

(* ===================================================================== *)
(** * JavaScript strings *)
(* ===================================================================== *)

Module Js.

Definition codeOf (c : ascii) : Z := Z.of_N (N_of_ascii c).

Definition inRange (lo hi : Z) (c : ascii) : bool :=
  (lo <=? codeOf c) && (codeOf c <=? hi).

(** [\d] *)
Definition isDigit (c : ascii) : bool := inRange 48 57 c.

(** [[a-zA-Z]] *)
Definition isAlpha (c : ascii) : bool := inRange 65 90 c || inRange 97 122 c.

(** [\w] *)
Definition isWord (c : ascii) : bool :=
  isDigit c || isAlpha c || (codeOf c =? 95).

(** [[A-Za-z0-9_-]] *)
Definition isIdentChar (c : ascii) : bool := isWord c || (codeOf c =? 45).

(** [\s], and the characters removed by [trim]. *)
Definition isSpace (c : ascii) : bool :=
  inRange 9 13 c || (codeOf c =? 32) || (codeOf c =? 160).

(** The characters the dot of a regular expression does not match. *)
Definition isLineTerminator (c : ascii) : bool :=
  (codeOf c =? 10) || (codeOf c =? 13).

Definition isEmpty (s : string) : bool :=
  match s with EmptyString => true | String _ _ => false end.

Definition str1 (c : ascii) : string := String c EmptyString.

Fixpoint dropWhile (p : ascii -> bool) (s : string) : string :=
  match s with
  | EmptyString => EmptyString
  | String c r => if p c then dropWhile p r else s
  end.

Fixpoint takeWhile (p : ascii -> bool) (s : string) : string :=
  match s with
  | EmptyString => EmptyString
  | String c r => if p c then String c (takeWhile p r) else EmptyString
  end.

Fixpoint forallb (p : ascii -> bool) (s : string) : bool :=
  match s with
  | EmptyString => true
  | String c r => p c && forallb p r
  end.

Fixpoint existsb (p : ascii -> bool) (s : string) : bool :=
  match s with
  | EmptyString => false
  | String c r => p c || existsb p r
  end.

Definition trimStart (s : string) : string := dropWhile isSpace s.

Fixpoint trimEnd (s : string) : string :=
  match s with
  | EmptyString => EmptyString
  | String c r =>
      let r' := trimEnd r in
      if isEmpty r' && isSpace c then EmptyString else String c r'
  end.

Definition trim (s : string) : string := trimEnd (trimStart s).

Definition startsWith (s p : string) : bool := String.prefix p s.

Fixpoint drop (n : nat) (s : string) : string :=
  match n, s with
  | O, _ => s
  | S _, EmptyString => EmptyString
  | S k, String _ r => drop k r
  end.

Fixpoint take (n : nat) (s : string) : string :=
  match n, s with
  | O, _ => EmptyString
  | S _, EmptyString => EmptyString
  | S k, String c r => String c (take k r)
  end.

Definition endsWith (s p : string) : bool :=
  (String.length p <=? String.length s)%nat &&
  String.eqb (drop (String.length s - String.length p) s) p.

Fixpoint includes (s sub : string) : bool :=
  String.prefix sub s ||
  match s with
  | EmptyString => false
  | String _ r => includes r sub
  end.

(** [s.substring(a)] and [s.substring(a, b)] for [0 <= a <= b]. *)
Definition substringFrom (s : string) (a : nat) : string := drop a s.
Definition substring (s : string) (a b : nat) : string := take (b - a) (drop a s).

Definition lowerChar (c : ascii) : ascii :=
  if inRange 65 90 c || (inRange 192 222 c && negb (codeOf c =? 215))
  then ascii_of_N (N_of_ascii c + 32) else c.

Fixpoint toLowerCase (s : string) : string :=
  match s with
  | EmptyString => EmptyString
  | String c r => String (lowerChar c) (toLowerCase r)
  end.

(** Equality of two code units under the [i] flag. *)
Definition eqCharI (a b : ascii) : bool := Ascii.eqb (lowerChar a) (lowerChar b).

(** A literal word at the head of [s], under the [i] flag. *)
Fixpoint prefixI (lit s : string) : bool :=
  match lit, s with
  | EmptyString, _ => true
  | String a l, String b r => eqCharI a b && prefixI l r
  | String _ _, EmptyString => false
  end.

(** The whole of [s] is the literal word, under the [i] flag. *)
Definition equalsI (lit s : string) : bool :=
  prefixI lit s && (String.length s =? String.length lit)%nat.

Fixpoint join (sep : string) (l : list string) : string :=
  match l with
  | [] => EmptyString
  | [x] => x
  | x :: r => x ++ sep ++ join sep r
  end.

(** [s.split(sep)] for a literal, non-empty separator; [skip] counts the
    code units of a matched separator that are still to be passed. *)
Fixpoint splitLitAux (sep : string) (skip : nat) (cur : string) (s : string)
  : list string :=
  match s with
  | EmptyString => [cur]
  | String c r =>
      match skip with
      | S k => splitLitAux sep k cur r
      | O =>
          if String.prefix sep s
          then cur :: splitLitAux sep (String.length sep - 1) EmptyString r
          else splitLitAux sep O (cur ++ str1 c) r
      end
  end.

Definition splitLit (sep : string) (s : string) : list string :=
  splitLitAux sep O EmptyString s.

(** [s.split(/\r?\n/)] *)
Fixpoint splitLinesAux (cur : string) (s : string) : list string :=
  match s with
  | EmptyString => [cur]
  | String c r =>
      if codeOf c =? 10 then cur :: splitLinesAux EmptyString r
      else
        match r with
        | String d r' =>
            if (codeOf c =? 13) && (codeOf d =? 10)
            then cur :: splitLinesAux EmptyString r'
            else splitLinesAux (cur ++ str1 c) r
        | EmptyString => splitLinesAux (cur ++ str1 c) r
        end
  end.

Definition splitLines (s : string) : list string := splitLinesAux EmptyString s.

(** [s.lastIndexOf(c)], -1 when absent. *)
Fixpoint lastIndexOfFrom (c : ascii) (i : Z) (s : string) (found : Z) : Z :=
  match s with
  | EmptyString => found
  | String d r => lastIndexOfFrom c (i + 1) r (if Ascii.eqb c d then i else found)
  end.

Definition lastIndexOf (s : string) (c : ascii) : Z := lastIndexOfFrom c 0 s (-1).

Definition len (s : string) : Z := Z.of_nat (String.length s).

(** [parseInt(s, 10)] on a non-empty string of decimal digits. *)
Fixpoint parseDigits (acc : Z) (s : string) : Z :=
  match s with
  | EmptyString => acc
  | String c r => parseDigits (acc * 10 + (codeOf c - 48)) r
  end.

Definition parseInt (s : string) : Z := parseDigits 0 s.

(** [n.toString()] for an integer [n]. *)
Definition numToString (n : Z) : string :=
  if n <? 0
  then "-" ++ DecimalString.NilZero.string_of_uint (N.to_uint (Z.to_N (- n)))
  else DecimalString.NilZero.string_of_uint (N.to_uint (Z.to_N n)).

(** [n.toString(16)] for a non-negative integer [n]. *)
Definition lowerHex (s : string) : string := toLowerCase s.

Definition numToHex (n : Z) : string :=
  lowerHex (HexadecimalString.NilZero.string_of_uint (N.to_hex_uint (Z.to_N n))).

Fixpoint repeatChar (c : ascii) (n : nat) : string :=
  match n with O => EmptyString | S k => String c (repeatChar c k) end.

(** [s.padStart(n, '0')] *)
Definition padStart0 (n : nat) (s : string) : string :=
  repeatChar "0"%char (n - String.length s) ++ s.

(** The longest prefix of decimal digits, and what follows it. *)
Definition spanDigits (s : string) : string * string :=
  (takeWhile isDigit s, dropWhile isDigit s).

(** A number that holds an integer is modelled by that integer.  What an
    addition, a subtraction or a product returns is the double nearest to
    the exact result, ties to the even mantissa: the result itself below
    2^53 in magnitude, a multiple of a power of two beyond.  (Past the
    largest double the number is [Infinity]; the rounded integer that the
    model keeps behaves in the same way where it is used: adding or taking
    away 60 leaves it as it is.) *)
Definition toDouble (x : Z) : Z :=
  let a := Z.abs x in
  if a <? 2 ^ 53 then x
  else
    let ulp := 2 ^ (Z.log2 a - 52) in
    let q := a / ulp in
    let r := a mod ulp in
    let q := if 2 * r <? ulp then q
             else if ulp <? 2 * r then q + 1
             else if Z.even q then q else q + 1 in
    Z.sgn x * (q * ulp).

End Js.

(* ===================================================================== *)
(** * lsp/time-utils.ts *)
(* ===================================================================== *)

Module TimeUtils.

Record TimeOffset := mkTimeOffset {
  hours : Z;
  minutes : Z;
  sign : Z            (* 1 | -1 *)
}.

Record TimeShiftResult := mkTimeShiftResult {
  success : bool;
  newTime : option string;
  error : option string
}.

(** The optional group [(?:(\d+)X)?] at the head of [s], for a unit letter
    [X]: the capture when the group matches, and the rest of the input. *)
Definition optCount (unit : ascii) (s : string) : option string * string :=
  let (ds, r) := Js.spanDigits s in
  match r with
  | String c r' =>
      if negb (Js.isEmpty ds) && Ascii.eqb c unit then (Some ds, r') else (None, s)
  | EmptyString => (None, s)
  end.

(** [offset.match(/^([+-])(?:(\d+)h)?(?:(\d+)m)?$/)]: the three captures. *)
Definition matchOffset (offset : string)
  : option (ascii * option string * option string) :=
  match offset with
  | String sg r0 =>
      if Ascii.eqb sg "+" || Ascii.eqb sg "-" then
        let (hoursStr, r1) := optCount "h" r0 in
        let (minutesStr, r2) := optCount "m" r1 in
        if Js.isEmpty r2 then Some (sg, hoursStr, minutesStr) else None
      else None
  | EmptyString => None
  end.

(** [str || '0'] followed by [parseInt(_, 10)] *)
Definition parseIntOr0 (o : option string) : Z :=
  match o with Some ds => Js.parseInt ds | None => 0 end.

Definition parseTimeOffset (offset : string) : option TimeOffset :=
  match matchOffset offset with
  | None => None
  | Some (sg, hoursStr, minutesStr) =>
      let hours := parseIntOr0 hoursStr in
      let minutes := parseIntOr0 minutesStr in
      if (hours =? 0) && (minutes =? 0) then None
      else Some {| hours := hours; minutes := minutes;
                   sign := if Ascii.eqb sg "+" then 1 else -1 |}
  end.

Inductive TimeFormat := clock12 | clock24 | word.

Record ParsedTime := mkParsedTime {
  p_hours : Z;
  p_minutes : Z;
  p_format : TimeFormat
}.

(** Exactly two digits at the head of [s]: [\d{2}]. *)
Definition twoDigits (s : string) : option (string * string) :=
  match s with
  | String a (String b r) =>
      if Js.isDigit a && Js.isDigit b
      then Some (String a (String b EmptyString), r) else None
  | _ => None
  end.

(** [\d{1,2}] at the head of [s], greedy: two digits when there are two. *)
Definition oneOrTwoDigits (s : string) : option (string * string) :=
  match s with
  | String a r =>
      if Js.isDigit a then
        match r with
        | String b r' =>
            if Js.isDigit b then Some (String a (String b EmptyString), r')
            else Some (Js.str1 a, r)
        | EmptyString => Some (Js.str1 a, r)
        end
      else None
  | EmptyString => None
  end.

(** [(?::(\d{2}))?] at the head of [s]. *)
Definition optMinutes (s : string) : option string * string :=
  match s with
  | String c r =>
      if Ascii.eqb c ":" then
        match twoDigits r with
        | Some (mm, r') => (Some mm, r')
        | None => (None, s)
        end
      else (None, s)
  | EmptyString => (None, s)
  end.

(** [lower.match(/^(\d{1,2})(?::(\d{2}))?(am|pm)$/)].  The digit run cannot
    be shortened by backtracking: what follows it is a colon or a letter. *)
Definition matchAmPm (lower : string) : option (string * option string * string) :=
  match oneOrTwoDigits lower with
  | None => None
  | Some (hh, r1) =>
      let (mm, r2) := optMinutes r1 in
      if String.eqb r2 "am" || String.eqb r2 "pm" then Some (hh, mm, r2) else None
  end.

(** [timeStr.match(/^(\d{1,2}):(\d{2})$/)] *)
Definition matchClock (timeStr : string) : option (string * string) :=
  match oneOrTwoDigits timeStr with
  | None => None
  | Some (hh, r1) =>
      match r1 with
      | String c r2 =>
          if Ascii.eqb c ":" then
            match twoDigits r2 with
            | Some (mm, EmptyString) => Some (hh, mm)
            | _ => None
            end
          else None
      | EmptyString => None
      end
  end.

Definition parseTimeString (timeStr : string) : option ParsedTime :=
  let lower := Js.trim (Js.toLowerCase timeStr) in
  if String.eqb lower "noon" then Some (mkParsedTime 12 0 word)
  else if String.eqb lower "midnight" then Some (mkParsedTime 0 0 word)
  else
    match matchAmPm lower with
    | Some (hh, mm, ampm) =>
        let hours := Js.parseInt hh in
        let minutes := parseIntOr0 mm in
        let hours := if String.eqb ampm "pm" && negb (hours =? 12) then hours + 12 else hours in
        let hours := if String.eqb ampm "am" && (hours =? 12) then 0 else hours in
        Some (mkParsedTime hours minutes clock12)
    | None =>
        match matchClock timeStr with
        | Some (hh, mm) =>
            let hours := Js.parseInt hh in
            let minutes := Js.parseInt mm in
            if (0 <=? hours) && (hours <=? 23) && (0 <=? minutes) && (minutes <=? 59)
            then Some (mkParsedTime hours minutes clock24)
            else None
        | None => None
        end
    end.

(** The [clock12] branch of [formatTimeString]. *)
Definition formatClock12 (hours minutes : Z) : string :=
  let ampm := if 12 <=? hours then "pm" else "am" in
  let displayHours := hours in
  let displayHours := if displayHours =? 0 then 12 else displayHours in
  let displayHours := if 12 <? displayHours then displayHours - 12 else displayHours in
  if minutes =? 0 then Js.numToString displayHours ++ ampm
  else Js.numToString displayHours ++ ":" ++ Js.padStart0 2 (Js.numToString minutes) ++ ampm.

(** [formatTimeString]; its last line calls itself with ['clock12'], which
    ends in the branch above. *)
Definition formatTimeString (hours minutes : Z) (format : TimeFormat) : string :=
  match format with
  | word =>
      if (hours =? 12) && (minutes =? 0) then "noon"
      else if (hours =? 0) && (minutes =? 0) then "midnight"
      else formatClock12 hours minutes
  | clock24 =>
      Js.padStart0 2 (Js.numToString hours) ++ ":" ++ Js.padStart0 2 (Js.numToString minutes)
  | clock12 => formatClock12 hours minutes
  end.

(** [while (newMinutes >= 60) { newMinutes -= 60; newHours += 1; }] on
    doubles.  A turn that leaves [newMinutes] as it is does so for ever: the
    loop does not end, which is [None].  Any other turn lowers it, so from
    [newMinutes] no more than [newMinutes] turns are taken, and the [fuel]
    that [applyTimeOffsetToTimeString] gives is never used up
    ([carryLoop_fuel], [borrowLoop_fuel]). *)
Fixpoint carryLoop (fuel : nat) (newMinutes newHours : Z) : option (Z * Z) :=
  if 60 <=? newMinutes then
    let next := Js.toDouble (newMinutes - 60) in
    if next =? newMinutes then None
    else
      match fuel with
      | O => None
      | S f => carryLoop f next (Js.toDouble (newHours + 1))
      end
  else Some (newMinutes, newHours).

(** [while (newMinutes < 0) { newMinutes += 60; newHours -= 1; }], likewise *)
Fixpoint borrowLoop (fuel : nat) (newMinutes newHours : Z) : option (Z * Z) :=
  if newMinutes <? 0 then
    let next := Js.toDouble (newMinutes + 60) in
    if next =? newMinutes then None
    else
      match fuel with
      | O => None
      | S f => borrowLoop f next (Js.toDouble (newHours - 1))
      end
  else Some (newMinutes, newHours).

(** [((newHours % 24) + 24) % 24], with the truncating remainder of JavaScript *)
Definition wrapHours (newHours : Z) : Z := Z.rem (Z.rem newHours 24 + 24) 24.

(** The signed minutes of an offset as an integer. *)
Definition totalMinutesOf (offset : TimeOffset) : Z :=
  (hours offset * 60 + minutes offset) * sign offset.

(** [(offset.hours * 60 + offset.minutes) * offset.sign] on the numbers that
    the fields hold *)
Definition totalMinutesNumber (offset : TimeOffset) : Z :=
  Js.toDouble
    (Js.toDouble (Js.toDouble (Js.toDouble (hours offset) * 60)
                  + Js.toDouble (minutes offset))
     * sign offset).

(** [applyTimeOffsetToTimeString]; [None] when it does not return: one of
    its two loops does not end. *)
Definition applyTimeOffsetToTimeString (timeStr : string) (offset : TimeOffset)
  : option TimeShiftResult :=
  match parseTimeString timeStr with
  | None => Some (mkTimeShiftResult false None (Some ("Invalid time format: " ++ timeStr)))
  | Some parsed =>
      let newHours := p_hours parsed in
      let newMinutes := p_minutes parsed in
      let totalMinutes := totalMinutesNumber offset in
      let newMinutes := Js.toDouble (newMinutes + totalMinutes) in
      match carryLoop (Z.to_nat newMinutes) newMinutes newHours with
      | None => None
      | Some (newMinutes, newHours) =>
          match borrowLoop (Z.to_nat (- newMinutes)) newMinutes newHours with
          | None => None
          | Some (newMinutes, newHours) =>
              let newHours := wrapHours newHours in
              let newTimeStr := formatTimeString newHours newMinutes (p_format parsed) in
              Some (mkTimeShiftResult true (Some newTimeStr) None)
          end
      end
  end.

Record Validation := mkValidation {
  valid : bool;
  v_error : option string
}.

Definition msgEmpty : string := "Offset cannot be empty".
Definition msgFormat : string :=
  "Invalid offset format. Use +/-[Nh][Nm] (e.g., +10m, -1h30m, +2h)".
Definition msgTooLarge : string := "Offset too large (max 12 hours)".

Definition validateTimeOffset (offset : string) : Validation :=
  if Js.isEmpty (Js.trim offset) then mkValidation false (Some msgEmpty)
  else
    match parseTimeOffset offset with
    | None => mkValidation false (Some msgFormat)
    | Some parsed =>
        let totalMinutes := hours parsed * 60 + minutes parsed in
        if 12 * 60 <? totalMinutes then mkValidation false (Some msgTooLarge)
        else mkValidation true None
    end.

End TimeUtils.

(* ===================================================================== *)
(** * types.ts *)
(* ===================================================================== *)

Inductive LineStatus := valid | valid_with_warnings | invalid.

Record Span := mkSpan {
  span_line : Z;
  startCol : Z;
  endCol : Z
}.

Record Diagnostic := mkDiagnostic {
  code : string;
  message : string;
  span : option Span
}.

Record CategoryPath := mkCategoryPath {
  segments : list string
}.

(** [start] and [end] hold the instant that the ISO string denotes. *)
Record TaskNode := mkTaskNode {
  title : string;
  start : option Z;
  durationMin : Z;
  end_ : option Z;
  categories : list CategoryPath;
  explicitStart : bool;
  explicitDuration : bool
}.

(** A [Record<string, string>]: the own properties in enumeration order. *)
Definition JsObject := list (string * string).

Record DirectiveNode := mkDirectiveNode {
  d_name : string;
  d_args : JsObject
}.

Inductive Node :=
| TaskN (t : TaskNode)
| DirectiveN (d : DirectiveNode).

Record ParsedLine := mkParsedLine {
  id : string;
  raw : string;
  lineNo : Z;
  status : LineStatus;
  diagnostics : list Diagnostic;
  node : option Node
}.

Inductive OverlapPolicy := policy_warning | policy_error | policy_ignore.

Record AnalysisContext := mkAnalysisContext {
  day : string;
  timezone : option string;
  defaultDurationMin : Z;
  overlapPolicy : OverlapPolicy
}.

Record Program := mkProgram {
  context : AnalysisContext;
  lines : list ParsedLine
}.

Record ParseOptions := mkParseOptions {
  today : option string;
  opt_timezone : option string
}.

Module ErrorCode.
Definition BAD_TIME := "E001-bad-time".
Definition BAD_DURATION := "E010-bad-duration".
Definition MISSING_START_FIRST_LINE := "E020-missing-start-first-line".
Definition OVERLAP := "E030-overlap".
Definition UNKNOWN_DIRECTIVE := "E040-unknown-directive".
Definition BAD_CATEGORY := "E050-bad-category".
End ErrorCode.

Module WarningCode.
Definition MISSING_SPACE_AFTER_DASH := "W001-missing-space-after-dash".
Definition TRAILING_COMMA := "W005-trailing-comma".
Definition OVERLAP := "W010-overlap".
Definition AMBIGUOUS_TIME := "W020-ambiguous-time".
Definition UNKNOWN_PART := "W030-unknown-part".
End WarningCode.

Record RawTaskParts := mkRawTaskParts {
  time : option string;
  duration : option string;
  rt_categories : list string;
  titleParts : list string
}.

Record RawDirectiveParts := mkRawDirectiveParts {
  name : string;
  args : JsObject
}.

Record ParsedLineRaw := mkParsedLineRaw {
  r_lineNo : Z;
  r_raw : string;
  r_diagnostics : list Diagnostic;
  hasSpaceAfterDash : bool;
  isBlank : bool;
  isComment : bool;
  isScratchpad : bool;
  task : option RawTaskParts;
  directive : option RawDirectiveParts
}.

(* ===================================================================== *)
(** * lexer/tokens.ts and lexer/lexer.ts *)
(* ===================================================================== *)

Module Lexer.

Inductive TokenType :=
| WhiteSpace | EOL | HashComment | SlashComment
| Dash | Bang | Comma | Equals
| CategoryDouble | CategoryColon
| TimeWord | Duration | TimeClock
| ScratchpadDirective | PlannerDirective
| Identifier | Text.

Definition tokenType_eqb (a b : TokenType) : bool :=
  match a, b with
  | WhiteSpace, WhiteSpace | EOL, EOL | HashComment, HashComment
  | SlashComment, SlashComment | Dash, Dash | Bang, Bang | Comma, Comma
  | Equals, Equals | CategoryDouble, CategoryDouble
  | CategoryColon, CategoryColon | TimeWord, TimeWord | Duration, Duration
  | TimeClock, TimeClock | ScratchpadDirective, ScratchpadDirective
  | PlannerDirective, PlannerDirective | Identifier, Identifier
  | Text, Text => true
  | _, _ => false
  end.

Record Token := mkToken {
  tokenType : TokenType;
  image : string;
  startOffset : Z;
  endOffset : Z;
  tokLineNo : Z
}.

(** The length of the run of characters satisfying [p] at the head of [s]. *)
Definition runLength (p : ascii -> bool) (s : string) : nat :=
  String.length (Js.takeWhile p s).

Definition nonEmptyRun (p : ascii -> bool) (s : string) : option nat :=
  match runLength p s with O => None | n => Some n end.

Definition literal (lit : string) (s : string) : option nat :=
  if String.prefix lit s then Some (String.length lit) else None.

Definition literalI (lit : string) (s : string) : option nat :=
  if Js.prefixI lit s then Some (String.length lit) else None.

Definition notLineBreak (c : ascii) : bool := negb (Js.isLineTerminator c).

(** [(?:am|pm)?] under the [i] flag: the length it adds. *)
Definition optAmPmLength (s : string) : nat :=
  if Js.prefixI "am" s || Js.prefixI "pm" s then 2%nat else 0%nat.

(** [(?::\d{2})?]: the length it adds. *)
Definition optColonMinutesLength (s : string) : nat :=
  match s with
  | String c r =>
      if Ascii.eqb c ":" then
        match TimeUtils.twoDigits r with Some _ => 3%nat | None => 0%nat end
      else 0%nat
  | EmptyString => 0%nat
  end.

(** [(?:\d{1,2}m)?] after the hour unit of a duration: the length it adds. *)
Definition optDurationMinutesLength (s : string) : nat :=
  match s with
  | String a (String b (String c _)) =>
      if Js.isDigit a && Js.isDigit b && Ascii.eqb c "m" then 3%nat
      else if Js.isDigit a && Ascii.eqb b "m" then 2%nat else 0%nat
  | String a (String b EmptyString) =>
      if Js.isDigit a && Ascii.eqb b "m" then 2%nat else 0%nat
  | _ => 0%nat
  end.

(** [/\d+h(?:\d{1,2}m)?|\d+m/] at the head of [s]. *)
Definition matchDuration (s : string) : option nat :=
  let n := runLength Js.isDigit s in
  match n with
  | O => None
  | _ =>
      match Js.drop n s with
      | String c r =>
          if Ascii.eqb c "h" then Some (n + 1 + optDurationMinutesLength r)%nat
          else if Ascii.eqb c "m" then Some (n + 1)%nat
          else None
      | EmptyString => None
      end
  end.

(** [/(?:\d{1,2}(?::\d{2})?(?:am|pm)?|\d{2}:\d{2})/i] at the head of [s].  The
    first alternative succeeds on every input that starts with a digit, so
    the second one is never tried. *)
Definition matchTimeClock (s : string) : option nat :=
  match TimeUtils.oneOrTwoDigits s with
  | None => None
  | Some (hh, r1) =>
      let k := optColonMinutesLength r1 in
      Some (String.length hh + k + optAmPmLength (Js.drop k r1))%nat
  end.

(** [[^\s,:#\r\n]] *)
Definition isTextChar (c : ascii) : bool :=
  negb (Js.isSpace c || Ascii.eqb c "," || Ascii.eqb c ":" || Ascii.eqb c "#").

Definition isBlankChar (c : ascii) : bool :=
  (Js.codeOf c =? 32) || (Js.codeOf c =? 9).

(** The pattern of each token type, matched at the head of [s]. *)
Definition matchPattern (ty : TokenType) (s : string) : option nat :=
  match ty with
  | WhiteSpace => nonEmptyRun isBlankChar s
  | EOL =>
      match s with
      | String a r =>
          if Js.codeOf a =? 10 then Some 1%nat
          else match r with
               | String b _ =>
                   if (Js.codeOf a =? 13) && (Js.codeOf b =? 10) then Some 2%nat else None
               | EmptyString => None
               end
      | EmptyString => None
      end
  | HashComment =>
      match s with
      | String c r => if Ascii.eqb c "#" then Some (S (runLength notLineBreak r)) else None
      | EmptyString => None
      end
  | SlashComment =>
      if String.prefix "//" s
      then Some (2 + runLength notLineBreak (Js.drop 2 s))%nat else None
  | Dash => literal "-" s
  | Bang => literal "!" s
  | Comma => literal "," s
  | Equals => literal "=" s
  | CategoryDouble => literal "::" s
  | CategoryColon => literal ":" s
  | TimeWord =>
      match literalI "noon" s with
      | Some n => Some n
      | None => literalI "midnight" s
      end
  | Duration => matchDuration s
  | TimeClock => matchTimeClock s
  | ScratchpadDirective => literal "scratchpad" s
  | PlannerDirective => literal "planner" s
  | Identifier => nonEmptyRun Js.isIdentChar s
  | Text => nonEmptyRun isTextChar s
  end.

Definition allTokens : list TokenType :=
  [ WhiteSpace; EOL; HashComment; SlashComment; Dash; Bang; Comma; Equals;
    CategoryDouble; CategoryColon; TimeWord; Duration; TimeClock;
    ScratchpadDirective; PlannerDirective; Identifier; Text ].

Definition longer_alt (ty : TokenType) : option TokenType :=
  match ty with
  | ScratchpadDirective | PlannerDirective => Some Identifier
  | _ => None
  end.

(** The lexer takes the first pattern of [allTokens] that matches at the
    current offset, then prefers its [longer_alt] when that matches more. *)
Fixpoint firstMatch (tys : list TokenType) (s : string) : option (TokenType * nat) :=
  match tys with
  | [] => None
  | ty :: rest =>
      match matchPattern ty s with
      | Some n =>
          match longer_alt ty with
          | Some alt =>
              match matchPattern alt s with
              | Some m => if (n <? m)%nat then Some (alt, m) else Some (ty, n)
              | None => Some (ty, n)
              end
          | None => Some (ty, n)
          end
      | None => firstMatch rest s
      end
  end.

(** [lexer.tokenize]: [skip] counts the code units of the current token that
    are still to be passed.  Where no pattern matches, one code unit is
    dropped and scanning resumes (the error is recorded apart and does not
    stop the line).  [WhiteSpace] is in the skipped group. *)
Fixpoint lexFrom (lineNo : Z) (skip : nat) (offset : Z) (s : string) : list Token :=
  match s with
  | EmptyString => []
  | String _ r =>
      match skip with
      | S k => lexFrom lineNo k (offset + 1) r
      | O =>
          match firstMatch allTokens s with
          | Some (ty, n) =>
              let rest := lexFrom lineNo (n - 1) (offset + 1) r in
              if tokenType_eqb ty WhiteSpace then rest
              else mkToken ty (Js.take n s) offset (offset + Z.of_nat n - 1) lineNo :: rest
          | None => lexFrom lineNo O (offset + 1) r
          end
      end
  end.

Record LinePreprocessResult := mkLinePreprocessResult {
  pp_hasSpaceAfterDash : bool;
  processedLine : string;
  pp_diagnostics : list Diagnostic
}.

(** [line.match] on "/^(\s*-\s*)/": the captured prefix. *)
Definition matchDashPart (line : string) : option string :=
  let ws := Js.takeWhile Js.isSpace line in
  match Js.dropWhile Js.isSpace line with
  | String c r =>
      if Ascii.eqb c "-" then Some (ws ++ "-" ++ Js.takeWhile Js.isSpace r) else None
  | EmptyString => None
  end.

(** [/^-\s+/.test(dashPart)] *)
Definition dashThenSpace (dashPart : string) : bool :=
  match dashPart with
  | String c (String d _) => Ascii.eqb c "-" && Js.isSpace d
  | _ => false
  end.

(** [/^\s/.test(s)] *)
Definition startsWithSpace (s : string) : bool :=
  match s with String c _ => Js.isSpace c | EmptyString => false end.

Definition preprocessLine (line : string) (lineNo : Z) : LinePreprocessResult :=
  match matchDashPart line with
  | None => mkLinePreprocessResult true line []
  | Some dashPart =>
      let afterDash := Js.drop (String.length dashPart) line in
      let hasSpaceAfterDash := dashThenSpace dashPart in
      if negb hasSpaceAfterDash && (0 <? Js.len afterDash) && negb (startsWithSpace afterDash)
      then
        mkLinePreprocessResult false (dashPart ++ " " ++ afterDash)
          [ mkDiagnostic WarningCode.MISSING_SPACE_AFTER_DASH "Missing space after dash"
              (Some (mkSpan lineNo (Js.len dashPart) (Js.len dashPart + 1))) ]
      else mkLinePreprocessResult true line []
  end.

Record TokenizeResult := mkTokenizeResult {
  tokens : list Token;
  preprocessResults : list LinePreprocessResult
}.

Fixpoint tokenizeLinesFrom (lineNo : Z) (lines : list string) : TokenizeResult :=
  match lines with
  | [] => mkTokenizeResult [] []
  | line :: rest =>
      let preprocessResult := preprocessLine line lineNo in
      let here := lexFrom lineNo O 0 (processedLine preprocessResult) in
      let r := tokenizeLinesFrom (lineNo + 1) rest in
      mkTokenizeResult (here ++ tokens r)%list (preprocessResult :: preprocessResults r)
  end.

Definition tokenizeLines (lines : list string) : TokenizeResult :=
  tokenizeLinesFrom 1 lines.

Definition tokenize (text : string) : TokenizeResult :=
  tokenizeLines (Js.splitLines text).

End Lexer.

(* ===================================================================== *)
(** * analyzer/analyzer.ts *)
(* ===================================================================== *)

Module Analyzer.

Inductive SectionMode := planner | scratchpad.

Definition sectionMode_eqb (a b : SectionMode) : bool :=
  match a, b with
  | planner, planner | scratchpad, scratchpad => true
  | _, _ => false
  end.

(** The result of code that can raise an exception nobody catches. *)
Inductive Result (A : Type) :=
| Ok (a : A)
| Throw (e : string).
Arguments Ok {A} a.
Arguments Throw {A} e.

(** ** Objects used as records of strings *)

(** An array index: a canonical numeric string below 2^32 - 1.  Such keys
    are enumerated first, in ascending order. *)
Definition arrayIndex (k : string) : option Z :=
  match k with
  | EmptyString => None
  | String c r =>
      if Js.forallb Js.isDigit k && (negb (Ascii.eqb c "0") || Js.isEmpty r)
         && (Js.parseInt k <=? 4294967294)
      then Some (Js.parseInt k) else None
  end.

Fixpoint objInsertIndex (i : Z) (k v : string) (o : JsObject) : JsObject :=
  match o with
  | [] => [(k, v)]
  | (k', v') :: r =>
      match arrayIndex k' with
      | Some j => if i <? j then (k, v) :: o else (k', v') :: objInsertIndex i k v r
      | None => (k, v) :: o
      end
  end.

Definition objHas (o : JsObject) (k : string) : bool :=
  List.existsb (fun kv => String.eqb (fst kv) k) o.

(** [o[k] = v] on an object created by the literal [{}]: assigning a string
    to ["__proto__"] creates no property. *)
Definition objSet (o : JsObject) (k v : string) : JsObject :=
  if String.eqb k "__proto__" then o
  else if objHas o k
  then List.map (fun kv => if String.eqb (fst kv) k then (k, v) else kv) o
  else match arrayIndex k with
       | Some i => objInsertIndex i k v o
       | None => (o ++ [(k, v)])%list
       end.

(** [o.k] for a key that [Object.prototype] does not define *)
Fixpoint objGet (o : JsObject) (k : string) : option string :=
  match o with
  | [] => None
  | (k', v) :: r => if String.eqb k' k then Some v else objGet r k
  end.

(** [Object.values(o)[0]] *)
Definition firstValue (o : JsObject) : option string :=
  match o with
  | [] => None
  | (_, v) :: _ => Some v
  end.

(** ** Recognizers of [parseLineContent] *)

(** [line.match] on "/^\s*-\s*(.*)$/": the capture.  The dot matches no line
    terminator, and shortening either whitespace run cannot help. *)
Definition matchDashLine (line : string) : option string :=
  match Js.dropWhile Js.isSpace line with
  | String c r =>
      if Ascii.eqb c "-" then
        let content := Js.dropWhile Js.isSpace r in
        if Js.existsb Js.isLineTerminator content then None else Some content
      else None
  | EmptyString => None
  end.

(** [line.match] on "/^\s*!(.*)$/": the capture. *)
Definition matchBangLine (line : string) : option string :=
  match Js.dropWhile Js.isSpace line with
  | String c r =>
      if Ascii.eqb c "!" then
        if Js.existsb Js.isLineTerminator r then None else Some r
      else None
  | EmptyString => None
  end.

(** [content.match] on "/^!(\w+)\s*(.*)/": the name and the arguments. *)
Definition matchDirective (content : string) : option (string * string) :=
  match content with
  | String c r =>
      if Ascii.eqb c "!" then
        let name := Js.takeWhile Js.isWord r in
        if Js.isEmpty name then None
        else
          let rest := Js.dropWhile Js.isSpace (Js.dropWhile Js.isWord r) in
          Some (name, Js.takeWhile Lexer.notLineBreak rest)
      else None
  | EmptyString => None
  end.

(** [[^\s,]] *)
Definition isValueChar (c : ascii) : bool :=
  negb (Js.isSpace c || Ascii.eqb c ",").

(** [(\w+)=([^\s,]+)] at the head of [s]: the two captures. *)
Definition matchKeyValue (s : string) : option (string * string) :=
  let k := Js.takeWhile Js.isWord s in
  if Js.isEmpty k then None
  else
    match Js.dropWhile Js.isWord s with
    | String c r =>
        if Ascii.eqb c "=" then
          let v := Js.takeWhile isValueChar r in
          if Js.isEmpty v then None else Some (k, v)
        else None
    | EmptyString => None
    end.

(** [argsStr.matchAll(/(\w+)=([^\s,]+)/g)]: the matches from left to right;
    [skip] counts the code units of the last match still to be passed. *)
Fixpoint keyValueMatches (skip : nat) (s : string) : list (string * string) :=
  match s with
  | EmptyString => []
  | String _ r =>
      match skip with
      | S k => keyValueMatches k r
      | O =>
          match matchKeyValue s with
          | Some (k, v) =>
              (k, v) :: keyValueMatches (String.length k + String.length v) r
          | None => keyValueMatches O r
          end
      end
  end.

Fixpoint splitTaskPartsFrom (current : string) (inCategory : bool) (content : string)
  : list string :=
  match content with
  | EmptyString =>
      if Js.isEmpty (Js.trim current) then [] else [Js.trim current]
  | String char rest =>
      let nextIsColon :=
        match rest with String n _ => Ascii.eqb n ":" | EmptyString => false end in
      if Ascii.eqb char ":" then
        splitTaskPartsFrom (current ++ Js.str1 char) true rest
      else if Ascii.eqb char "," && negb inCategory then
        ((if Js.isEmpty (Js.trim current) then [] else [Js.trim current])
           ++ splitTaskPartsFrom EmptyString inCategory rest)%list
      else if Ascii.eqb char " " && negb inCategory && negb (Js.isEmpty (Js.trim current)) then
        Js.trim current :: splitTaskPartsFrom EmptyString inCategory rest
      else
        splitTaskPartsFrom (current ++ Js.str1 char)
          (if inCategory && negb nextIsColon then false else inCategory) rest
  end.

Definition splitTaskParts (content : string) : list string :=
  splitTaskPartsFrom EmptyString false content.

(** [/^(?:\d{1,2}(?::\d{2})?(?:am|pm)?|\d{2}:\d{2}|noon|midnight)$/i]; what
    the second alternative accepts, the first accepts too. *)
Definition isTimePart (part : string) : bool :=
  match TimeUtils.oneOrTwoDigits part with
  | Some (_, r1) =>
      let (_, r2) := TimeUtils.optMinutes r1 in
      Js.isEmpty r2 || Js.equalsI "am" r2 || Js.equalsI "pm" r2
  | None => Js.equalsI "noon" part || Js.equalsI "midnight" part
  end.

(** [\d+m$] somewhere in [s]: the last two code units are a digit and [m]. *)
Fixpoint endsDigitM (s : string) : bool :=
  match s with
  | EmptyString => false
  | String a r =>
      match r with
      | String b EmptyString => Js.isDigit a && Ascii.eqb b "m"
      | _ => endsDigitM r
      end
  end.

(** [/^\d+h(?:\d{1,2}m)?|\d+m$/]: the alternation binds weaker than the
    anchors, so the test holds of a part that starts with digits and [h], and
    of a part that ends with a digit and [m]. *)
Definition isDurationPart (part : string) : bool :=
  (let (ds, r) := Js.spanDigits part in
   negb (Js.isEmpty ds) && Js.startsWith r "h")
  || endsDigitM part.

(** After the leading colon of "/^:[a-zA-Z0-9_-]+(?:::[a-zA-Z0-9_-]+)*$/";
    [seen] tells whether the current segment has a character yet. *)
Fixpoint categoryTail (seen : bool) (s : string) : bool :=
  match s with
  | EmptyString => seen
  | String c r =>
      if Js.isIdentChar c then categoryTail true r
      else if Ascii.eqb c ":" && seen then
        match r with
        | String d r' => if Ascii.eqb d ":" then categoryTail false r' else false
        | EmptyString => false
        end
      else false
  end.

Definition isCategoryPart (part : string) : bool :=
  match part with
  | String c r => Ascii.eqb c ":" && categoryTail false r
  | EmptyString => false
  end.

(** [/^\d+[a-zA-Z]$/] *)
Definition digitsThenLetter (part : string) : bool :=
  let (ds, r) := Js.spanDigits part in
  negb (Js.isEmpty ds) &&
  match r with
  | String c EmptyString => Js.isAlpha c
  | _ => false
  end.

Definition isLikelyBadDuration (part : string) : bool :=
  digitsThenLetter part && negb (isDurationPart part).

Definition isLikelyBadCategory (part : string) : bool :=
  Js.startsWith part ":" && negb (isCategoryPart part).

(** [{ line: lineNo, startCol: 1, endCol: s.length + 1 }] *)
Definition spanOver (lineNo : Z) (s : string) : option Span :=
  Some (mkSpan lineNo 1 (Js.len s + 1)).

Definition parseCategory (part : string) (lineNo : Z) : Diagnostic + string :=
  if Js.endsWith part "::" || Js.includes part ":::" then
    inl (mkDiagnostic ErrorCode.BAD_CATEGORY "Invalid category format" (spanOver lineNo part))
  else inr part.

Record LineContent := mkLineContent {
  lc_task : option RawTaskParts;
  lc_directive : option RawDirectiveParts;
  lc_diagnostics : list Diagnostic
}.

(** The body of the loop over the parts of a task line. *)
Definition classifyPart (line : string) (lineNo : Z)
  (acc : RawTaskParts * list Diagnostic) (part : string)
  : RawTaskParts * list Diagnostic :=
  let (task, diagnostics) := acc in
  let trimmedPart := Js.trim part in
  if Js.isEmpty trimmedPart then acc
  else if isTimePart trimmedPart then
    match time task with
    | Some _ =>
        (task, (diagnostics ++
           [mkDiagnostic WarningCode.UNKNOWN_PART "Multiple time values found"
              (spanOver lineNo line)])%list)
    | None =>
        (mkRawTaskParts (Some trimmedPart) (duration task) (rt_categories task)
           (titleParts task), diagnostics)
    end
  else if isDurationPart trimmedPart then
    match duration task with
    | Some _ =>
        (task, (diagnostics ++
           [mkDiagnostic WarningCode.UNKNOWN_PART "Multiple duration values found"
              (spanOver lineNo line)])%list)
    | None =>
        (mkRawTaskParts (time task) (Some trimmedPart) (rt_categories task)
           (titleParts task), diagnostics)
    end
  else if isCategoryPart trimmedPart then
    match parseCategory trimmedPart lineNo with
    | inl err => (task, (diagnostics ++ [err])%list)
    | inr category =>
        (mkRawTaskParts (time task) (duration task)
           (rt_categories task ++ [category])%list (titleParts task), diagnostics)
    end
  else if isLikelyBadCategory trimmedPart then
    (mkRawTaskParts (time task) (duration task) (rt_categories task)
       (titleParts task ++ [trimmedPart])%list,
     (diagnostics ++
        [mkDiagnostic ErrorCode.BAD_CATEGORY ("Invalid category format: " ++ trimmedPart)
           (spanOver lineNo line)])%list)
  else if isLikelyBadDuration trimmedPart then
    (mkRawTaskParts (time task) (duration task) (rt_categories task)
       (titleParts task ++ [trimmedPart])%list,
     (diagnostics ++
        [mkDiagnostic ErrorCode.BAD_DURATION ("Invalid duration format: " ++ trimmedPart)
           (spanOver lineNo line)])%list)
  else
    (mkRawTaskParts (time task) (duration task) (rt_categories task)
       (titleParts task ++ [trimmedPart])%list, diagnostics).

(** Whether "/\s*[#\/]/" matches at the head of [s]. *)
Definition commentStartsAt (s : string) : bool :=
  match Js.dropWhile Js.isSpace s with
  | String d _ => Ascii.eqb d "#" || Ascii.eqb d "/"
  | EmptyString => false
  end.

(** [content.split] on "/\s*[#\/]/", entry 0: the text before the leftmost
    match. *)
Fixpoint beforeCommentOf (s : string) : string :=
  match s with
  | EmptyString => EmptyString
  | String c r => if commentStartsAt s then EmptyString else String c (beforeCommentOf r)
  end.

Definition isSectionName (name : string) : bool :=
  String.eqb name "scratchpad" || String.eqb name "planner".

(** The directive branch of [parseLineContent], once the name and the
    arguments are matched. *)
Definition parseDirectiveParts (name argsStr : string) : RawDirectiveParts :=
  if isSectionName name then mkRawDirectiveParts name []
  else
    let args : JsObject :=
      if Js.isEmpty (Js.trim argsStr) then []
      else
        let args :=
          List.fold_left (fun o kv => objSet o (fst kv) (snd kv))
            (keyValueMatches O argsStr) [] in
        match args with
        | [] => objSet args name (Js.trim argsStr)
        | _ => args
        end in
    mkRawDirectiveParts name args.

(** The task branch of [parseLineContent]. *)
Definition parseTaskParts (line content : string) (lineNo : Z)
  : RawTaskParts * list Diagnostic :=
  let (task, diagnostics) :=
    List.fold_left (classifyPart line lineNo) (splitTaskParts content)
      (mkRawTaskParts None None [] [], []) in
  let beforeComment := beforeCommentOf content in
  if Js.endsWith (Js.trim beforeComment) "," then
    (task, (diagnostics ++
       [mkDiagnostic WarningCode.TRAILING_COMMA "Trailing comma found"
          (Some (mkSpan lineNo (Js.lastIndexOf beforeComment "," + 1)
                   (Js.lastIndexOf beforeComment "," + 2)))])%list)
  else (task, diagnostics).

Definition parseLineContent (line : string) (lineNo : Z) (currentSection : SectionMode)
  : LineContent :=
  let content :=
    match matchDashLine line with
    | Some c => Some c
    | None =>
        match matchBangLine line with
        | Some c => Some ("!" ++ c)
        | None => None
        end
    end in
  match content with
  | None => mkLineContent None None []
  | Some content =>
      match (if Js.startsWith content "!" then matchDirective content else None) with
      | Some (name, argsStr) =>
          mkLineContent None (Some (parseDirectiveParts name argsStr)) []
      | None =>
          if sectionMode_eqb currentSection scratchpad then mkLineContent None None []
          else
            let (task, diagnostics) := parseTaskParts line content lineNo in
            mkLineContent (Some task) None diagnostics
      end
  end.

(** ["/^\s*(#|\/\/)/.test(line)"] *)
Definition isCommentLine (line : string) : bool :=
  let r := Js.dropWhile Js.isSpace line in
  Js.startsWith r "#" || Js.startsWith r "//".

(** One iteration of the loop of [parseLinesToRaw]: the raw line, and the
    section that the next line is read in.  The entry of
    [tokenizeResult.preprocessResults] for the line is
    [preprocessLine(line, lineNo)]; [parseLineContent] and the section
    directives raise nothing, so the handler of the loop is never entered. *)
Definition parseLineToRaw (currentSection : SectionMode) (line : string) (lineNo : Z)
  : ParsedLineRaw * SectionMode :=
  let preprocessResult := Lexer.preprocessLine line lineNo in
  let isBlank := Js.isEmpty (Js.trim line) in
  let isComment := isCommentLine line in
  let base d scr t dir :=
    mkParsedLineRaw lineNo line d (Lexer.pp_hasSpaceAfterDash preprocessResult)
      isBlank isComment scr t dir in
  if negb isBlank && negb isComment
     && (Js.startsWith (Js.trim line) "-" || Js.startsWith (Js.trim line) "!")
  then
    let lineContent := parseLineContent line lineNo currentSection in
    let section' :=
      match lc_directive lineContent with
      | Some d =>
          if String.eqb (name d) "scratchpad" then scratchpad
          else if String.eqb (name d) "planner" then planner
          else currentSection
      | None => currentSection
      end in
    let isScratchpad :=
      match lc_task lineContent, lc_directive lineContent with
      | None, None => sectionMode_eqb section' scratchpad
      | _, _ => false
      end in
    (base (Lexer.pp_diagnostics preprocessResult ++ lc_diagnostics lineContent)%list
       isScratchpad (lc_task lineContent) (lc_directive lineContent),
     section')
  else (base (Lexer.pp_diagnostics preprocessResult) false None None, currentSection).

Fixpoint parseLinesToRawFrom (currentSection : SectionMode) (lineNo : Z) (lines : list string)
  : list ParsedLineRaw :=
  match lines with
  | [] => []
  | line :: rest =>
      let (rawLine, section') := parseLineToRaw currentSection line lineNo in
      rawLine :: parseLinesToRawFrom section' (lineNo + 1) rest
  end.

Definition parseLinesToRaw (lines : list string) : list ParsedLineRaw :=
  parseLinesToRawFrom planner 1 lines.

(** ** Dates and the host *)

(** What the program takes from the JavaScript host it runs on. *)
Record Host := mkHost {
  (** [new Date().toISOString().split('T')[0]] *)
  host_today : string;
  (** [Intl.DateTimeFormat().resolvedOptions().timeZone] *)
  host_timeZone : string;
  (** the local calendar day, counted from the epoch, of [new Date()] *)
  host_nowDay : Z;
  (** the local calendar day of [new Date(s)]; [None] when the host reads
      [s] as an Invalid Date *)
  host_dayOfDateString : string -> option Z;
  (** local time minus UTC, in minutes *)
  host_utcOffset : Z
}.

(** A [Date] object; [None] is the Invalid Date. *)
Definition JsDate := option Z.

(** 8.64e15 milliseconds, the largest time value, in minutes *)
Definition maxTimeValue : Z := 144000000000.

(** The hours and minutes that [getHours] and [getMinutes] read. *)
Record ClockTime := mkClockTime {
  getHours : Z;
  getMinutes : Z
}.

Record State := mkState {
  st_context : AnalysisContext;
  cursorTime : option Z;
  tasks : list TaskNode;
  currentSection : SectionMode
}.

Definition setContext (st : State) (c : AnalysisContext) : State :=
  mkState c (cursorTime st) (tasks st) (currentSection st).

Definition setSection (st : State) (m : SectionMode) : State :=
  mkState (st_context st) (cursorTime st) (tasks st) m.

(** [durationStr.match(/^(?:(\d+)h)?(?:(\d+)m)?$/)] *)
Definition matchDurationStr (durationStr : string) : option (option string * option string) :=
  let (h, r1) := TimeUtils.optCount "h" durationStr in
  let (m, r2) := TimeUtils.optCount "m" r1 in
  if Js.isEmpty r2 then Some (h, m) else None.

Definition parseDuration (durationStr : string) (lineNo : Z) : Diagnostic + Z :=
  match matchDurationStr durationStr with
  | Some (h, m) => inr (TimeUtils.parseIntOr0 h * 60 + TimeUtils.parseIntOr0 m)
  | None =>
      inl (mkDiagnostic ErrorCode.BAD_DURATION ("Invalid duration format: " ++ durationStr)
             (spanOver lineNo durationStr))
  end.

(** [timeStr.match(/^(\d{1,2})(?::(\d{2}))?(?:(am|pm))?$/i)] *)
Definition matchTimeStr (timeStr : string) : option (string * option string * option string) :=
  match TimeUtils.oneOrTwoDigits timeStr with
  | None => None
  | Some (hh, r1) =>
      let (mm, r2) := TimeUtils.optMinutes r1 in
      if Js.isEmpty r2 then Some (hh, mm, None)
      else if Js.equalsI "am" r2 || Js.equalsI "pm" r2 then Some (hh, mm, Some r2)
      else None
  end.

(** [date.setHours(hours, minutes, 0, 0)] on today's date, as read back by
    [getHours] and [getMinutes]: minutes carry into hours, hours into days. *)
Definition clockOf (hours minutes : Z) : ClockTime :=
  let total := hours * 60 + minutes in
  mkClockTime ((total / 60) mod 24) (total mod 60).

Definition parseTime (timeStr : string) (lineNo : Z) : Diagnostic + ClockTime :=
  if String.eqb (Js.toLowerCase timeStr) "noon" then inr (clockOf 12 0)
  else if String.eqb (Js.toLowerCase timeStr) "midnight" then inr (clockOf 0 0)
  else
    match matchTimeStr timeStr with
    | None =>
        inl (mkDiagnostic ErrorCode.BAD_TIME ("Invalid time format: " ++ timeStr)
               (spanOver lineNo timeStr))
    | Some (hh, mm, ampm) =>
        let hours := Js.parseInt hh in
        let minutes := TimeUtils.parseIntOr0 mm in
        let ampm := option_map Js.toLowerCase ampm in
        let isAmPm (w : string) :=
          match ampm with Some a => String.eqb a w | None => false end in
        let hours :=
          if isAmPm "pm" && negb (hours =? 12) then hours + 12
          else if isAmPm "am" && (hours =? 12) then 0
          else hours in
        inr (clockOf hours minutes)
    end.

Fixpoint parseCategories (categories : list string) (lineNo : Z)
  : list CategoryPath * list Diagnostic :=
  match categories with
  | [] => ([], [])
  | category :: rest =>
      let (result, errors) := parseCategories rest lineNo in
      if Js.startsWith category ":" then
        let segments := Js.splitLit "::" (Js.drop 1 category) in
        if List.existsb (fun s => Js.isEmpty (Js.trim s)) segments then
          (result,
           mkDiagnostic ErrorCode.BAD_CATEGORY "Empty category segment"
             (spanOver lineNo category) :: errors)
        else (mkCategoryPath segments :: result, errors)
      else (result, errors)
  end.

(** ["/^\d{4}-\d{2}-\d{2}$/"] *)
Definition isDayFormat (s : string) : bool :=
  match s with
  | String y1 (String y2 (String y3 (String y4 (String d1
      (String m1 (String m2 (String d2 (String a1 (String a2 EmptyString))))))))) =>
      Js.isDigit y1 && Js.isDigit y2 && Js.isDigit y3 && Js.isDigit y4
      && Ascii.eqb d1 "-" && Js.isDigit m1 && Js.isDigit m2
      && Ascii.eqb d2 "-" && Js.isDigit a1 && Js.isDigit a2
  | _ => false
  end.

Definition policyOfString (s : string) : option OverlapPolicy :=
  if String.eqb s "warning" then Some policy_warning
  else if String.eqb s "error" then Some policy_error
  else if String.eqb s "ignore" then Some policy_ignore
  else None.

(** [applyDirective]: the state it leaves, or the message of the [Error] it
    throws (every caller catches it). *)
Definition applyDirective (st : State) (directive : RawDirectiveParts) : string + State :=
  let ctx := st_context st in
  let nm := name directive in
  if String.eqb nm "scratchpad" then inr (setSection st scratchpad)
  else if String.eqb nm "planner" then inr (setSection st planner)
  else if String.eqb nm "default" then
    match objGet (args directive) "duration" with
    | Some d =>
        if Js.isEmpty d then inr st
        else
          match parseDuration d 1 with
          | inr value =>
              if value =? 0 then inl "Invalid default duration"
              else inr (setContext st
                          (mkAnalysisContext (day ctx) (timezone ctx) value (overlapPolicy ctx)))
          | inl _ => inl "Invalid default duration"
          end
    | None => inr st
    end
  else if String.eqb nm "policy" then
    match objGet (args directive) "overlaps" with
    | Some policy =>
        if Js.isEmpty policy then inr st
        else
          match policyOfString policy with
          | Some p =>
              inr (setContext st
                     (mkAnalysisContext (day ctx) (timezone ctx) (defaultDurationMin ctx) p))
          | None => inl "Invalid overlap policy"
          end
    | None => inr st
    end
  else if String.eqb nm "day" then
    match firstValue (args directive) with
    | Some v =>
        if isDayFormat v then
          inr (setContext st
                 (mkAnalysisContext v (timezone ctx) (defaultDurationMin ctx) (overlapPolicy ctx)))
        else inl "Invalid day format, expected YYYY-MM-DD"
    | None => inl "Invalid day format, expected YYYY-MM-DD"
    end
  else if String.eqb nm "tz" then
    inr (setContext st
           (mkAnalysisContext (day ctx) (firstValue (args directive))
              (defaultDurationMin ctx) (overlapPolicy ctx)))
  else inl ("Unknown directive: " ++ nm).

(** [((acc << 5) - acc + char.charCodeAt(0)) & 0xffffffff] on 32-bit integers *)
Definition toInt32 (x : Z) : Z := (x + 2147483648) mod 4294967296 - 2147483648.

Fixpoint hashFrom (acc : Z) (raw : string) : Z :=
  match raw with
  | EmptyString => acc
  | String c r => hashFrom (toInt32 (toInt32 (acc * 32) - acc + Js.codeOf c)) r
  end.

Definition generateLineId (raw : string) (index : Z) : string :=
  let hash := hashFrom 0 raw in
  "line_" ++ Js.numToString index ++ "_" ++ Js.numToHex (Z.abs hash).

(** [d.code.startsWith('E')] on some diagnostic *)
Definition hasErrorCode (diagnostics : list Diagnostic) : bool :=
  List.existsb (fun d => Js.startsWith (code d) "E") diagnostics.

Definition statusOf (diagnostics : list Diagnostic) : LineStatus :=
  if hasErrorCode diagnostics then invalid
  else match diagnostics with
       | [] => valid
       | _ => valid_with_warnings
       end.

(** The comparison of two dates; it is false when either is invalid. *)
Definition dateLt (a b : JsDate) : bool :=
  match a, b with
  | Some x, Some y => x <? y
  | _, _ => false
  end.

Definition checkOverlap (scheduled : list TaskNode) (startDate endDate : JsDate) : bool :=
  List.existsb
    (fun t =>
       match start t, end_ t with
       | Some taskStart, Some taskEnd =>
           dateLt startDate (Some taskEnd) && dateLt (Some taskStart) endDate
       | _, _ => false
       end) scheduled.

Definition lineWith (rawLine : ParsedLineRaw) (id : string) (st : LineStatus)
  (diagnostics : list Diagnostic) (n : option Node) : ParsedLine :=
  mkParsedLine id (r_raw rawLine) (r_lineNo rawLine) st diagnostics n.

Definition analyzeDirective (st : State) (rawLine : ParsedLineRaw)
  (directive : RawDirectiveParts) (id : string) : ParsedLine * State :=
  let diagnostics := r_diagnostics rawLine in
  let (diagnostics, st') :=
    match applyDirective st directive with
    | inr st' => (diagnostics, st')
    | inl msg =>
        ((diagnostics ++
            [mkDiagnostic ErrorCode.UNKNOWN_DIRECTIVE ("Error: " ++ msg)
               (spanOver (r_lineNo rawLine) (r_raw rawLine))])%list, st)
    end in
  let node := mkDirectiveNode (name directive) (args directive) in
  (lineWith rawLine id (statusOf diagnostics) diagnostics (Some (DirectiveN node)), st').

Section WithHost.

Variable host : Host.

(** The time value of a date the host builds: invalid beyond the largest
    time value. *)
Definition timeClip (t : Z) : JsDate :=
  if Z.abs (t - host_utcOffset host) <=? maxTimeValue then Some t else None.

Definition resolveTimeToDate (ctx : AnalysisContext) (time : ClockTime) : JsDate :=
  let today :=
    if Js.isEmpty (day ctx) then Some (host_nowDay host)
    else host_dayOfDateString host (day ctx ++ "T00:00:00") in
  match today with
  | Some d => timeClip (d * 1440 + getHours time * 60 + getMinutes time)
  | None => None
  end.

(** The blocks of [analyzeTask], in the order of the source. *)

(** "Collect parsing errors" *)
Definition parseErrors (parsedTime : option (Diagnostic + ClockTime))
  (parsedDuration : option (Diagnostic + Z)) (categoryErrors : list Diagnostic)
  : list Diagnostic :=
  (match parsedTime with Some (inl e) => [e] | _ => [] end
   ++ match parsedDuration with Some (inl e) => [e] | _ => [] end
   ++ categoryErrors)%list.

(** "Determine start time": the start, [explicitStart], and the diagnostic
    of a first line without a start. *)
Definition determineStart (st : State) (rawLine : ParsedLineRaw)
  (parsedTime : option (Diagnostic + ClockTime))
  : option JsDate * bool * list Diagnostic :=
  match parsedTime with
  | Some (inr value) => (Some (resolveTimeToDate (st_context st) value), true, [])
  | _ =>
      match cursorTime st with
      | Some cursor => (Some (Some cursor), false, [])
      | None =>
          (None, false,
           [mkDiagnostic ErrorCode.MISSING_START_FIRST_LINE
              "First task must have an explicit start time"
              (spanOver (r_lineNo rawLine) (r_raw rawLine))])
      end
  end.

(** "Calculate end time" *)
Definition endTimeOf (startDate : option JsDate) (durationMin : Z) : option JsDate :=
  match startDate with
  | Some (Some s) => Some (timeClip (s + durationMin))
  | Some None => Some None
  | None => None
  end.

(** "Check for overlaps": the diagnostic that is pushed, if any. *)
Definition overlapDiagnostics (st : State) (rawLine : ParsedLineRaw)
  (startDate endDate : option JsDate) : list Diagnostic :=
  match startDate, endDate with
  | Some s, Some e =>
      match overlapPolicy (st_context st) with
      | policy_ignore => []
      | policy =>
          if checkOverlap (tasks st) s e then
            [mkDiagnostic
               (match policy with
                | policy_error => ErrorCode.OVERLAP
                | _ => WarningCode.OVERLAP
                end)
               "Task overlaps with previous task"
               (spanOver (r_lineNo rawLine) (r_raw rawLine))]
          else []
      end
  | _, _ => []
  end.

(** [task.titleParts.join(' ').trim() || 'Untitled'] *)
Definition titleOf (task : RawTaskParts) : string :=
  let titleText := Js.trim (Js.join " " (titleParts task)) in
  if Js.isEmpty titleText then "Untitled" else titleText.

(** "Update cursor if this task is valid" *)
Definition commitTask (st : State) (taskNode : TaskNode) (endDate : option JsDate)
  (hasErrors : bool) : State :=
  match endDate with
  | Some (Some e) =>
      if negb hasErrors
      then mkState (st_context st) (Some e) (tasks st ++ [taskNode])%list (currentSection st)
      else st
  | _ => st
  end.

Definition analyzeTask (st : State) (rawLine : ParsedLineRaw) (task : RawTaskParts)
  (id : string) : Result (ParsedLine * State) :=
  let lineNo := r_lineNo rawLine in
  let parsedTime := option_map (fun t => parseTime t lineNo) (time task) in
  let parsedDuration := option_map (fun d => parseDuration d lineNo) (duration task) in
  let parsedCategories := parseCategories (rt_categories task) lineNo in
  let diagnostics :=
    (r_diagnostics rawLine
     ++ parseErrors parsedTime parsedDuration (snd parsedCategories))%list in
  let '(startDate, explicitStart, missing) := determineStart st rawLine parsedTime in
  let diagnostics := (diagnostics ++ missing)%list in
  let durationMin :=
    match parsedDuration with
    | Some (inr value) => value
    | _ => defaultDurationMin (st_context st)
    end in
  let explicitDuration :=
    match parsedDuration with Some (inr _) => true | _ => false end in
  let endDate := endTimeOf startDate durationMin in
  let diagnostics :=
    (diagnostics ++ overlapDiagnostics st rawLine startDate endDate)%list in
  (* [start?.toISOString()] and [end?.toISOString()] throw on an Invalid Date *)
  match startDate, endDate with
  | Some None, _ | _, Some None => Throw "RangeError: Invalid time value"
  | _, _ =>
      let taskNode :=
        mkTaskNode (titleOf task)
          (match startDate with Some (Some s) => Some s | _ => None end)
          durationMin
          (match endDate with Some (Some e) => Some e | _ => None end)
          (fst parsedCategories) explicitStart explicitDuration in
      let hasErrors := hasErrorCode diagnostics in
      Ok (lineWith rawLine id (statusOf diagnostics) diagnostics (Some (TaskN taskNode)),
          commitTask st taskNode endDate hasErrors)
  end.

Definition analyzeLine (st : State) (rawLine : ParsedLineRaw) (index : Z)
  : Result (ParsedLine * State) :=
  let id := generateLineId (r_raw rawLine) index in
  if isBlank rawLine || isComment rawLine then
    Ok (lineWith rawLine id valid (r_diagnostics rawLine) None, st)
  else
    match directive rawLine with
    | Some d => Ok (analyzeDirective st rawLine d id)
    | None =>
        match task rawLine with
        | Some t => analyzeTask st rawLine t id
        | None =>
            (* the scratchpad lines and every other line return the same record *)
            Ok (lineWith rawLine id valid (r_diagnostics rawLine) None, st)
        end
    end.

(** The first pass of [analyze]: every directive is applied, failures are
    ignored. *)
Fixpoint applyDirectives (st : State) (rawLines : list ParsedLineRaw) : State :=
  match rawLines with
  | [] => st
  | rawLine :: rest =>
      let st' :=
        match directive rawLine with
        | Some d => match applyDirective st d with inr st' => st' | inl _ => st end
        | None => st
        end in
      applyDirectives st' rest
  end.

(** The second pass of [analyze]: [rawLines.map(analyzeLine)] with the state
    of the analyzer threaded from line to line. *)
Fixpoint analyzeLines (st : State) (index : Z) (rawLines : list ParsedLineRaw)
  : Result (list ParsedLine * State) :=
  match rawLines with
  | [] => Ok ([], st)
  | rawLine :: rest =>
      match analyzeLine st rawLine index with
      | Throw e => Throw e
      | Ok (line, st') =>
          match analyzeLines st' (index + 1) rest with
          | Throw e => Throw e
          | Ok (lines, st'') => Ok (line :: lines, st'')
          end
      end
  end.

(** [new DayPlanAnalyzer(options)] *)
Definition initialState (options : ParseOptions) : State :=
  let orElse (o : option string) (d : string) :=
    match o with
    | Some s => if Js.isEmpty s then d else s
    | None => d
    end in
  mkState
    (mkAnalysisContext (orElse (today options) (host_today host))
       (Some (orElse (opt_timezone options) (host_timeZone host))) 30 policy_warning)
    None [] planner.

(** [analyze] on the lines of the source; the syntax tree of the parser is
    not read. *)
Definition analyzeSourceLines (options : ParseOptions) (sourceLines : list string)
  : Result Program :=
  let st0 := initialState options in
  let rawLines := parseLinesToRaw sourceLines in
  let st1 := applyDirectives st0 rawLines in
  match analyzeLines st1 0 rawLines with
  | Throw e => Throw e
  | Ok (analyzedLines, st2) => Ok (mkProgram (st_context st2) analyzedLines)
  end.

Definition analyze (options : ParseOptions) (source : string) : Result Program :=
  analyzeSourceLines options (Js.splitLines source).

(** index.ts *)
Definition parseAndAnalyze (source : string) (options : ParseOptions) : Result Program :=
  analyze options source.

End WithHost.

(** ** A host to run the examples on

    Its clock is UTC; it reads a date string of the form
    [YYYY-MM-DDT00:00:00] by the calendar and any other string as an Invalid
    Date. *)

Definition daysFromCivil (y m d : Z) : Z :=
  let y' := if m <=? 2 then y - 1 else y in
  let era := y' / 400 in
  let yoe := y' - era * 400 in
  let mp := (m + 9) mod 12 in
  let doy := (153 * mp + 2) / 5 + d - 1 in
  let doe := yoe * 365 + yoe / 4 - yoe / 100 + doy in
  era * 146097 + doe - 719468.

Definition daysInMonth (y m : Z) : Z :=
  if m =? 2 then
    if ((y mod 4 =? 0) && negb (y mod 100 =? 0)) || (y mod 400 =? 0) then 29 else 28
  else if (m =? 4) || (m =? 6) || (m =? 9) || (m =? 11) then 30
  else 31.

Definition isoDayOfDateString (s : string) : option Z :=
  if isDayFormat (Js.take 10 s) && String.eqb (Js.drop 10 s) "T00:00:00" then
    let y := Js.parseInt (Js.take 4 s) in
    let m := Js.parseInt (Js.substring s 5 7) in
    let d := Js.parseInt (Js.substring s 8 10) in
    if (1 <=? m) && (m <=? 12) && (1 <=? d) && (d <=? daysInMonth y m)
    then Some (daysFromCivil y m d) else None
  else None.

Definition sampleHost : Host :=
  mkHost "2025-01-15" "UTC" (daysFromCivil 2025 1 15) isoDayOfDateString 0.

Definition noOptions : ParseOptions := mkParseOptions None None.

End Analyzer.

(* ===================================================================== *)
(** * lsp/parser-utils.ts *)
(* ===================================================================== *)

Module ParserUtils.

Inductive TimeTokenType := TimeClock | TimeWord.

Record TimeToken := mkTimeToken {
  timeStr : string;
  tt_start : Z;
  tt_end : Z;
  tt_tokenType : TimeTokenType
}.

Fixpoint firstTimeToken (tokens : list Lexer.Token) : option TimeToken :=
  match tokens with
  | [] => None
  | token :: rest =>
      match Lexer.tokenType token with
      | Lexer.TimeClock =>
          Some (mkTimeToken (Lexer.image token) (Lexer.startOffset token)
                  (Lexer.endOffset token + 1) TimeClock)
      | Lexer.TimeWord =>
          Some (mkTimeToken (Lexer.image token) (Lexer.startOffset token)
                  (Lexer.endOffset token + 1) TimeWord)
      | _ => firstTimeToken rest
      end
  end.

Definition findTimeTokenInLine (line : string) : option TimeToken :=
  firstTimeToken (Lexer.tokens (Lexer.tokenize line)).

Record LineFormat := mkLineFormat {
  lf_valid : bool;
  hasDash : bool;
  hasTime : bool;
  hasDuration : bool
}.

Definition hasTokenOf (p : Lexer.TokenType -> bool) (tokens : list Lexer.Token) : bool :=
  List.existsb (fun token => p (Lexer.tokenType token)) tokens.

Definition validateTaskLineFormat (line : string) : LineFormat :=
  let tokens := Lexer.tokens (Lexer.tokenize line) in
  let hasDash := hasTokenOf (fun ty => Lexer.tokenType_eqb ty Lexer.Dash) tokens in
  let hasTime :=
    hasTokenOf (fun ty => Lexer.tokenType_eqb ty Lexer.TimeClock
                          || Lexer.tokenType_eqb ty Lexer.TimeWord) tokens in
  let hasDuration := hasTokenOf (fun ty => Lexer.tokenType_eqb ty Lexer.Duration) tokens in
  mkLineFormat hasDash hasDash hasTime hasDuration.

End ParserUtils.

(* ===================================================================== *)
(** * lsp/commands/time-shift.ts *)
(* ===================================================================== *)

Module TimeShift.

Record TimeShiftResult := mkTimeShiftResult {
  success : bool;
  newLineContent : option string;
  error : option string;
  affectedLines : option (list string)
}.

Definition failure (msg : option string) : TimeShiftResult :=
  mkTimeShiftResult false None msg None.

Definition msgNotTask : string := "Time shift can only be applied to task lines".
Definition msgMissingDash : string :=
  "Invalid task line format - missing dash or malformed syntax".
Definition msgBadOffset : string := "Invalid offset format".
Definition msgNoTimeToken : string := "Could not locate time in line to modify".
Definition msgBadLine : string := "Invalid task line format".
Definition msgNoTime : string := "Task has no time information to shift".

(** [formatTimeForInsertion]; on an Invalid Date [getHours] and [getMinutes]
    are [NaN], every comparison fails, and the template prints them. *)
Definition formatTimeForInsertion (date : Analyzer.JsDate) : string :=
  match date with
  | None => "NaN:NaNam"
  | Some t =>
      let hours := (t / 60) mod 24 in
      let minutes := t mod 60 in
      if (hours =? 12) && (minutes =? 0) then "noon"
      else if (hours =? 0) && (minutes =? 0) then "midnight"
      else
        let ampm := if 12 <=? hours then "pm" else "am" in
        let displayHours := hours in
        let displayHours := if displayHours =? 0 then 12 else displayHours in
        let displayHours := if 12 <? displayHours then displayHours - 12 else displayHours in
        if minutes =? 0 then Js.numToString displayHours ++ ampm
        else Js.numToString displayHours ++ ":"
             ++ Js.padStart0 2 (Js.numToString minutes) ++ ampm
  end.

(** [rawLine.match] on "/^(\s*-\s*)(.*)/": the prefix and the content. *)
Definition matchDashPrefix (rawLine : string) : option (string * string) :=
  match Lexer.matchDashPart rawLine with
  | Some prefix =>
      Some (prefix, Js.takeWhile Lexer.notLineBreak (Js.drop (String.length prefix) rawLine))
  | None => None
  end.

Fixpoint findIndexFrom (i : nat) (p : ParsedLine -> bool) (l : list ParsedLine) : option nat :=
  match l with
  | [] => None
  | x :: r => if p x then Some i else findIndexFrom (S i) p r
  end.

Definition isExplicitTask (line : ParsedLine) : bool :=
  match node line with
  | Some (TaskN t) => explicitStart t
  | _ => false
  end.

Definition isImplicitTask (line : ParsedLine) : bool :=
  match node line with
  | Some (TaskN t) => negb (explicitStart t)
  | _ => false
  end.

(** The loop of [findAffectedLines] over the lines after the shifted one. *)
Fixpoint collectAffected (l : list ParsedLine) : list ParsedLine :=
  match l with
  | [] => []
  | line :: rest =>
      if isExplicitTask line then []
      else if isImplicitTask line then line :: collectAffected rest
      else collectAffected rest
  end.

Definition findAffectedLines (shiftedLine : ParsedLine) (allLines : list ParsedLine)
  : list ParsedLine :=
  match findIndexFrom 0 (fun l => String.eqb (id l) (id shiftedLine)) allLines with
  | None => []
  | Some shiftedIndex => collectAffected (List.skipn (S shiftedIndex) allLines)
  end.

(** [results.set(key, value)] on a [Map]: a present key keeps its place. *)
Fixpoint mapSet {K V : Type} (eqb : K -> K -> bool) (m : list (K * V)) (k : K) (v : V)
  : list (K * V) :=
  match m with
  | [] => [(k, v)]
  | (k', v') :: r => if eqb k' k then (k, v) :: r else (k', v') :: mapSet eqb r k v
  end.

Fixpoint mapGet {K V : Type} (eqb : K -> K -> bool) (m : list (K * V)) (k : K) : option V :=
  match m with
  | [] => None
  | (k', v) :: r => if eqb k' k then Some v else mapGet eqb r k
  end.

Record BatchResult := mkBatchResult {
  b_success : bool;
  b_results : list (string * TimeShiftResult);
  b_error : option string
}.

Section WithHost.

Variable host : Analyzer.Host.

(** [shiftTaskTime]; [None] when it does not return, which is when
    [applyTimeOffsetToTimeString] does not. *)
Definition shiftTaskTime (rawLine : string) (task : TaskNode) (offset : string)
  : option TimeShiftResult :=
  match TimeUtils.parseTimeOffset offset with
  | None => Some (failure (Some msgBadOffset))
  | Some parsedOffset =>
      match start task with
      | None => Some (failure (Some msgNoTime))
      | Some taskStart =>
          if explicitStart task then
            match ParserUtils.findTimeTokenInLine rawLine with
            | None => Some (failure (Some msgNoTimeToken))
            | Some timeToken =>
                match TimeUtils.applyTimeOffsetToTimeString
                        (ParserUtils.timeStr timeToken) parsedOffset with
                | None => None
                | Some shiftResult =>
                    match TimeUtils.success shiftResult, TimeUtils.newTime shiftResult with
                    | true, Some newTime =>
                        let newLine :=
                          Js.substring rawLine 0 (Z.to_nat (ParserUtils.tt_start timeToken))
                          ++ newTime
                          ++ Js.substringFrom rawLine
                               (Z.to_nat (ParserUtils.tt_end timeToken)) in
                        Some (mkTimeShiftResult true (Some newLine) None None)
                    | _, _ => Some (failure (TimeUtils.error shiftResult))
                    end
                end
            end
          else
            let totalMinutes := TimeUtils.totalMinutesOf parsedOffset in
            let currentTime := Analyzer.timeClip host (taskStart + totalMinutes) in
            let newTimeStr := formatTimeForInsertion currentTime in
            match matchDashPrefix rawLine with
            | None => Some (failure (Some msgBadLine))
            | Some (prefix, content) =>
                Some (mkTimeShiftResult true (Some (prefix ++ newTimeStr ++ ", " ++ content))
                        None None)
            end
      end
  end.

(** [executeTimeShift].  The offset that reaches [shiftTaskTime] is
    validated, 12 hours at most, and [shiftTaskTime] returns on such an
    offset: the branch for [None] is never taken, whatever it holds. *)
Definition executeTimeShift (line : ParsedLine) (offset : string) (allLines : list ParsedLine)
  : TimeShiftResult :=
  let validation := TimeUtils.validateTimeOffset offset in
  if negb (TimeUtils.valid validation) then failure (TimeUtils.v_error validation)
  else
    match node line with
    | Some (TaskN task) =>
        let lineValidation := ParserUtils.validateTaskLineFormat (raw line) in
        if negb (ParserUtils.lf_valid lineValidation) then failure (Some msgMissingDash)
        else
          match shiftTaskTime (raw line) task offset with
          | Some timeShiftResult =>
              if negb (success timeShiftResult) then timeShiftResult
              else
                let affected := findAffectedLines line allLines in
                mkTimeShiftResult true (newLineContent timeShiftResult) None
                  (Some (List.map id affected))
          | None => failure None
          end
    | _ => failure (Some msgNotTask)
    end.

(** The loop of [executeBatchTimeShift]: the map of results, and whether a
    line failed. *)
Fixpoint batchLoop (allLines : list ParsedLine) (offset : string)
  (results : list (string * TimeShiftResult)) (hasErrors : bool) (todo : list ParsedLine)
  : list (string * TimeShiftResult) * bool :=
  match todo with
  | [] => (results, hasErrors)
  | line :: rest =>
      let result := executeTimeShift line offset allLines in
      batchLoop allLines offset (mapSet String.eqb results (id line) result)
        (hasErrors || negb (success result)) rest
  end.

Definition executeBatchTimeShift (lines : list ParsedLine) (offset : string) : BatchResult :=
  let validation := TimeUtils.validateTimeOffset offset in
  if negb (TimeUtils.valid validation)
  then mkBatchResult false [] (TimeUtils.v_error validation)
  else
    let (results, hasErrors) := batchLoop lines offset [] false lines in
    mkBatchResult (negb hasErrors) results
      (if hasErrors then Some "Some lines failed to shift" else None).

End WithHost.

End TimeShift.

(* ===================================================================== *)
(** * lsp/core.ts: the language service *)
(* ===================================================================== *)

Module Core.

Record LineOutcome := mkLineOutcome {
  o_success : bool;
  o_error : option string
}.

Record BatchTimeShiftResult := mkBatchTimeShiftResult {
  success : bool;
  newContent : option string;
  error : option string;
  results : list (Z * LineOutcome)
}.

(** [program.lines[n - 1]], [undefined] outside the array *)
Definition lineAt (lines : list ParsedLine) (n : Z) : option ParsedLine :=
  if 1 <=? n then List.nth_error lines (Z.to_nat (n - 1)) else None.

(** [lineNumbers.map(n => program.lines[n - 1]).filter(Boolean)] *)
Fixpoint selectLines (lines : list ParsedLine) (lineNumbers : list Z) : list ParsedLine :=
  match lineNumbers with
  | [] => []
  | n :: rest =>
      match lineAt lines n with
      | Some line => line :: selectLines lines rest
      | None => selectLines lines rest
      end
  end.

(** [contentLines[i] = text] for an index inside the array *)
Fixpoint setNth (i : nat) (text : string) (l : list string) : list string :=
  match l, i with
  | [], _ => []
  | _ :: r, O => text :: r
  | x :: r, S k => x :: setNth k text r
  end.

(** The loop that merges the results of the batch by line number. *)
Fixpoint mergeLoop (programLines : list ParsedLine) (contentLines : list string)
  (results : list (Z * LineOutcome)) (todo : list (string * TimeShift.TimeShiftResult))
  : list string * list (Z * LineOutcome) :=
  match todo with
  | [] => (contentLines, results)
  | (lineId, result) :: rest =>
      match List.find (fun l => String.eqb (id l) lineId) programLines with
      | Some line =>
          match TimeShift.success result, TimeShift.newLineContent result with
          | true, Some text =>
              if Js.isEmpty text then
                mergeLoop programLines contentLines
                  (TimeShift.mapSet Z.eqb results (lineNo line)
                     (mkLineOutcome false (TimeShift.error result))) rest
              else
                mergeLoop programLines
                  (setNth (Z.to_nat (lineNo line - 1)) text contentLines)
                  (TimeShift.mapSet Z.eqb results (lineNo line) (mkLineOutcome true None)) rest
          | _, _ =>
              mergeLoop programLines contentLines
                (TimeShift.mapSet Z.eqb results (lineNo line)
                   (mkLineOutcome false (TimeShift.error result))) rest
          end
      | None => mergeLoop programLines contentLines results rest
      end
  end.

Section WithHost.

Variable host : Analyzer.Host.

Definition analyzeDocument (content : string) : Analyzer.Result Program :=
  Analyzer.parseAndAnalyze host content Analyzer.noOptions.

Definition shiftMultipleLines (content : string) (lineNumbers : list Z) (offset : string)
  : Analyzer.Result BatchTimeShiftResult :=
  let validation := TimeUtils.validateTimeOffset offset in
  if negb (TimeUtils.valid validation)
  then Analyzer.Ok (mkBatchTimeShiftResult false None (TimeUtils.v_error validation) [])
  else
    match analyzeDocument content with
    | Analyzer.Throw e => Analyzer.Throw e
    | Analyzer.Ok program =>
        let selected := selectLines (lines program) lineNumbers in
        let batchResult := TimeShift.executeBatchTimeShift host selected offset in
        if negb (TimeShift.b_success batchResult)
        then Analyzer.Ok (mkBatchTimeShiftResult false None (TimeShift.b_error batchResult) [])
        else
          let contentLines := Js.splitLines content in
          let (contentLines, results) :=
            mergeLoop (lines program) contentLines [] (TimeShift.b_results batchResult) in
          Analyzer.Ok
            (mkBatchTimeShiftResult true (Some (Js.join (String "010"%char EmptyString) contentLines))
               None results)
    end.

End WithHost.

End Core.

(* ===================================================================== *)
(** * The vocabulary of the properties *)
(* ===================================================================== *)

Module Props.

Import Analyzer.

(** The state in which the second pass of [analyze] reaches the line of
    index [k] (counted from 0), when no line before it throws. *)
Definition stateBefore (host : Host) (options : ParseOptions) (source : string) (k : nat)
  : Result State :=
  let rawLines := parseLinesToRaw (Js.splitLines source) in
  match analyzeLines host (applyDirectives (initialState host options) rawLines) 0
          (List.firstn k rawLines) with
  | Ok (_, st) => Ok st
  | Throw e => Throw e
  end.


(** The section mode in which [parseLinesToRaw] reads what follows [lines]. *)
Fixpoint sectionAfterFrom (currentSection : SectionMode) (lineNo : Z) (lines : list string)
  : SectionMode :=
  match lines with
  | [] => currentSection
  | line :: rest =>
      sectionAfterFrom (snd (parseLineToRaw currentSection line lineNo)) (lineNo + 1) rest
  end.

(** The section mode in which the line of index [k] is read. *)
Definition sectionBefore (source : string) (k : nat) : SectionMode :=
  sectionAfterFrom planner 1 (List.firstn k (Js.splitLines source)).

(** The scheduled set that analysed lines build: the nodes of the task lines
    that carry no error-class diagnostic, in document order. *)
Definition scheduledOf (ls : list ParsedLine) : list TaskNode :=
  List.flat_map
    (fun l =>
       match node l with
       | Some (TaskN t) => if hasErrorCode (diagnostics l) then [] else [t]
       | _ => []
       end) ls.

(** The end instant of the most recent task of a scheduled set. *)
Definition lastEnd (scheduled : list TaskNode) : option Z :=
  match List.rev scheduled with
  | t :: _ => end_ t
  | [] => None
  end.

(** The half-open interval test [start < otherEnd && end > otherStart]. *)
Definition intersects (s e : Z) (other : TaskNode) : bool :=
  match start other, end_ other with
  | Some otherStart, Some otherEnd => (s <? otherEnd) && (e >? otherStart)
  | _, _ => false
  end.

Definition isOverlapCode (c : string) : bool :=
  String.eqb c ErrorCode.OVERLAP || String.eqb c WarningCode.OVERLAP.

(** The codes of the overlap diagnostics of a line. *)
Definition overlapCodes (l : ParsedLine) : list string :=
  List.filter isOverlapCode (List.map code (diagnostics l)).

Definition hasCode (c : string) (l : ParsedLine) : Prop :=
  List.In c (List.map code (diagnostics l)).

Definition isDirectiveNamed (nm : string) (rawLine : ParsedLineRaw) : bool :=
  match directive rawLine with
  | Some d => String.eqb (name d) nm
  | None => false
  end.

(** A line that is blank, a comment, or a directive. *)
Definition isInert (rawLine : ParsedLineRaw) : bool :=
  isBlank rawLine || isComment rawLine
  || match directive rawLine with Some _ => true | None => false end.











(** Every character but the line feed. *)
Definition notNewline (c : ascii) : bool := negb (Js.codeOf c =? 10).

(** A count followed by its unit letter, as the offset grammar has it. *)
Definition isCount (s : string) : Prop :=
  s <> EmptyString /\ Js.forallb Js.isDigit s = true.

(** The offset grammar in the words of the specification: a sign, then an
    hour count with the hour unit and/or a minute count with the minute
    unit, at least one of them; with the magnitude in minutes. *)
Inductive OffsetShape : string -> Z -> Prop :=
| shape_hours_minutes : forall sg h m,
    sg = "+"%char \/ sg = "-"%char -> isCount h -> isCount m ->
    OffsetShape (String sg (h ++ "h" ++ m ++ "m")) (Js.parseInt h * 60 + Js.parseInt m)
| shape_hours : forall sg h,
    sg = "+"%char \/ sg = "-"%char -> isCount h ->
    OffsetShape (String sg (h ++ "h")) (Js.parseInt h * 60)
| shape_minutes : forall sg m,
    sg = "+"%char \/ sg = "-"%char -> isCount m ->
    OffsetShape (String sg (m ++ "m")) (Js.parseInt m).

(** The codes of the diagnostics that [analyzeTask] adds before it checks
    for overlaps. *)
Definition analysisCodes : list string :=
  [ErrorCode.BAD_TIME; ErrorCode.BAD_DURATION; ErrorCode.BAD_CATEGORY;
   ErrorCode.MISSING_START_FIRST_LINE].

(** The codes of the diagnostics that [parseLinesToRaw] gives a line. *)
Definition rawCodes : list string :=
  [WarningCode.MISSING_SPACE_AFTER_DASH; WarningCode.UNKNOWN_PART;
   ErrorCode.BAD_CATEGORY; ErrorCode.BAD_DURATION; WarningCode.TRAILING_COMMA].

Definition rawCoded (ds : list Diagnostic) : Prop :=
  Forall (fun d => In (code d) rawCodes) ds.

(** An offset that keeps the arithmetic of a shift among the integers that a
    double holds exactly: a sign, and two counts of 2^52 minutes at most
    together. *)
Definition exactOffset (offset : TimeUtils.TimeOffset) : Prop :=
  (TimeUtils.sign offset = 1 \/ TimeUtils.sign offset = -1)
  /\ 0 <= TimeUtils.hours offset /\ 0 <= TimeUtils.minutes offset
  /\ TimeUtils.hours offset * 60 + TimeUtils.minutes offset <= 2 ^ 52.

(** A failed shift: no new line text, and an error message. *)
Definition isFailure (r : TimeShift.TimeShiftResult) : Prop :=
  TimeShift.newLineContent r = None /\ exists msg, TimeShift.error r = Some msg.

Definition range (n : nat) : list Z := List.map Z.of_nat (List.seq 0 n).



End Props.

(** ** Sample documents *)

Module Samples.

Definition newline : string := String "010"%char EmptyString.

Definition document (sourceLines : list string) : string := Js.join newline sourceLines.





(** A section directive between two tasks; and the two tasks alone. *)
Definition notesBetween : string := document ["- 9am, A"; "- !scratchpad"; "- 10am, B"].

Definition notesBetweenWithout : string := document ["- 9am, A"; "- 10am, B"].

(** A directive inside a scratchpad section. *)
Definition todoInNotes : string := document ["- !scratchpad"; "- !todo call mom"].

(** Free text with a time and a duration inside a scratchpad section. *)
Definition taskInNotes : string :=
  document ["- !scratchpad"; "- 9am, Standup, 30m @work"; "- !planner"].

(** A scratchpad directive without its marker, then a line with one. *)
Definition bangScratchpad : string := document ["!scratchpad"; "- call mom"].

(** A task without a time under a comment and a directive. *)
Definition unanchored : string := document ["# plan"; "- !default duration=15m"; "- Write"].


(** A task, and a comment. *)
Definition taskAndComment : string := document ["- 9am, A, 30m"; "# note"].

(** A chain of three tasks, the second one with a bad duration. *)
Definition chain : string := document ["- 9am, A, 1h"; "- B, 5x"; "- C, 30m"].

(** Two tasks that overlap. *)
Definition overlapping : string := document ["- 9am, A, 1h"; "- 9:30am, B, 1h"].

End Samples.

(** ** Tactics *)


From Stdlib Require Import DecimalN DecimalPos.

(* ===================================================================== *)
(** * lsp/parser-utils.ts: the other helpers *)
(* ===================================================================== *)

Module ParserUtilsRest.

Record HoursMinutes := mkHoursMinutes {
  hm_hours : Z;
  hm_minutes : Z
}.

(** [parseTimeString] of parser-utils.ts; its expression is the one of
    [parseTime] in the analyzer, and nothing in its [try] block throws. *)
Definition parseTimeString (timeStr : string) : option HoursMinutes :=
  if String.eqb (Js.toLowerCase timeStr) "noon" then Some (mkHoursMinutes 12 0)
  else if String.eqb (Js.toLowerCase timeStr) "midnight" then Some (mkHoursMinutes 0 0)
  else
    match Analyzer.matchTimeStr timeStr with
    | None => None
    | Some (hh, mm, ampm) =>
        let hours := Js.parseInt hh in
        let minutes := TimeUtils.parseIntOr0 mm in
        let ampm := option_map Js.toLowerCase ampm in
        let isAmPm (w : string) :=
          match ampm with Some a => String.eqb a w | None => false end in
        if (hours <? 0) || (23 <? hours) || (minutes <? 0) || (59 <? minutes) then None
        else if (match ampm with Some _ => true | None => false end)
                && ((hours <? 1) || (12 <? hours)) then None
        else
          let hours :=
            if isAmPm "pm" && negb (hours =? 12) then hours + 12
            else if isAmPm "am" && (hours =? 12) then 0
            else hours in
          Some (mkHoursMinutes hours minutes)
    end.




(** [parseDurationString]; the expression is the one of [parseDuration] in
    the analyzer, which matches no blank string but the empty one. *)
Definition parseDurationString (durationStr : string) : option Z :=
  if Js.isEmpty durationStr || Js.isEmpty (Js.trim durationStr) then None
  else
    match Analyzer.matchDurationStr durationStr with
    | None => None
    | Some (h, m) =>
        let hours := TimeUtils.parseIntOr0 h in
        let minutes := TimeUtils.parseIntOr0 m in
        if (hours =? 0) && (minutes =? 0) then None
        else Some (hours * 60 + minutes)
    end.

End ParserUtilsRest.

(* ===================================================================== *)
(** * Further vocabulary of the properties *)
(* ===================================================================== *)

Module Terms.

Definition format_eqb (a b : TimeUtils.TimeFormat) : bool :=
  match a, b with
  | TimeUtils.clock12, TimeUtils.clock12 | TimeUtils.clock24, TimeUtils.clock24
  | TimeUtils.word, TimeUtils.word => true
  | _, _ => false
  end.

(** The style in which the text of [formatTimeString hours minutes format]
    is read: the word style is kept at noon and at midnight only. *)
Definition styleRead (hours minutes : Z) (format : TimeUtils.TimeFormat)
  : TimeUtils.TimeFormat :=
  match format with
  | TimeUtils.word =>
      if ((hours =? 12) || (hours =? 0)) && (minutes =? 0)
      then TimeUtils.word else TimeUtils.clock12
  | _ => format
  end.

(** [parseTimeString] reads the text of [formatTimeString] as the same
    time. *)
Definition readsBack (hours minutes : Z) (format : TimeUtils.TimeFormat) : bool :=
  match TimeUtils.parseTimeString (TimeUtils.formatTimeString hours minutes format) with
  | Some p =>
      (TimeUtils.p_hours p =? hours) && (TimeUtils.p_minutes p =? minutes)
      && format_eqb (TimeUtils.p_format p) (styleRead hours minutes format)
  | None => false
  end.

(** The minute of the day of a parsed time. *)
Definition minuteOfDay (p : TimeUtils.ParsedTime) : Z :=
  TimeUtils.p_hours p * 60 + TimeUtils.p_minutes p.

(** The analyzer reads the text of [formatTimeForInsertion] as a time part,
    and as the same time of day. *)
Definition insertionReads (hours minutes : Z) : bool :=
  let text := TimeShift.formatTimeForInsertion (Some (hours * 60 + minutes)) in
  Analyzer.isTimePart text
  && match Analyzer.parseTime text 1 with
     | inr c => (Analyzer.getHours c =? hours) && (Analyzer.getMinutes c =? minutes)
     | inl _ => false
     end.

(** The time of the parts of a task line, when it has one, is a text that
    [isTimePart] accepts. *)
Definition timeIsPart (t : RawTaskParts) : Prop :=
  forall ts, time t = Some ts -> Analyzer.isTimePart ts = true.

(** A diagnostic with a span of columns counted from 1 and not empty. *)
Definition placed (d : Diagnostic) : Prop :=
  exists s, span d = Some s /\ 1 <= startCol s < endCol s.

End Terms.

(* ===================================================================== *)
(** * lsp/core.ts: the other methods of the language service *)
(* ===================================================================== *)

Module Service.

Record TimeShiftResult := mkTimeShiftResult {
  s_success : bool;
  s_newContent : option string;
  s_error : option string;
  s_affectedLines : option (list Z)
}.

Definition msgLineNotFound : string := "Line not found".
Definition msgNotTaskLine : string := "Not a valid task line".

(** [lines[i] = text] followed by [lines.join]: an index past the end of the
    array extends it with holes, which [join] prints as empty strings. *)
Fixpoint assignAt (i : nat) (text : string) (l : list string) : list string :=
  match i, l with
  | O, [] => [text]
  | O, _ :: r => text :: r
  | S k, [] => EmptyString :: assignAt k text []
  | S k, x :: r => x :: assignAt k text r
  end.

(** [program.lines.find(l => l.id === id)] then its [lineNo], or [-1] *)
Definition lineNumberOfId (programLines : list ParsedLine) (lineId : string) : Z :=
  match List.find (fun l => String.eqb (id l) lineId) programLines with
  | Some affectedLine => lineNo affectedLine
  | None => -1
  end.

Inductive Severity := sev_error | sev_warning.

Record DiagnosticInfo := mkDiagnosticInfo {
  di_line : Z;
  startColumn : Z;
  endColumn : Z;
  di_message : string;
  di_code : string;
  severity : Severity
}.

(** [x || d] on numbers: [0] is the falsy one ([NaN] does not occur) *)
Definition orElse (x d : Z) : Z := if x =? 0 then d else x.

(** The record that [getDiagnostics] pushes for one diagnostic of a line. *)
Definition infoOf (line : ParsedLine) (diag : Diagnostic) : DiagnosticInfo :=
  mkDiagnosticInfo (lineNo line)
    (match span diag with Some s => orElse (startCol s) 1 | None => 1 end)
    (match span diag with
     | Some s => orElse (endCol s) (Js.len (raw line) + 1)
     | None => Js.len (raw line) + 1
     end)
    (message diag) (code diag)
    (if Js.startsWith (code diag) "E" then sev_error else sev_warning).

Record QuickShiftResult := mkQuickShiftResult {
  q_success : bool;
  q_newLine : option string;
  q_error : option string
}.

Section WithHost.

Variable host : Analyzer.Host.

Definition shiftTime (content : string) (lineNumber : Z) (offset : string)
  : Analyzer.Result TimeShiftResult :=
  let validation := TimeUtils.validateTimeOffset offset in
  if negb (TimeUtils.valid validation)
  then Analyzer.Ok (mkTimeShiftResult false None (TimeUtils.v_error validation) None)
  else
    match Core.analyzeDocument host content with
    | Analyzer.Throw e => Analyzer.Throw e
    | Analyzer.Ok program =>
        match Core.lineAt (lines program) lineNumber with
        | None => Analyzer.Ok (mkTimeShiftResult false None (Some msgLineNotFound) None)
        | Some line =>
            let shiftResult := TimeShift.executeTimeShift host line offset (lines program) in
            if negb (TimeShift.success shiftResult)
            then Analyzer.Ok (mkTimeShiftResult false None (TimeShift.error shiftResult) None)
            else
              let newLine :=
                match TimeShift.newLineContent shiftResult with
                | Some text => text
                | None => EmptyString
                end in
              let contentLines :=
                assignAt (Z.to_nat (lineNumber - 1)) newLine (Js.splitLines content) in
              Analyzer.Ok
                (mkTimeShiftResult true
                   (Some (Js.join (String "010"%char EmptyString) contentLines))
                   None
                   (option_map
                      (fun ids =>
                         List.filter (fun n => 0 <? n)
                           (List.map (lineNumberOfId (lines program)) ids))
                      (TimeShift.affectedLines shiftResult)))
        end
    end.

Definition getDiagnostics (content : string) : Analyzer.Result (list DiagnosticInfo) :=
  match Core.analyzeDocument host content with
  | Analyzer.Throw e => Analyzer.Throw e
  | Analyzer.Ok program =>
      Analyzer.Ok
        (List.flat_map (fun line => List.map (infoOf line) (diagnostics line))
           (lines program))
  end.

(** [TempoestUtils.quickShiftTime] *)
Definition quickShiftTime (lineContent : string) (offset : string)
  : Analyzer.Result QuickShiftResult :=
  let validation := TimeUtils.validateTimeOffset offset in
  if negb (TimeUtils.valid validation)
  then Analyzer.Ok (mkQuickShiftResult false None (TimeUtils.v_error validation))
  else
    match Analyzer.parseAndAnalyze host lineContent Analyzer.noOptions with
    | Analyzer.Throw e => Analyzer.Throw e
    | Analyzer.Ok program =>
        match lines program with
        | first :: _ =>
            match node first with
            | Some (TaskN _) =>
                let result := TimeShift.executeTimeShift host first offset [] in
                Analyzer.Ok
                  (mkQuickShiftResult (TimeShift.success result)
                     (TimeShift.newLineContent result) (TimeShift.error result))
            | _ => Analyzer.Ok (mkQuickShiftResult false None (Some msgNotTaskLine))
            end
        | [] => Analyzer.Ok (mkQuickShiftResult false None (Some msgNotTaskLine))
        end
    end.

End WithHost.

End Service.

(* ===================================================================== *)
(** * Properties *)
(* ===================================================================== *)

(** ** Strings *)

Lemma takeWhile_dropWhile p s : Js.takeWhile p s ++ Js.dropWhile p s = s.
Proof.
  induction s as [|c r IH]; simpl; [reflexivity|].
  destruct (p c); simpl; [rewrite IH|]; reflexivity.
Qed.

Lemma takeWhile_forallb p s : Js.forallb p (Js.takeWhile p s) = true.
Proof.
  induction s as [|c r IH]; simpl; [reflexivity|].
  destruct (p c) eqn:E; simpl; [rewrite E; exact IH | reflexivity].
Qed.

Lemma takeWhile_app_stop p ds c r :
  Js.forallb p ds = true -> p c = false ->
  Js.takeWhile p (ds ++ String c r) = ds.
Proof.
  induction ds as [|d ds IH]; simpl; intros Hd Hc.
  - rewrite Hc. reflexivity.
  - apply andb_true_iff in Hd as [Hd1 Hd2]. rewrite Hd1, IH by assumption. reflexivity.
Qed.

Lemma dropWhile_app_stop p ds c r :
  Js.forallb p ds = true -> p c = false ->
  Js.dropWhile p (ds ++ String c r) = String c r.
Proof.
  induction ds as [|d ds IH]; simpl; intros Hd Hc.
  - rewrite Hc. reflexivity.
  - apply andb_true_iff in Hd as [Hd1 Hd2]. rewrite Hd1, IH by assumption. reflexivity.
Qed.

Lemma isEmpty_true s : Js.isEmpty s = true <-> s = EmptyString.
Proof. destruct s; simpl; split; congruence. Qed.

Lemma isEmpty_false s : Js.isEmpty s = false <-> s <> EmptyString.
Proof. destruct s; simpl; split; congruence. Qed.

Lemma append_assoc (a b c : string) : (a ++ b) ++ c = a ++ (b ++ c).
Proof. induction a as [|x a IH]; simpl; [|rewrite IH]; reflexivity. Qed.

Lemma append_nil_r (a : string) : a ++ "" = a.
Proof. induction a as [|x a IH]; simpl; [|rewrite IH]; reflexivity. Qed.

(** ** The arithmetic of a shifted time *)

Lemma toDouble_exact x : Z.abs x < 2 ^ 53 -> Js.toDouble x = x.
Proof.
  intros H. unfold Js.toDouble. destruct (Z.abs x <? 2 ^ 53) eqn:E; [reflexivity|].
  apply Z.ltb_ge in E. lia.
Qed.

(** The carry loop among the integers that a double holds exactly. *)
Lemma carryLoop_spec fuel : forall m h,
  0 <= m < 2 ^ 53 -> 0 <= h -> h + m / 60 < 2 ^ 53 -> m / 60 <= Z.of_nat fuel ->
  TimeUtils.carryLoop fuel m h = Some (m mod 60, h + m / 60).
Proof.
  change (2 ^ 53) with 9007199254740992.
  induction fuel as [|f IH]; intros m h Hm Hh Hb Hf.
  - assert (m < 60).
    { destruct (Z_lt_le_dec m 60) as [|Hge]; [assumption|].
      assert (1 <= m / 60) by (apply Z.div_le_lower_bound; lia). lia. }
    cbn [TimeUtils.carryLoop]. destruct (60 <=? m) eqn:E; [apply Z.leb_le in E; lia|].
    rewrite Z.mod_small, Z.div_small by lia. do 2 f_equal. lia.
  - cbn [TimeUtils.carryLoop]. destruct (60 <=? m) eqn:E.
    + apply Z.leb_le in E.
      assert (Hd : (m - 60) / 60 = m / 60 - 1).
      { replace (m - 60) with (m + (-1) * 60) by lia. rewrite Z.div_add by lia. lia. }
      assert (Hr : (m - 60) mod 60 = m mod 60).
      { replace (m - 60) with (m + (-1) * 60) by lia. apply Z.mod_add. lia. }
      assert (Hq : 1 <= m / 60) by (apply Z.div_le_lower_bound; lia).
      rewrite (toDouble_exact (m - 60)) by (change (2 ^ 53) with 9007199254740992; lia).
      rewrite (toDouble_exact (h + 1)) by (change (2 ^ 53) with 9007199254740992; lia).
      destruct (m - 60 =? m) eqn:Es; [apply Z.eqb_eq in Es; lia|].
      rewrite IH by lia. rewrite Hd, Hr. do 2 f_equal. lia.
    + apply Z.leb_gt in E. rewrite Z.mod_small, Z.div_small by lia. do 2 f_equal. lia.
Qed.

Lemma borrowLoop_nonneg fuel m h : 0 <= m -> TimeUtils.borrowLoop fuel m h = Some (m, h).
Proof.
  intros Hm. destruct fuel as [|f]; cbn [TimeUtils.borrowLoop];
    (destruct (m <? 0) eqn:E; [apply Z.ltb_lt in E; lia | reflexivity]).
Qed.

(** The borrow loop among the integers that a double holds exactly. *)
Lemma borrowLoop_spec fuel : forall m h,
  - 2 ^ 53 < m < 60 -> h <= 2 ^ 52 -> - 2 ^ 53 < h + m / 60 -> - (m / 60) <= Z.of_nat fuel ->
  TimeUtils.borrowLoop fuel m h = Some (m mod 60, h + m / 60).
Proof.
  change (2 ^ 53) with 9007199254740992. change (2 ^ 52) with 4503599627370496.
  induction fuel as [|f IH]; intros m h Hm Hh Hb Hf.
  - assert (0 <= m).
    { destruct (Z_lt_le_dec m 0) as [Hn|]; [|assumption].
      assert (m / 60 < 0) by (apply Z.div_lt_upper_bound; lia). lia. }
    rewrite borrowLoop_nonneg by lia.
    rewrite Z.mod_small, Z.div_small by lia. do 2 f_equal. lia.
  - cbn [TimeUtils.borrowLoop]. destruct (m <? 0) eqn:E.
    + apply Z.ltb_lt in E.
      assert (Hd : (m + 60) / 60 = m / 60 + 1).
      { replace (m + 60) with (m + 1 * 60) by lia. rewrite Z.div_add by lia. lia. }
      assert (Hr : (m + 60) mod 60 = m mod 60).
      { replace (m + 60) with (m + 1 * 60) by lia. apply Z.mod_add. lia. }
      assert (Hq : m / 60 < 0) by (apply Z.div_lt_upper_bound; lia).
      rewrite (toDouble_exact (m + 60)) by (change (2 ^ 53) with 9007199254740992; lia).
      rewrite (toDouble_exact (h - 1)) by (change (2 ^ 53) with 9007199254740992; lia).
      destruct (m + 60 =? m) eqn:Es; [apply Z.eqb_eq in Es; lia|].
      rewrite IH by lia. rewrite Hd, Hr. do 2 f_equal. lia.
    + apply Z.ltb_ge in E. rewrite Z.mod_small, Z.div_small by lia. do 2 f_equal. lia.
Qed.

(** The two loops, one after the other, from a minute count of 2^52 or so in
    magnitude: they end, with the minutes of the hour and the hours carried
    or borrowed. *)
Lemma loops_spec m h :
  Z.abs m <= 2 ^ 52 + 100 -> 0 <= h <= 200 ->
  exists m1 h1,
    TimeUtils.carryLoop (Z.to_nat m) m h = Some (m1, h1)
    /\ TimeUtils.borrowLoop (Z.to_nat (- m1)) m1 h1 = Some (m mod 60, h + m / 60).
Proof.
  intros Hm Hh.
  pose proof (carryLoop_spec (Z.to_nat m) m h) as C.
  pose proof (borrowLoop_spec (Z.to_nat (- m)) m h) as B.
  change (2 ^ 53) with 9007199254740992 in *. change (2 ^ 52) with 4503599627370496 in *.
  destruct (Z_lt_le_dec m 0) as [Hneg|Hpos].
  - exists m, h. split.
    + destruct (Z.to_nat m); cbn [TimeUtils.carryLoop];
        (destruct (60 <=? m) eqn:E; [apply Z.leb_le in E; lia | reflexivity]).
    + assert (Hq : - (2 ^ 52 + 100) <= m / 60 < 0).
      { split; [apply Z.div_le_lower_bound; lia | apply Z.div_lt_upper_bound; lia]. }
      assert (m <= m / 60) by (apply Z.div_le_lower_bound; lia).
      apply B; lia.
  - assert (Hq : 0 <= m / 60 <= m).
    { split; [apply Z.div_pos; lia|]. apply Z.div_le_upper_bound; lia. }
    exists (m mod 60), (h + m / 60). split.
    + apply C; lia.
    + apply borrowLoop_nonneg. apply Z.mod_pos_bound. lia.
Qed.

Lemma wrapHours_mod h : TimeUtils.wrapHours h = h mod 24.
Proof.
  unfold TimeUtils.wrapHours.
  pose proof (Z.rem_bound_abs h 24 ltac:(lia)) as Hb.
  assert (Hr : Z.rem h 24 = h - 24 * Z.quot h 24) by (pose proof (Z.quot_rem' h 24); lia).
  assert (Hp : 0 <= Z.rem h 24 + 24) by lia.
  rewrite Z.rem_mod_nonneg by lia.
  rewrite Hr. replace (h - 24 * (h ÷ 24) + 24) with (h + (1 - h ÷ 24) * 24) by lia.
  apply Z.mod_add. lia.
Qed.

Lemma range_In n z : 0 <= z < Z.of_nat n -> In z (Props.range n).
Proof.
  intros Hz. unfold Props.range. apply in_map_iff. exists (Z.to_nat z). split; [lia|].
  apply in_seq. lia.
Qed.




(** ** The rounding of large numbers, and the fuel of the loops *)

Lemma toDouble_opp x : Js.toDouble (- x) = - Js.toDouble x.
Proof.
  unfold Js.toDouble. rewrite Z.abs_opp, Z.sgn_opp.
  destruct (Z.abs x <? 2 ^ 53); [reflexivity|]. cbv zeta. apply Z.mul_opp_l.
Qed.

(** The mantissa and the remainder of a number of 2^53 or more. *)
Lemma big_parts a :
  2 ^ 53 <= a ->
  1 <= Z.log2 a - 52
  /\ 0 < 2 ^ (Z.log2 a - 52)
  /\ 2 ^ 52 <= a / 2 ^ (Z.log2 a - 52) < 2 ^ 53
  /\ 0 <= a mod 2 ^ (Z.log2 a - 52) < 2 ^ (Z.log2 a - 52)
  /\ a = a / 2 ^ (Z.log2 a - 52) * 2 ^ (Z.log2 a - 52) + a mod 2 ^ (Z.log2 a - 52).
Proof.
  intros Ha.
  assert (Hpos : 0 < a) by (change (2 ^ 53) with 9007199254740992 in Ha; lia).
  assert (Hl : 53 <= Z.log2 a).
  { change 53 with (Z.log2 (2 ^ 53)). apply Z.log2_le_mono. exact Ha. }
  destruct (Z.log2_spec a Hpos) as [Lo Hi].
  set (e := Z.log2 a - 52) in *.
  assert (He : 1 <= e) by (unfold e; lia).
  assert (Hu : 0 < 2 ^ e) by (apply Z.pow_pos_nonneg; lia).
  assert (E1 : 2 ^ Z.log2 a = 2 ^ 52 * 2 ^ e).
  { rewrite <- Z.pow_add_r by lia. f_equal. unfold e. lia. }
  assert (E2 : 2 ^ Z.succ (Z.log2 a) = 2 ^ 53 * 2 ^ e).
  { rewrite <- Z.pow_add_r by lia. f_equal. unfold e. lia. }
  rewrite E1 in Lo. rewrite E2 in Hi.
  split; [exact He|]. split; [exact Hu|]. split; [split|split].
  - apply Z.div_le_lower_bound; lia.
  - apply Z.div_lt_upper_bound; lia.
  - apply Z.mod_pos_bound. exact Hu.
  - rewrite Z.mul_comm. apply Z.div_mod. lia.
Qed.

(** What a number of 2^53 or more rounds to: its mantissa, or the next one
    when something is left over. *)
Lemma toDouble_big a :
  2 ^ 53 <= a ->
  exists q,
    Js.toDouble a = q * 2 ^ (Z.log2 a - 52)
    /\ (q = a / 2 ^ (Z.log2 a - 52)
        \/ (q = a / 2 ^ (Z.log2 a - 52) + 1 /\ 0 < a mod 2 ^ (Z.log2 a - 52))).
Proof.
  intros Ha. destruct (big_parts a Ha) as (He & Hu & Hq & Hr & _).
  assert (Hpos : 0 < a) by (change (2 ^ 53) with 9007199254740992 in Ha; lia).
  unfold Js.toDouble. rewrite Z.abs_eq by lia.
  destruct (a <? 2 ^ 53) eqn:E; [apply Z.ltb_lt in E; lia|]. cbv zeta.
  rewrite Z.sgn_pos by exact Hpos. rewrite Z.mul_1_l.
  set (u := 2 ^ (Z.log2 a - 52)) in *.
  destruct (2 * (a mod u) <? u) eqn:E1; [eauto|]. apply Z.ltb_ge in E1.
  destruct (u <? 2 * (a mod u)); [eexists; split; [reflexivity|]; right; split; lia|].
  destruct (Z.even (a / u)); [eauto|]. eexists. split; [reflexivity|]. right. split; lia.
Qed.

(** Rounding does not pass a double that lies above. *)
Lemma toDouble_below y a : 0 <= a <= Js.toDouble y -> Js.toDouble a <= Js.toDouble y.
Proof.
  intros [Ha Hm].
  destruct (Z_lt_le_dec a (2 ^ 53)) as [Hs|Hb].
  { rewrite (toDouble_exact a) by (rewrite Z.abs_eq; lia). exact Hm. }
  assert (P53 : 0 < 2 ^ 53) by (apply Z.pow_pos_nonneg; lia).
  assert (Hy : 2 ^ 53 <= y).
  { destruct (Z_lt_le_dec (Z.abs y) (2 ^ 53)) as [Hys|Hyb].
    - rewrite (toDouble_exact y Hys) in Hm. lia.
    - destruct (Z_lt_le_dec y 0) as [Hn|Hp]; [|rewrite Z.abs_eq in Hyb; lia].
      exfalso. assert (Hyy : 2 ^ 53 <= - y) by (rewrite Z.abs_neq in Hyb; lia).
      destruct (toDouble_big _ Hyy) as (q & Eq & Hq).
      destruct (big_parts _ Hyy) as (_ & Hu & Hqb & Hrb & _).
      assert (0 <= Js.toDouble (- y)).
      { rewrite Eq. apply Z.mul_nonneg_nonneg; [|lia].
        assert (0 < 2 ^ 52) by (apply Z.pow_pos_nonneg; lia). lia. }
      rewrite toDouble_opp in *. lia. }
  destruct (toDouble_big _ Hy) as (qy & Ey & Hqy).
  destruct (big_parts _ Hy) as (Hey & Huy & Hqyb & Hryb & _).
  destruct (toDouble_big _ Hb) as (q & Ea & Hq).
  destruct (big_parts _ Hb) as (Hea & Hua & Hqab & Hrab & Hda).
  rewrite Ey in Hm |- *. rewrite Ea.
  set (ey := Z.log2 y - 52) in *. set (ea := Z.log2 a - 52) in *.
  set (uy := 2 ^ ey) in *. set (ua := 2 ^ ea) in *.
  set (qa := a / ua) in *. set (ra := a mod ua) in *.
  assert (Hqy' : 2 ^ 52 <= qy <= 2 ^ 53) by lia.
  (* the exponent of [a] against that of the double above *)
  assert (Hle : Z.log2 a <= 53 + ey).
  { assert (a <= 2 ^ (53 + ey)).
    { rewrite Z.pow_add_r by lia. fold uy. nia. }
    replace (53 + ey) with (Z.log2 (2 ^ (53 + ey))) by (apply Z.log2_pow2; lia).
    apply Z.log2_le_mono. assumption. }
  destruct (Z_le_gt_dec ea ey) as [Hee|Hee].
  - (* the double above is a multiple of the unit of [a] *)
    assert (Euy : uy = 2 ^ (ey - ea) * ua).
    { unfold uy, ua. rewrite <- Z.pow_add_r by lia. f_equal. lia. }
    assert (Hk : 0 < 2 ^ (ey - ea)) by (apply Z.pow_pos_nonneg; lia).
    set (k := 2 ^ (ey - ea)) in *.
    assert (Em : qy * uy = (qy * k) * ua) by (rewrite Euy; ring).
    rewrite Em in Hm |- *.
    destruct Hq as [-> | [-> Hr]].
    + nia.
    + assert (qa + 1 <= qy * k) by nia. nia.
  - (* [a] is the power of two that the double above is *)
    assert (Eea : ea = ey + 1) by (unfold ea in *; lia).
    assert (Hlo : 2 ^ (53 + ey) <= a).
    { destruct (Z.log2_spec a ltac:(lia)) as [Lo _].
      replace (Z.log2 a) with (53 + ey) in Lo by (unfold ea in *; lia). exact Lo. }
    assert (Epow : 2 ^ (53 + ey) = 2 ^ 53 * uy).
    { unfold uy. apply Z.pow_add_r; lia. }
    assert (Eua : ua = 2 * uy).
    { unfold ua, uy. rewrite Eea. rewrite Z.pow_add_r by lia. ring. }
    assert (Ema : a = 2 ^ 53 * uy) by nia.
    assert (Hqa : qy = 2 ^ 53) by nia.
    assert (E52 : 2 ^ 53 = 2 * 2 ^ 52) by reflexivity.
    assert (Hra : ra = 0).
    { unfold ra. rewrite Ema, Eua, E52.
      replace (2 * 2 ^ 52 * uy) with (2 ^ 52 * (2 * uy)) by ring.
      apply Z.mod_mul. lia. }
    destruct Hq as [-> | [_ Hr]]; [|lia].
    subst qy. rewrite Hra in Hda. lia.
Qed.

(** From a double [m], [fuel] turns of the carry loop are enough when [fuel]
    is [m] or more: more fuel returns the same, so a result [None] is a loop
    that does not end. *)
Lemma carryLoop_enough fuel : forall m h y more,
  m = Js.toDouble y -> m <= Z.of_nat fuel -> (fuel <= more)%nat ->
  TimeUtils.carryLoop more m h = TimeUtils.carryLoop fuel m h.
Proof.
  induction fuel as [|f IH]; intros m h y more Hy Hm Hmore.
  - destruct more; cbn [TimeUtils.carryLoop];
      (destruct (60 <=? m) eqn:E; [apply Z.leb_le in E; lia | reflexivity]).
  - destruct more as [|more]; [lia|]. cbn [TimeUtils.carryLoop].
    destruct (60 <=? m) eqn:E; [|reflexivity]. apply Z.leb_le in E.
    destruct (Js.toDouble (m - 60) =? m) eqn:Es; [reflexivity|]. apply Z.eqb_neq in Es.
    assert (Js.toDouble (m - 60) <= m).
    { rewrite Hy at 2. apply toDouble_below. rewrite <- Hy. lia. }
    apply (IH _ _ (m - 60)); [reflexivity | lia | lia].
Qed.

Lemma borrowLoop_enough fuel : forall m h y more,
  m = Js.toDouble y -> - m <= Z.of_nat fuel -> (fuel <= more)%nat ->
  TimeUtils.borrowLoop more m h = TimeUtils.borrowLoop fuel m h.
Proof.
  induction fuel as [|f IH]; intros m h y more Hy Hm Hmore.
  - destruct more; cbn [TimeUtils.borrowLoop];
      (destruct (m <? 0) eqn:E; [apply Z.ltb_lt in E; lia | reflexivity]).
  - destruct more as [|more]; [lia|]. cbn [TimeUtils.borrowLoop].
    destruct (m <? 0) eqn:E; [|reflexivity]. apply Z.ltb_lt in E.
    destruct (Js.toDouble (m + 60) =? m) eqn:Es; [reflexivity|]. apply Z.eqb_neq in Es.
    assert (m <= Js.toDouble (m + 60)).
    { destruct (Z_lt_le_dec (m + 60) 0) as [Hn|Hp].
      - assert (Js.toDouble (- (m + 60)) <= Js.toDouble (- y)).
        { apply toDouble_below. rewrite toDouble_opp, <- Hy. lia. }
        rewrite !toDouble_opp, <- Hy in *. lia.
      - rewrite toDouble_exact; [lia|]. rewrite Z.abs_eq by lia.
        change (2 ^ 53) with 9007199254740992. lia. }
    apply (IH _ _ (m + 60)); [reflexivity | lia | lia].
Qed.

(** The minutes that the carry loop returns are a double when it started
    from one. *)
Lemma carryLoop_double fuel : forall m h y m1 h1,
  m = Js.toDouble y -> TimeUtils.carryLoop fuel m h = Some (m1, h1) ->
  exists y1, m1 = Js.toDouble y1.
Proof.
  induction fuel as [|f IH]; intros m h y m1 h1 Hy; cbn [TimeUtils.carryLoop];
    destruct (60 <=? m); try (intros [= <- _]; eauto; fail);
    destruct (Js.toDouble (m - 60) =? m); try discriminate.
  apply (IH _ _ (m - 60)). reflexivity.
Qed.

(** The fuel that [applyTimeOffsetToTimeString] gives its loops is enough. *)
Lemma carryLoop_fuel y h more :
  (Z.to_nat (Js.toDouble y) <= more)%nat ->
  TimeUtils.carryLoop more (Js.toDouble y) h
  = TimeUtils.carryLoop (Z.to_nat (Js.toDouble y)) (Js.toDouble y) h.
Proof. intros H. apply (carryLoop_enough _ _ _ y); [reflexivity | lia | exact H]. Qed.

Lemma borrowLoop_fuel y h more :
  (Z.to_nat (- Js.toDouble y) <= more)%nat ->
  TimeUtils.borrowLoop more (Js.toDouble y) h
  = TimeUtils.borrowLoop (Z.to_nat (- Js.toDouble y)) (Js.toDouble y) h.
Proof. intros H. apply (borrowLoop_enough _ _ _ y); [reflexivity | lia | exact H]. Qed.

(** ** Offsets *)

(** What the optional group of a count and its unit consumes. *)
Lemma optCount_some u s ds r :
  TimeUtils.optCount u s = (Some ds, r) ->
  s = ds ++ String u r /\ Props.isCount ds.
Proof.
  unfold TimeUtils.optCount, Js.spanDigits.
  destruct (Js.dropWhile Js.isDigit s) as [|c r'] eqn:Ed; [discriminate|].
  destruct (negb (Js.isEmpty (Js.takeWhile Js.isDigit s)) && Ascii.eqb c u) eqn:E;
    [|discriminate].
  intros H. inversion H; subst. apply andb_true_iff in E as [E1 E2].
  apply Ascii.eqb_eq in E2. subst c. split.
  - rewrite <- Ed. symmetry. apply takeWhile_dropWhile.
  - split; [|apply takeWhile_forallb].
    apply negb_true_iff in E1. apply isEmpty_false in E1. exact E1.
Qed.

Lemma optCount_none u s r : TimeUtils.optCount u s = (None, r) -> r = s.
Proof.
  unfold TimeUtils.optCount, Js.spanDigits.
  destruct (Js.dropWhile Js.isDigit s) as [|c r'].
  - intros H. inversion H. reflexivity.
  - destruct (negb (Js.isEmpty (Js.takeWhile Js.isDigit s)) && Ascii.eqb c u);
      intros H; inversion H. reflexivity.
Qed.

Lemma optCount_count u ds r :
  Props.isCount ds -> Js.isDigit u = false ->
  TimeUtils.optCount u (ds ++ String u r) = (Some ds, r).
Proof.
  intros [Hne Hd] Hu. unfold TimeUtils.optCount, Js.spanDigits.
  rewrite dropWhile_app_stop, takeWhile_app_stop by assumption.
  apply isEmpty_false in Hne. rewrite Hne, Ascii.eqb_refl. reflexivity.
Qed.

Lemma optCount_other u v ds r :
  Js.forallb Js.isDigit ds = true -> Js.isDigit v = false -> Ascii.eqb v u = false ->
  TimeUtils.optCount u (ds ++ String v r) = (None, ds ++ String v r).
Proof.
  intros Hd Hv Hvu. unfold TimeUtils.optCount, Js.spanDigits.
  rewrite dropWhile_app_stop by assumption. rewrite Hvu, andb_false_r. reflexivity.
Qed.

Lemma parseDigits_nonneg s : forall acc, 0 <= acc ->
  Js.forallb Js.isDigit s = true -> 0 <= Js.parseDigits acc s.
Proof.
  induction s as [|c r IH]; simpl; intros acc Ha Hd; [assumption|].
  apply andb_true_iff in Hd as [Hc Hr]. apply IH; [|assumption].
  unfold Js.isDigit, Js.inRange in Hc. apply andb_true_iff in Hc as [H1 H2].
  apply Z.leb_le in H1, H2. lia.
Qed.

Lemma parseInt_nonneg s : Js.forallb Js.isDigit s = true -> 0 <= Js.parseInt s.
Proof. apply parseDigits_nonneg. lia. Qed.


Lemma isCount_nonneg ds : Props.isCount ds -> 0 <= Js.parseInt ds.
Proof. intros [_ H]. apply parseInt_nonneg, H. Qed.

Lemma sign_char sg :
  sg = "+"%char \/ sg = "-"%char -> Ascii.eqb sg "+" || Ascii.eqb sg "-" = true.
Proof. intros [->| ->]; reflexivity. Qed.

(** Every string of the grammar is matched, with its counts captured. *)
Lemma matchOffset_complete offset total :
  Props.OffsetShape offset total ->
  exists sg hs ms,
    TimeUtils.matchOffset offset = Some (sg, hs, ms) /\
    TimeUtils.parseIntOr0 hs * 60 + TimeUtils.parseIntOr0 ms = total /\
    0 <= TimeUtils.parseIntOr0 hs /\ 0 <= TimeUtils.parseIntOr0 ms.
Proof.
  intros H. inversion H as [sg h m Hsg Hh Hm | sg h Hsg Hh | sg m Hsg Hm]; subst;
    exists sg; unfold TimeUtils.matchOffset; rewrite (sign_char sg Hsg).
  - exists (Some h), (Some m).
    change (h ++ "h" ++ m ++ "m") with (h ++ String "h" (m ++ String "m" "")).
    rewrite (optCount_count "h" h _ Hh eq_refl).
    rewrite (optCount_count "m" m _ Hm eq_refl). simpl.
    repeat split; auto using isCount_nonneg.
  - exists (Some h), None.
    change (h ++ "h") with (h ++ String "h" "").
    rewrite (optCount_count "h" h _ Hh eq_refl). simpl.
    repeat split; [lia | auto using isCount_nonneg | lia].
  - exists None, (Some m).
    change (m ++ "m") with (m ++ String "m" "").
    rewrite (optCount_other "h" "m" m "" (proj2 Hm) eq_refl eq_refl).
    rewrite (optCount_count "m" m _ Hm eq_refl). simpl.
    repeat split; [lia | auto using isCount_nonneg].
Qed.

(** Every matched string that has a count is a string of the grammar. *)
Lemma matchOffset_sound offset sg hs ms :
  TimeUtils.matchOffset offset = Some (sg, hs, ms) ->
  (hs = None /\ ms = None /\ forall total, ~ Props.OffsetShape offset total)
  \/ Props.OffsetShape offset
       (TimeUtils.parseIntOr0 hs * 60 + TimeUtils.parseIntOr0 ms).
Proof.
  unfold TimeUtils.matchOffset. destruct offset as [|sg' r0]; [discriminate|].
  destruct (Ascii.eqb sg' "+" || Ascii.eqb sg' "-") eqn:Esg; [|discriminate].
  assert (Hsg : sg' = "+"%char \/ sg' = "-"%char).
  { apply orb_true_iff in Esg as [E|E]; apply Ascii.eqb_eq in E; auto. }
  destruct (TimeUtils.optCount "h" r0) as [hs' r1] eqn:Eh.
  destruct (TimeUtils.optCount "m" r1) as [ms' r2] eqn:Em.
  destruct (Js.isEmpty r2) eqn:E2; [|discriminate].
  apply isEmpty_true in E2. subst r2.
  intros H. inversion H; subst sg' hs' ms'. clear H.
  destruct hs as [h|], ms as [m|].
  - right. apply optCount_some in Eh as [-> Hh]. apply optCount_some in Em as [-> Hm].
    apply (Props.shape_hours_minutes sg h m); assumption.
  - right. apply optCount_some in Eh as [-> Hh]. apply optCount_none in Em. subst r1.
    simpl. rewrite Z.add_0_r. apply (Props.shape_hours sg h); assumption.
  - right. apply optCount_none in Eh. subst r1. apply optCount_some in Em as [-> Hm].
    simpl. apply (Props.shape_minutes sg m); assumption.
  - left. repeat split; try reflexivity.
    apply optCount_none in Eh. subst r1. apply optCount_none in Em. subst r0.
    intros total Hs. inversion Hs;
      match goal with
      | Hx : ?h ++ _ = EmptyString |- _ => destruct h; discriminate Hx
      | Hx : EmptyString = ?h ++ _ |- _ => destruct h; discriminate Hx
      end.
Qed.

Lemma parseTimeOffset_some offset o :
  TimeUtils.parseTimeOffset offset = Some o ->
  Props.OffsetShape offset (TimeUtils.hours o * 60 + TimeUtils.minutes o)
  /\ 0 < TimeUtils.hours o * 60 + TimeUtils.minutes o.
Proof.
  unfold TimeUtils.parseTimeOffset.
  destruct (TimeUtils.matchOffset offset) as [[[sg hs] ms]|] eqn:Em; [|discriminate].
  destruct ((TimeUtils.parseIntOr0 hs =? 0) && (TimeUtils.parseIntOr0 ms =? 0)) eqn:Ez;
    [discriminate|].
  intros H. inversion H; subst o; clear H. simpl.
  destruct (matchOffset_sound _ _ _ _ Em) as [[-> [-> _]] | Hs].
  - discriminate Ez.
  - split; [exact Hs|].
    destruct (matchOffset_complete _ _ Hs) as (sg' & hs' & ms' & Em' & Ht & Hh & Hm).
    rewrite Em in Em'. inversion Em'; subst.
    apply andb_false_iff in Ez as [Z1|Z1]; apply Z.eqb_neq in Z1; lia.
Qed.

Lemma parseTimeOffset_shape offset total :
  Props.OffsetShape offset total ->
  0 <= total /\
  (total = 0 -> TimeUtils.parseTimeOffset offset = None) /\
  (0 < total -> exists o, TimeUtils.parseTimeOffset offset = Some o /\
                         TimeUtils.hours o * 60 + TimeUtils.minutes o = total).
Proof.
  intros Hs. destruct (matchOffset_complete _ _ Hs) as (sg & hs & ms & Em & Ht & Hh & Hm).
  unfold TimeUtils.parseTimeOffset. rewrite Em. split; [lia|]. split.
  - intros Hz. assert (TimeUtils.parseIntOr0 hs = 0) as -> by lia.
    assert (TimeUtils.parseIntOr0 ms = 0) as -> by lia. reflexivity.
  - intros Hp.
    destruct ((TimeUtils.parseIntOr0 hs =? 0) && (TimeUtils.parseIntOr0 ms =? 0)) eqn:Ez.
    + apply andb_true_iff in Ez as [Z1 Z2]. apply Z.eqb_eq in Z1, Z2. lia.
    + eexists. split; [reflexivity|]. simpl. exact Ht.
Qed.

Lemma parseTimeOffset_none offset :
  TimeUtils.parseTimeOffset offset = None ->
  forall total, Props.OffsetShape offset total -> total = 0.
Proof.
  intros Hn total Hs. destruct (parseTimeOffset_shape _ _ Hs) as (H0 & _ & Hp).
  destruct (Z.eq_dec total 0) as [|Hne]; [assumption|].
  destruct Hp as (o & Ho & _); [lia|]. congruence.
Qed.

Lemma trimEnd_nonempty c r : Js.isSpace c = false -> Js.trimEnd (String c r) <> EmptyString.
Proof. intros Hc. simpl. rewrite Hc, andb_false_r. discriminate. Qed.

Lemma shape_not_blank offset total :
  Props.OffsetShape offset total -> Js.isEmpty (Js.trim offset) = false.
Proof.
  intros H. apply isEmpty_false.
  assert (exists sg r, offset = String sg r /\ Js.isSpace sg = false) as (sg & r & -> & Hsg).
  { inversion H as [sg ? ? Hsg | sg ? Hsg | sg ? Hsg]; subst;
      eexists _, _; (split; [reflexivity|]); destruct Hsg as [->| ->]; reflexivity. }
  unfold Js.trim, Js.trimStart. cbn [Js.dropWhile]. rewrite Hsg.
  apply trimEnd_nonempty, Hsg.
Qed.


Lemma validate_cases offset :
  (TimeUtils.validateTimeOffset offset = TimeUtils.mkValidation true None
   /\ exists o, TimeUtils.parseTimeOffset offset = Some o
                /\ TimeUtils.hours o * 60 + TimeUtils.minutes o <= 720)
  \/ (TimeUtils.validateTimeOffset offset = TimeUtils.mkValidation false (Some TimeUtils.msgEmpty)
      /\ Js.isEmpty (Js.trim offset) = true)
  \/ (TimeUtils.validateTimeOffset offset = TimeUtils.mkValidation false (Some TimeUtils.msgFormat)
      /\ TimeUtils.parseTimeOffset offset = None)
  \/ (TimeUtils.validateTimeOffset offset = TimeUtils.mkValidation false (Some TimeUtils.msgTooLarge)
      /\ exists o, TimeUtils.parseTimeOffset offset = Some o
                   /\ 720 < TimeUtils.hours o * 60 + TimeUtils.minutes o).
Proof.
  unfold TimeUtils.validateTimeOffset.
  destruct (Js.isEmpty (Js.trim offset)) eqn:Ee; [right; left; auto|].
  destruct (TimeUtils.parseTimeOffset offset) as [o|] eqn:Ep; [|right; right; left; auto].
  destruct (12 * 60 <? TimeUtils.hours o * 60 + TimeUtils.minutes o) eqn:El.
  - apply Z.ltb_lt in El. right; right; right. split; [reflexivity|]. exists o. split; [reflexivity|lia].
  - apply Z.ltb_ge in El. left. split; [reflexivity|]. exists o. split; [reflexivity|lia].
Qed.

(** ** The shift of a time text *)

Lemma isDigit_code c : Js.isDigit c = true -> 0 <= Js.codeOf c - 48 <= 9.
Proof.
  unfold Js.isDigit, Js.inRange. intros H. apply andb_true_iff in H as [H1 H2].
  apply Z.leb_le in H1, H2. lia.
Qed.

Lemma twoDigits_bound s mm r :
  TimeUtils.twoDigits s = Some (mm, r) -> 0 <= Js.parseInt mm <= 99.
Proof.
  unfold TimeUtils.twoDigits. destruct s as [|a [|b s]]; try discriminate.
  destruct (Js.isDigit a && Js.isDigit b) eqn:E; [|discriminate].
  apply andb_true_iff in E as [Ea Eb]. intros [= <- _].
  pose proof (isDigit_code _ Ea). pose proof (isDigit_code _ Eb).
  unfold Js.parseInt. cbn [Js.parseDigits]. lia.
Qed.

Lemma oneOrTwoDigits_bound s hh r :
  TimeUtils.oneOrTwoDigits s = Some (hh, r) -> 0 <= Js.parseInt hh <= 99.
Proof.
  unfold TimeUtils.oneOrTwoDigits. destruct s as [|a s]; [discriminate|].
  destruct (Js.isDigit a) eqn:Ea; [|discriminate].
  pose proof (isDigit_code _ Ea).
  assert (One : 0 <= Js.parseInt (Js.str1 a) <= 99).
  { unfold Js.parseInt, Js.str1. cbn [Js.parseDigits]. lia. }
  destruct s as [|b s]; [intros [= <- _]; exact One|].
  destruct (Js.isDigit b) eqn:Eb; [|intros [= <- _]; exact One].
  pose proof (isDigit_code _ Eb). intros [= <- _].
  unfold Js.parseInt. cbn [Js.parseDigits]. lia.
Qed.

Lemma optMinutes_bound s mm r :
  TimeUtils.optMinutes s = (mm, r) -> 0 <= TimeUtils.parseIntOr0 mm <= 99.
Proof.
  unfold TimeUtils.optMinutes. destruct s as [|c s]; [intros [= <- _]; cbn; lia|].
  destruct (Ascii.eqb c ":"); [|intros [= <- _]; cbn; lia].
  destruct (TimeUtils.twoDigits s) as [[m r']|] eqn:E; [|intros [= <- _]; cbn; lia].
  intros [= <- _]. cbn. exact (twoDigits_bound _ _ _ E).
Qed.

(** The hours and minutes that [parseTimeString] reads are small. *)
Lemma parseTimeString_bounds timeStr parsed :
  TimeUtils.parseTimeString timeStr = Some parsed ->
  0 <= TimeUtils.p_hours parsed <= 111 /\ 0 <= TimeUtils.p_minutes parsed <= 99.
Proof.
  unfold TimeUtils.parseTimeString.
  destruct (String.eqb _ "noon"); [intros [= <-]; cbn; lia|].
  destruct (String.eqb _ "midnight"); [intros [= <-]; cbn; lia|].
  destruct (TimeUtils.matchAmPm _) as [[[hh mm] ampm]|] eqn:Ea.
  - unfold TimeUtils.matchAmPm in Ea.
    destruct (TimeUtils.oneOrTwoDigits _) as [[hh' r1]|] eqn:Eh; [|discriminate].
    destruct (TimeUtils.optMinutes r1) as [mm' r2] eqn:Em.
    destruct (String.eqb r2 "am" || String.eqb r2 "pm"); [|discriminate].
    injection Ea as -> -> ->.
    pose proof (oneOrTwoDigits_bound _ _ _ Eh). pose proof (optMinutes_bound _ _ _ Em).
    intros [= <-]. cbn [TimeUtils.p_hours TimeUtils.p_minutes].
    destruct (String.eqb ampm "pm" && negb (Js.parseInt hh =? 12));
      destruct (String.eqb ampm "am" && _); lia.
  - destruct (TimeUtils.matchClock timeStr) as [[hh mm]|]; [|discriminate].
    destruct ((0 <=? Js.parseInt hh) && (Js.parseInt hh <=? 23)
              && (0 <=? Js.parseInt mm) && (Js.parseInt mm <=? 59)) eqn:E; [|discriminate].
    repeat (apply andb_true_iff in E; destruct E as [E ?]).
    repeat match goal with
           | H : (_ <=? _) = true |- _ => apply Z.leb_le in H
           end.
    intros [= <-]. cbn. lia.
Qed.

(** The fields of an offset that [parseTimeOffset] reads. *)
Lemma parseTimeOffset_fields offset o :
  TimeUtils.parseTimeOffset offset = Some o ->
  (TimeUtils.sign o = 1 \/ TimeUtils.sign o = -1)
  /\ 0 <= TimeUtils.hours o /\ 0 <= TimeUtils.minutes o.
Proof.
  unfold TimeUtils.parseTimeOffset.
  destruct (TimeUtils.matchOffset offset) as [[[sg hs] ms]|] eqn:Em; [|discriminate].
  destruct ((TimeUtils.parseIntOr0 hs =? 0) && (TimeUtils.parseIntOr0 ms =? 0));
    [discriminate|].
  intros [= <-]. cbn [TimeUtils.sign TimeUtils.hours TimeUtils.minutes].
  unfold TimeUtils.matchOffset in Em. destruct offset as [|sg' r0]; [discriminate|].
  destruct (Ascii.eqb sg' "+" || Ascii.eqb sg' "-"); [|discriminate].
  destruct (TimeUtils.optCount "h" r0) as [hs' r1] eqn:Eh.
  destruct (TimeUtils.optCount "m" r1) as [ms' r2] eqn:Emm.
  destruct (Js.isEmpty r2); [|discriminate]. injection Em as -> -> ->.
  split; [destruct (Ascii.eqb sg "+"); auto|]. split.
  - destruct hs as [h|]; cbn; [|lia]. apply optCount_some in Eh as [_ Hh].
    exact (isCount_nonneg _ Hh).
  - destruct ms as [m|]; cbn; [|lia]. apply optCount_some in Emm as [_ Hm].
    exact (isCount_nonneg _ Hm).
Qed.

Lemma parsed_offset_exact offset o :
  TimeUtils.parseTimeOffset offset = Some o ->
  TimeUtils.hours o * 60 + TimeUtils.minutes o <= 2 ^ 52 ->
  Props.exactOffset o.
Proof.
  intros Hp Hb. destruct (parseTimeOffset_fields _ _ Hp) as (Hs & Hh & Hm).
  unfold Props.exactOffset. auto.
Qed.

(** An offset that the validation accepts is read, and is exact. *)
Lemma validated_exact offset :
  TimeUtils.valid (TimeUtils.validateTimeOffset offset) = true ->
  exists o, TimeUtils.parseTimeOffset offset = Some o /\ Props.exactOffset o.
Proof.
  intros Hv.
  destruct (validate_cases offset) as [(_ & o & Hp & Hb) | [(E & _) | [(E & _) | (E & _)]]];
    try (rewrite E in Hv; discriminate).
  exists o. split; [exact Hp|]. apply (parsed_offset_exact _ _ Hp).
  change (2 ^ 52) with 4503599627370496. lia.
Qed.

Lemma totalMinutesNumber_exact offset :
  Props.exactOffset offset ->
  TimeUtils.totalMinutesNumber offset = TimeUtils.totalMinutesOf offset
  /\ Z.abs (TimeUtils.totalMinutesOf offset) <= 2 ^ 52.
Proof.
  unfold Props.exactOffset, TimeUtils.totalMinutesNumber, TimeUtils.totalMinutesOf.
  change (2 ^ 52) with 4503599627370496.
  intros (Hs & Hh & Hm & Hb).
  assert (E : forall x, Z.abs x <= 4503599627370496 -> Js.toDouble x = x).
  { intros x Hx. apply toDouble_exact. change (2 ^ 53) with 9007199254740992. lia. }
  rewrite (E (TimeUtils.hours offset)) by lia.
  rewrite (E (TimeUtils.hours offset * 60)) by lia.
  rewrite (E (TimeUtils.minutes offset)) by lia.
  rewrite (E (TimeUtils.hours offset * 60 + TimeUtils.minutes offset)) by lia.
  destruct Hs as [-> | ->]; (split; [apply E|]); lia.
Qed.

(** What a shift by an exact offset computes: the minute of the day moves
    by the signed offset, modulo a day. *)
Lemma applyOffset_spec timeStr offset parsed :
  Props.exactOffset offset ->
  TimeUtils.parseTimeString timeStr = Some parsed ->
  exists h m,
    0 <= h < 24 /\ 0 <= m < 60
    /\ h * 60 + m = (Terms.minuteOfDay parsed + TimeUtils.totalMinutesOf offset) mod 1440
    /\ TimeUtils.applyTimeOffsetToTimeString timeStr offset =
         Some (TimeUtils.mkTimeShiftResult true
                 (Some (TimeUtils.formatTimeString h m (TimeUtils.p_format parsed))) None).
Proof.
  intros Hx Hp. unfold Terms.minuteOfDay.
  destruct (totalMinutesNumber_exact _ Hx) as [Et Hb].
  destruct (parseTimeString_bounds _ _ Hp) as [Hh0 Hm0].
  set (x := TimeUtils.p_minutes parsed + TimeUtils.totalMinutesOf offset).
  set (h0 := TimeUtils.p_hours parsed).
  exists ((h0 + x / 60) mod 24), (x mod 60).
  split; [apply Z.mod_pos_bound; lia|]. split; [apply Z.mod_pos_bound; lia|]. split.
  - replace (h0 * 60 + TimeUtils.p_minutes parsed + TimeUtils.totalMinutesOf offset)
      with (x + h0 * 60) by (unfold x; lia).
    apply Z.mod_unique_pos with (q := (h0 + x / 60) / 24).
    + pose proof (Z.mod_pos_bound (h0 + x / 60) 24 ltac:(lia)).
      pose proof (Z.mod_pos_bound x 60 ltac:(lia)). lia.
    + pose proof (Z.div_mod x 60 ltac:(lia)).
      pose proof (Z.div_mod (h0 + x / 60) 24 ltac:(lia)). lia.
  - unfold TimeUtils.applyTimeOffsetToTimeString. rewrite Hp, Et. cbv zeta. fold x. fold h0.
    change (2 ^ 52) with 4503599627370496 in Hb.
    assert (Hxb : Z.abs x <= 4503599627370496 + 100) by (unfold x; lia).
    rewrite (toDouble_exact x) by (change (2 ^ 53) with 9007199254740992; lia).
    destruct (loops_spec x h0) as (m1 & h1 & C & B);
      [change (2 ^ 52) with 4503599627370496; lia | unfold h0; lia |].
    rewrite C, B, wrapHours_mod. reflexivity.
Qed.




(** ** Failing shifts *)

Lemma applyOffset_result timeStr offset r :
  TimeUtils.applyTimeOffsetToTimeString timeStr offset = Some r ->
  (TimeUtils.success r = true /\ exists s, TimeUtils.newTime r = Some s)
  \/ (TimeUtils.success r = false /\ exists msg, TimeUtils.error r = Some msg).
Proof.
  unfold TimeUtils.applyTimeOffsetToTimeString.
  destruct (TimeUtils.parseTimeString timeStr) as [p|]; cbv zeta.
  - destruct (TimeUtils.carryLoop _ _ _) as [[m1 h1]|]; [|discriminate].
    destruct (TimeUtils.borrowLoop _ _ _) as [[m2 h2]|]; [|discriminate].
    intros [= <-]. left. simpl. eauto.
  - intros [= <-]. right. simpl. eauto.
Qed.

Lemma applyOffset_shape timeStr offset r :
  TimeUtils.applyTimeOffsetToTimeString timeStr offset = Some r ->
  (exists s, r = TimeUtils.mkTimeShiftResult true (Some s) None)
  \/ (exists msg, r = TimeUtils.mkTimeShiftResult false None (Some msg)).
Proof.
  unfold TimeUtils.applyTimeOffsetToTimeString.
  destruct (TimeUtils.parseTimeString timeStr) as [p|]; cbv zeta.
  - destruct (TimeUtils.carryLoop _ _ _) as [[m1 h1]|]; [|discriminate].
    destruct (TimeUtils.borrowLoop _ _ _) as [[m2 h2]|]; [|discriminate].
    intros [= <-]. left. eauto.
  - intros [= <-]. right. eauto.
Qed.

(** On an exact offset [applyTimeOffsetToTimeString] returns. *)
Lemma applyOffset_returns timeStr offset :
  Props.exactOffset offset ->
  exists r, TimeUtils.applyTimeOffsetToTimeString timeStr offset = Some r.
Proof.
  intros Hx. destruct (TimeUtils.parseTimeString timeStr) as [p|] eqn:Ep.
  - destruct (applyOffset_spec _ _ _ Hx Ep) as (h & m & _ & _ & _ & A). eauto.
  - unfold TimeUtils.applyTimeOffsetToTimeString. rewrite Ep. eauto.
Qed.

Lemma failure_failed msg : Props.isFailure (TimeShift.failure (Some msg)).
Proof. split; [reflexivity|]. exists msg. reflexivity. Qed.

Lemma shiftTaskTime_failed host rawLine t offset r :
  TimeShift.shiftTaskTime host rawLine t offset = Some r ->
  TimeShift.success r = false -> Props.isFailure r.
Proof.
  unfold TimeShift.shiftTaskTime.
  destruct (TimeUtils.parseTimeOffset offset) as [o|];
    [|intros [= <-] _; apply failure_failed].
  destruct (start t) as [s|]; [|intros [= <-] _; apply failure_failed].
  destruct (explicitStart t).
  - destruct (ParserUtils.findTimeTokenInLine rawLine) as [tok|];
      [|intros [= <-] _; apply failure_failed].
    destruct (TimeUtils.applyTimeOffsetToTimeString (ParserUtils.timeStr tok) o)
      as [shifted|] eqn:A; [|discriminate].
    destruct (applyOffset_result _ _ _ A) as [[Hs (s' & Hn)] | [Hs (msg & Hm)]]; rewrite Hs.
    + rewrite Hn. intros [= <-]. simpl. discriminate.
    + rewrite Hm. intros [= <-] _. apply failure_failed.
  - destruct (TimeShift.matchDashPrefix rawLine) as [[prefix content]|];
      [intros [= <-]; simpl; discriminate | intros [= <-] _; apply failure_failed].
Qed.

(** On an offset that the validation accepts [shiftTaskTime] returns: the
    branch of [executeTimeShift] for a call that does not is never taken. *)
Lemma shiftTaskTime_returns host rawLine t offset :
  TimeUtils.valid (TimeUtils.validateTimeOffset offset) = true ->
  exists r, TimeShift.shiftTaskTime host rawLine t offset = Some r.
Proof.
  intros Hv. destruct (validated_exact _ Hv) as (o & Ho & Hx).
  unfold TimeShift.shiftTaskTime. rewrite Ho.
  destruct (start t) as [s|]; [|eauto].
  destruct (explicitStart t).
  - destruct (ParserUtils.findTimeTokenInLine rawLine) as [tok|]; [|eauto].
    destruct (applyOffset_returns (ParserUtils.timeStr tok) o Hx) as [r ->].
    destruct (TimeUtils.success r), (TimeUtils.newTime r); eauto.
  - destruct (TimeShift.matchDashPrefix rawLine) as [[prefix content]|]; eauto.
Qed.

(** [executeTimeShift] past its checks, on the result of [shiftTaskTime]. *)
Lemma executeTimeShift_shift host line offset allLines t :
  TimeUtils.valid (TimeUtils.validateTimeOffset offset) = true ->
  node line = Some (TaskN t) ->
  ParserUtils.lf_valid (ParserUtils.validateTaskLineFormat (raw line)) = true ->
  exists r,
    TimeShift.shiftTaskTime host (raw line) t offset = Some r
    /\ TimeShift.executeTimeShift host line offset allLines
       = if negb (TimeShift.success r) then r
         else TimeShift.mkTimeShiftResult true (TimeShift.newLineContent r) None
                (Some (map id (TimeShift.findAffectedLines line allLines))).
Proof.
  intros Hv Hn Hf. destruct (shiftTaskTime_returns host (raw line) t offset Hv) as [r Hr].
  exists r. split; [exact Hr|].
  unfold TimeShift.executeTimeShift. rewrite Hv, Hn, Hf, Hr. reflexivity.
Qed.

Lemma executeTimeShift_failed host line offset allLines :
  TimeShift.success (TimeShift.executeTimeShift host line offset allLines) = false ->
  Props.isFailure (TimeShift.executeTimeShift host line offset allLines).
Proof.
  destruct (TimeUtils.valid (TimeUtils.validateTimeOffset offset)) eqn:Hv.
  - destruct (node line) as [[t|d]|] eqn:Hn;
      try (unfold TimeShift.executeTimeShift; rewrite Hv, Hn; intros _;
           apply failure_failed).
    destruct (ParserUtils.lf_valid (ParserUtils.validateTaskLineFormat (raw line))) eqn:Hf.
    + destruct (executeTimeShift_shift host line offset allLines t Hv Hn Hf)
        as (r & Hr & ->).
      destruct (TimeShift.success r) eqn:Es; cbn [negb].
      * simpl. discriminate.
      * intros _. exact (shiftTaskTime_failed _ _ _ _ _ Hr Es).
    + unfold TimeShift.executeTimeShift. rewrite Hv, Hn, Hf. intros _. apply failure_failed.
  - unfold TimeShift.executeTimeShift. rewrite Hv. cbn [negb]. intros _.
    destruct (validate_cases offset) as [[E _] | [[E _] | [[E _] | [E _]]]];
      rewrite E in *; try discriminate Hv; apply failure_failed.
Qed.

Lemma messages_distinct :
  NoDup [ TimeUtils.msgEmpty; TimeUtils.msgFormat; TimeUtils.msgTooLarge;
          TimeShift.msgNotTask; TimeShift.msgMissingDash; TimeShift.msgNoTimeToken;
          TimeShift.msgBadLine; TimeShift.msgNoTime ].
Proof.
  repeat constructor; cbn [In]; intuition discriminate.
Qed.

(** C8 (as amended).  Validation accepts an offset exactly when it is a sign
    followed by an hour count with its unit and/or a minute count with its
    unit, of a magnitude that is not zero and not above 12 hours.  An offset
    above 12 hours is rejected with the magnitude message, which differs
    from the format message; an offset of magnitude zero is rejected with
    the format message itself, like a malformed one.  Every failing shift
    request carries [success = false], an error message and no new line
    text; a bad offset, a target that is no task and a time token that
    cannot be located each give a message of their own. *)
Theorem C8_offset_validation_and_failed_shifts :
  (forall offset,
      TimeUtils.valid (TimeUtils.validateTimeOffset offset) = true <->
      exists total, Props.OffsetShape offset total /\ 0 < total <= 720)
  /\ (forall offset total,
        Props.OffsetShape offset total ->
        (total = 0 ->
         TimeUtils.validateTimeOffset offset
         = TimeUtils.mkValidation false (Some TimeUtils.msgFormat))
        /\ (720 < total ->
            TimeUtils.validateTimeOffset offset
            = TimeUtils.mkValidation false (Some TimeUtils.msgTooLarge)))
  /\ (forall offset,
        (forall total, ~ Props.OffsetShape offset total) ->
        TimeUtils.validateTimeOffset offset
        = TimeUtils.mkValidation false (Some TimeUtils.msgFormat)
        \/ TimeUtils.validateTimeOffset offset
           = TimeUtils.mkValidation false (Some TimeUtils.msgEmpty))
  /\ (forall host line offset allLines,
        TimeShift.success (TimeShift.executeTimeShift host line offset allLines) = false ->
        TimeShift.newLineContent (TimeShift.executeTimeShift host line offset allLines) = None
        /\ exists msg,
             TimeShift.error (TimeShift.executeTimeShift host line offset allLines) = Some msg)
  /\ (forall host line offset allLines,
        TimeUtils.valid (TimeUtils.validateTimeOffset offset) = false ->
        TimeShift.executeTimeShift host line offset allLines
        = TimeShift.failure (TimeUtils.v_error (TimeUtils.validateTimeOffset offset))
        /\ In (TimeUtils.v_error (TimeUtils.validateTimeOffset offset))
              [Some TimeUtils.msgEmpty; Some TimeUtils.msgFormat; Some TimeUtils.msgTooLarge])
  /\ (forall host line offset allLines,
        TimeUtils.valid (TimeUtils.validateTimeOffset offset) = true ->
        (forall t, node line <> Some (TaskN t)) ->
        TimeShift.executeTimeShift host line offset allLines
        = TimeShift.failure (Some TimeShift.msgNotTask))
  /\ (forall host line offset allLines t,
        TimeUtils.valid (TimeUtils.validateTimeOffset offset) = true ->
        node line = Some (TaskN t) ->
        ParserUtils.lf_valid (ParserUtils.validateTaskLineFormat (raw line)) = true ->
        explicitStart t = true -> start t <> None ->
        ParserUtils.findTimeTokenInLine (raw line) = None ->
        TimeShift.executeTimeShift host line offset allLines
        = TimeShift.failure (Some TimeShift.msgNoTimeToken))
  /\ NoDup [ TimeUtils.msgEmpty; TimeUtils.msgFormat; TimeUtils.msgTooLarge;
             TimeShift.msgNotTask; TimeShift.msgMissingDash; TimeShift.msgNoTimeToken;
             TimeShift.msgBadLine; TimeShift.msgNoTime ].
Proof.
  split; [|split; [|split; [|split; [|split; [|split; [|split]]]]]].
  - intros offset. split.
    + intros Hv.
      destruct (validate_cases offset) as [[_ (o & Ho & Hle)] | [[E _] | [[E _] | [E _]]]];
        try (rewrite E in Hv; discriminate Hv).
      destruct (parseTimeOffset_some _ _ Ho) as [Hs Hp].
      eexists. split; [exact Hs | lia].
    + intros (total & Hs & Ht).
      destruct (parseTimeOffset_shape _ _ Hs) as (_ & _ & Hp).
      destruct Hp as (o & Ho & Hto); [lia|].
      unfold TimeUtils.validateTimeOffset.
      rewrite (shape_not_blank _ _ Hs), Ho.
      destruct (12 * 60 <? _) eqn:El; [apply Z.ltb_lt in El; lia | reflexivity].
  - intros offset total Hs.
    destruct (parseTimeOffset_shape _ _ Hs) as (_ & Hz & Hp).
    unfold TimeUtils.validateTimeOffset. rewrite (shape_not_blank _ _ Hs). split.
    + intros H0. rewrite (Hz H0). reflexivity.
    + intros Hbig. destruct Hp as (o & Ho & Hto); [lia|]. rewrite Ho.
      destruct (12 * 60 <? _) eqn:El; [reflexivity | apply Z.ltb_ge in El; lia].
  - intros offset Hno.
    destruct (validate_cases offset) as [[_ (o & Ho & _)] | [[E _] | [[E _] | [_ (o & Ho & _)]]]];
      auto; exfalso; apply (Hno _ (proj1 (parseTimeOffset_some _ _ Ho))).
  - intros host line offset allLines. apply executeTimeShift_failed.
  - intros host line offset allLines Hv. unfold TimeShift.executeTimeShift.
    rewrite Hv. cbn [negb]. split; [reflexivity|].
    destruct (validate_cases offset) as [[E _] | [[E _] | [[E _] | [E _]]]];
      rewrite E in *; cbn; auto; discriminate Hv.
  - intros host line offset allLines Hv Hn. unfold TimeShift.executeTimeShift.
    rewrite Hv. cbn [negb]. destruct (node line) as [[t|d]|]; try reflexivity.
    exfalso. apply (Hn t). reflexivity.
  - intros host line offset allLines t Hv Hn Hf He Hst Htok.
    unfold TimeShift.executeTimeShift. rewrite Hv, Hn, Hf. cbn [negb].
    assert (Hshift : TimeShift.shiftTaskTime host (raw line) t offset
                     = Some (TimeShift.failure (Some TimeShift.msgNoTimeToken))).
    { unfold TimeShift.shiftTaskTime.
      destruct (validate_cases offset) as [[_ (o & Ho & _)] | [[E _] | [[E _] | [E _]]]];
        try (rewrite E in Hv; discriminate Hv).
      rewrite Ho. destruct (start t); [|congruence]. rewrite He, Htok. reflexivity. }
    rewrite Hshift. reflexivity.
  - apply messages_distinct.
Qed.

(** C8 as stated fails on the zero offset: it is a well-formed offset of
    magnitude zero, and it is rejected with the very message of a malformed
    offset, not with a magnitude message of its own. *)
Lemma C8_zero_offset_gets_the_format_message :
  Props.OffsetShape "+0m" 0
  /\ TimeUtils.validateTimeOffset "+0m"
     = TimeUtils.mkValidation false (Some TimeUtils.msgFormat)
  /\ TimeUtils.validateTimeOffset "10m"
     = TimeUtils.mkValidation false (Some TimeUtils.msgFormat).
Proof.
  split; [|split; reflexivity].
  apply (Props.shape_minutes "+" "0"); [left; reflexivity|].
  split; [discriminate | reflexivity].
Qed.

(** The theorem of C8 at an offset of an hour and a half. *)
Lemma C8_witness_offset_1h30m :
  (exists total, Props.OffsetShape "-1h30m" total /\ 0 < total <= 720)
  /\ TimeUtils.valid (TimeUtils.validateTimeOffset "-1h30m") = true.
Proof.
  assert (H : exists total, Props.OffsetShape "-1h30m" total /\ 0 < total <= 720).
  { exists 90. split; [|lia].
    apply (Props.shape_hours_minutes "-" "1" "30");
      [right; reflexivity | split; [discriminate|reflexivity] .. ]. }
  split; [exact H|].
  exact (proj2 (proj1 C8_offset_validation_and_failed_shifts "-1h30m") H).
Defined.

(** ** The second pass of the analyzer *)

Section AnalyzerFacts.

Import Analyzer.

Variable host : Host.


Lemma analyzeLines_length rls : forall st i ls st',
  analyzeLines host st i rls = Ok (ls, st') -> List.length ls = List.length rls.
Proof.
  induction rls as [|rl rls IH]; intros st i ls st' H; cbn [analyzeLines] in H.
  - inversion H. reflexivity.
  - destruct (analyzeLine host st rl i) as [[pl st1]|e]; [|discriminate].
    destruct (analyzeLines host st1 (i + 1) rls) as [[ls1 st1']|e] eqn:E; [|discriminate].
    inversion H; subst. cbn [List.length]. f_equal. eapply IH, E.
Qed.

(** The run of the second pass, read at one line: the state the line is
    reached in, the step it takes, and the state it leaves. *)
Lemma analyzeLines_nth rls : forall st i ls st' k rl,
  analyzeLines host st i rls = Ok (ls, st') ->
  nth_error rls k = Some rl ->
  exists stk pl stk',
    analyzeLines host st i (firstn k rls) = Ok (firstn k ls, stk)
    /\ analyzeLine host stk rl (i + Z.of_nat k) = Ok (pl, stk')
    /\ nth_error ls k = Some pl
    /\ analyzeLines host st i (firstn (S k) rls) = Ok (firstn (S k) ls, stk').
Proof.
  induction rls as [|rl0 rls IH]; intros st i ls st' k rl H Hk.
  - destruct k; discriminate Hk.
  - cbn [analyzeLines] in H.
    destruct (analyzeLine host st rl0 i) as [[pl0 st1]|e] eqn:E0; [|discriminate].
    destruct (analyzeLines host st1 (i + 1) rls) as [[ls1 st1']|e] eqn:E1; [|discriminate].
    inversion H; subst ls st'. clear H. destruct k as [|k].
    + cbn in Hk. inversion Hk; subst rl0. exists st, pl0, st1.
      cbn [firstn analyzeLines nth_error]. rewrite Z.add_0_r, E0. auto.
    + cbn [nth_error] in Hk.
      destruct (IH _ _ _ _ _ _ E1 Hk) as (stk & pl & stk' & A & B & C & D).
      exists stk, pl, stk'. rewrite !firstn_cons. cbn [analyzeLines nth_error].
      rewrite E0, A, D. split; [reflexivity|]. split.
      { rewrite <- B. f_equal. lia. }
      split; [exact C | reflexivity].
Qed.

(** Directives touch the context and the section mode only. *)
Lemma applyDirective_frame st d st' :
  applyDirective st d = inr st' ->
  cursorTime st' = cursorTime st /\ tasks st' = tasks st.
Proof.
  unfold applyDirective.
  repeat match goal with
         | |- context [if ?c then _ else _] => destruct c
         | |- context [match ?x with _ => _ end] => destruct x
         end; intros H; inversion H; subst; auto.
Qed.

Lemma applyDirectives_frame rls : forall st,
  cursorTime (applyDirectives st rls) = cursorTime st
  /\ tasks (applyDirectives st rls) = tasks st.
Proof.
  induction rls as [|rl rls IH]; intros st; cbn [applyDirectives]; [auto|].
  destruct (directive rl) as [d|]; [|apply IH].
  destruct (applyDirective st d) as [msg|st1] eqn:E; [apply IH|].
  destruct (applyDirective_frame _ _ _ E) as [Hc Ht]. destruct (IH st1) as [A B].
  rewrite A, B, Hc, Ht. auto.
Qed.

Lemma hasErrorCode_app a b :
  hasErrorCode (a ++ b) = hasErrorCode a || hasErrorCode b.
Proof. unfold hasErrorCode. apply existsb_app. Qed.

Lemma lastEnd_snoc ts t : Props.lastEnd (ts ++ [t]) = end_ t.
Proof. unfold Props.lastEnd. rewrite rev_app_distr. reflexivity. Qed.

Lemma determineStart_cases st rl pt startD ex missing :
  determineStart host st rl pt = (startD, ex, missing) ->
  (exists v, pt = Some (inr v) /\ startD = Some (resolveTimeToDate host (st_context st) v)
             /\ ex = true /\ missing = [])
  \/ ((forall v, pt <> Some (inr v)) /\ ex = false
      /\ ((exists c, cursorTime st = Some c /\ startD = Some (Some c) /\ missing = [])
          \/ (cursorTime st = None /\ startD = None
              /\ missing = [mkDiagnostic ErrorCode.MISSING_START_FIRST_LINE
                              "First task must have an explicit start time"
                              (spanOver (r_lineNo rl) (r_raw rl))]))).
Proof.
  unfold determineStart. destruct pt as [[e|v]|].
  - destruct (cursorTime st) as [c|]; intros H; inversion H; subst; right;
      (split; [intros v; discriminate|]); (split; [reflexivity|]); [left; eauto | right; auto].
  - intros H; inversion H; subst. left. eauto.
  - destruct (cursorTime st) as [c|]; intros H; inversion H; subst; right;
      (split; [intros v; discriminate|]); (split; [reflexivity|]); [left; eauto | right; auto].
Qed.

Lemma parseTime_error t lineNo e :
  parseTime t lineNo = inl e -> code e = ErrorCode.BAD_TIME.
Proof.
  unfold parseTime.
  destruct (String.eqb (Js.toLowerCase t) "noon"); [discriminate|].
  destruct (String.eqb (Js.toLowerCase t) "midnight"); [discriminate|].
  destruct (matchTimeStr t) as [[[hh mm] ampm]|]; [discriminate|].
  intros H. inversion H. reflexivity.
Qed.

Lemma parseDuration_error d lineNo e :
  parseDuration d lineNo = inl e -> code e = ErrorCode.BAD_DURATION.
Proof.
  unfold parseDuration. destruct (matchDurationStr d) as [[h m]|]; [discriminate|].
  intros H. inversion H. reflexivity.
Qed.

Lemma parseCategories_errors cats lineNo :
  Forall (fun d => code d = ErrorCode.BAD_CATEGORY) (snd (parseCategories cats lineNo)).
Proof.
  induction cats as [|c cats IH]; cbn [parseCategories snd]; [constructor|].
  destruct (parseCategories cats lineNo) as [res errs]. cbn [snd] in IH.
  destruct (Js.startsWith c ":"); [|exact IH].
  destruct (existsb _ _); cbn [snd]; [|exact IH].
  constructor; [reflexivity | exact IH].
Qed.

Lemma parseErrors_codes pt pd cats lineNo :
  Forall (fun d => In (code d) Props.analysisCodes)
    (parseErrors (option_map (fun t => parseTime t lineNo) pt)
       (option_map (fun d => parseDuration d lineNo) pd)
       (snd (parseCategories cats lineNo))).
Proof.
  unfold parseErrors. apply Forall_app; split; [|apply Forall_app; split].
  - destruct pt as [t|]; cbn [option_map]; [|constructor].
    destruct (parseTime t lineNo) as [e|v] eqn:E; [|constructor].
    constructor; [|constructor]. rewrite (parseTime_error _ _ _ E). left. reflexivity.
  - destruct pd as [d|]; cbn [option_map]; [|constructor].
    destruct (parseDuration d lineNo) as [e|v] eqn:E; [|constructor].
    constructor; [|constructor]. rewrite (parseDuration_error _ _ _ E). right. left. reflexivity.
  - eapply Forall_impl; [|apply parseCategories_errors].
    intros d Hd. rewrite Hd. right. right. left. reflexivity.
Qed.

(** What [analyzeTask] returns, block by block. *)
Lemma analyzeTask_facts st rl parts ident pl st' :
  analyzeTask host st rl parts ident = Ok (pl, st') ->
  exists t,
    node pl = Some (TaskN t)
    /\ raw pl = r_raw rl /\ lineNo pl = r_lineNo rl /\ id pl = ident
    /\ status pl = statusOf (diagnostics pl)
    /\ title t = titleOf parts
    /\ (time parts = None -> explicitStart t = false /\ start t = cursorTime st)
    /\ (start t = None ->
        In ErrorCode.MISSING_START_FIRST_LINE (map code (diagnostics pl))
        /\ hasErrorCode (diagnostics pl) = true)
    /\ (hasErrorCode (diagnostics pl) = false ->
        exists e, end_ t = Some e
                  /\ st' = mkState (st_context st) (Some e) (tasks st ++ [t])
                             (currentSection st))
    /\ (hasErrorCode (diagnostics pl) = true -> st' = st)
    /\ (exists parseDiagnostics,
           diagnostics pl =
             (r_diagnostics rl ++ parseDiagnostics
              ++ overlapDiagnostics st rl (option_map Some (start t))
                   (option_map Some (end_ t)))%list
           /\ Forall (fun d => In (code d) Props.analysisCodes) parseDiagnostics)
    /\ durationMin t =
         match option_map (fun d => parseDuration d (r_lineNo rl)) (duration parts) with
         | Some (inr value) => value
         | _ => defaultDurationMin (st_context st)
         end.
Proof.
  unfold analyzeTask. intros H.
  set (pt := option_map (fun t => parseTime t (r_lineNo rl)) (time parts)) in *.
  set (pd := option_map (fun d => parseDuration d (r_lineNo rl)) (duration parts)) in *.
  set (pc := parseCategories (rt_categories parts) (r_lineNo rl)) in *.
  set (dur := match pd with Some (inr value) => value | _ => defaultDurationMin (st_context st) end) in *.
  pose proof (parseErrors_codes (time parts) (duration parts) (rt_categories parts) (r_lineNo rl)) as Hpe.
  fold pt pd pc in Hpe.
  destruct (determineStart host st rl pt) as [[startD ex] missing] eqn:Ed.
  apply determineStart_cases in Ed.
  assert (Hmissing : Forall (fun d => In (code d) Props.analysisCodes) missing).
  { destruct Ed as [(v & _ & _ & _ & ->) | (_ & _ & [(c & _ & _ & ->) | (_ & _ & ->)])];
      constructor; [|constructor]. right. right. right. left. reflexivity. }
  assert (Htime : time parts = None -> ex = false /\ startD = option_map Some (cursorTime st)).
  { intros Hn. unfold pt in Ed. rewrite Hn in Ed. cbn in Ed.
    destruct Ed as [(v & Hv & _) | (_ & -> & [(c & -> & -> & _) | (-> & -> & _)])];
      [discriminate | auto | auto]. }
  assert (Hnone : startD = None -> In ErrorCode.MISSING_START_FIRST_LINE (map code missing)).
  { intros ->. destruct Ed as [(v & _ & Hx & _) | (_ & _ & [(c & _ & Hx & _) | (_ & _ & ->)])];
      try discriminate. cbn. auto. }
  clear Ed.
  destruct startD as [[s|]|]; cbn [endTimeOf] in H; try discriminate H.
  - destruct (timeClip host (s + dur)) as [e|] eqn:Ee; try discriminate H.
    inversion H as [[Hpl Hst]]. clear H.
    eexists. cbn [node lineWith raw lineNo id status diagnostics].
    do 6 (split; [reflexivity|]).
    cbn [title start end_ explicitStart durationMin].
    split.
    { intros Hn. destruct (Htime Hn) as [-> Hc]. split; [reflexivity|].
      destruct (cursorTime st); inversion Hc; reflexivity. }
    split; [discriminate|]. split.
    { intros Hne. exists e. split; [reflexivity|].
      unfold commitTask. rewrite Hne. reflexivity. }
    split.
    { intros He. unfold commitTask. rewrite He. reflexivity. }
    split; [|reflexivity].
    exists (parseErrors pt pd (snd pc) ++ missing)%list. split.
    + cbn [option_map]. rewrite <- !app_assoc. reflexivity.
    + apply Forall_app. split; assumption.
  - inversion H as [[Hpl Hst]]. clear H. subst st'.
    eexists. cbn [node lineWith raw lineNo id status diagnostics].
    do 6 (split; [reflexivity|]).
    cbn [title start end_ explicitStart durationMin option_map].
    rewrite ?app_nil_r, <- ?app_assoc.
    specialize (Hnone eq_refl).
    assert (Hin : In ErrorCode.MISSING_START_FIRST_LINE
                    (map code (r_diagnostics rl ++ parseErrors pt pd (snd pc) ++ missing))).
    { rewrite !map_app. apply in_or_app. right. apply in_or_app. right. exact Hnone. }
    assert (Herr : hasErrorCode (r_diagnostics rl ++ parseErrors pt pd (snd pc) ++ missing)
                   = true).
    { unfold hasErrorCode. apply existsb_exists. apply in_map_iff in Hin.
      destruct Hin as (d & Hd & Hin). exists d. split; [exact Hin|]. rewrite Hd. reflexivity. }
    split.
    { intros Hn. destruct (Htime Hn) as [-> Hc]. split; [reflexivity|].
      destruct (cursorTime st); [discriminate Hc | reflexivity]. }
    split; [intros _; split; assumption|]. split.
    { intros Hne. rewrite Hne in Herr. discriminate. }
    split; [reflexivity|]. split; [|reflexivity].
    exists (parseErrors pt pd (snd pc) ++ missing)%list. split.
    + rewrite ?app_nil_r, <- ?app_assoc. reflexivity.
    + apply Forall_app. split; assumption.
Qed.

Lemma scheduledOf_app a b :
  Props.scheduledOf (a ++ b) = (Props.scheduledOf a ++ Props.scheduledOf b)%list.
Proof. unfold Props.scheduledOf. apply flat_map_app. Qed.

Lemma scheduledOf_cons pl ls :
  Props.scheduledOf (pl :: ls) = (Props.scheduledOf [pl] ++ Props.scheduledOf ls)%list.
Proof. apply (scheduledOf_app [pl] ls). Qed.

(** What [analyzeLine] does on a line that is no task. *)
Lemma analyzeLine_cases st rl i pl st' :
  analyzeLine host st rl i = Ok (pl, st') ->
  (node pl = None /\ st' = st /\ status pl = valid
   /\ diagnostics pl = r_diagnostics rl
   /\ (isBlank rl || isComment rl = true
       \/ (directive rl = None /\ task rl = None)))
  \/ (exists d, isBlank rl || isComment rl = false /\ directive rl = Some d
                /\ (pl, st') = analyzeDirective st rl d (generateLineId (r_raw rl) i))
  \/ (exists parts, isBlank rl || isComment rl = false /\ directive rl = None
                    /\ task rl = Some parts
                    /\ analyzeTask host st rl parts (generateLineId (r_raw rl) i)
                       = Ok (pl, st')).
Proof.
  unfold analyzeLine. destruct (isBlank rl || isComment rl) eqn:Eb.
  - intros H. inversion H; subst. left. cbn. auto 10.
  - destruct (directive rl) as [d|] eqn:Ed.
    + intros H. inversion H as [H']. right. left. exists d. rewrite H'. auto.
    + destruct (task rl) as [parts|] eqn:Et.
      * intros H. right. right. exists parts. auto.
      * intros H. inversion H; subst. left. cbn. auto 10.
Qed.

Lemma analyzeDirective_node st rl d ident :
  exists diags,
    fst (analyzeDirective st rl d ident)
    = lineWith rl ident (statusOf diags) diags
        (Some (DirectiveN (mkDirectiveNode (name d) (args d))))
    /\ cursorTime (snd (analyzeDirective st rl d ident)) = cursorTime st
    /\ tasks (snd (analyzeDirective st rl d ident)) = tasks st.
Proof.
  unfold analyzeDirective. destruct (applyDirective st d) as [msg|st1] eqn:E.
  - eexists. cbn. auto.
  - eexists. cbn. destruct (applyDirective_frame _ _ _ E). auto.
Qed.

(** A step of the second pass extends the scheduled set by the task it
    commits, and keeps the cursor at the end of the last scheduled task. *)
Lemma analyzeLine_step st rl i pl st' :
  analyzeLine host st rl i = Ok (pl, st') ->
  tasks st' = (tasks st ++ Props.scheduledOf [pl])%list
  /\ (cursorTime st = Props.lastEnd (tasks st) ->
      cursorTime st' = Props.lastEnd (tasks st')).
Proof.
  intros H. apply analyzeLine_cases in H.
  destruct H as [(Hn & -> & _) | [(d & _ & _ & Hd) | (parts & _ & _ & _ & Ht)]].
  - unfold Props.scheduledOf. cbn [flat_map]. rewrite Hn. cbn. rewrite app_nil_r. auto.
  - destruct (analyzeDirective_node st rl d (generateLineId (r_raw rl) i))
      as (diags & Hl & Hc & Htk).
    rewrite <- Hd in Hl, Hc, Htk. cbn [fst snd] in Hl, Hc, Htk. subst pl.
    unfold Props.scheduledOf. cbn. rewrite app_nil_r, Hc, Htk. auto.
  - apply analyzeTask_facts in Ht.
    destruct Ht as (t & Hn & _ & _ & _ & _ & _ & _ & _ & Hok & Herr & _).
    unfold Props.scheduledOf. cbn [flat_map]. rewrite Hn.
    destruct (hasErrorCode (diagnostics pl)) eqn:E.
    + rewrite (Herr eq_refl). cbn. rewrite app_nil_r. auto.
    + destruct (Hok eq_refl) as (e & He & ->). cbn [tasks cursorTime app].
      split; [reflexivity|]. intros _. rewrite lastEnd_snoc. auto.
Qed.

Lemma analyzeLines_scheduled rls : forall st i ls st',
  analyzeLines host st i rls = Ok (ls, st') ->
  tasks st' = (tasks st ++ Props.scheduledOf ls)%list
  /\ (cursorTime st = Props.lastEnd (tasks st) ->
      cursorTime st' = Props.lastEnd (tasks st')).
Proof.
  induction rls as [|rl rls IH]; intros st i ls st' H; cbn [analyzeLines] in H.
  - inversion H; subst. cbn. rewrite app_nil_r. auto.
  - destruct (analyzeLine host st rl i) as [[pl st1]|e] eqn:E0; [|discriminate].
    destruct (analyzeLines host st1 (i + 1) rls) as [[ls1 st1']|e] eqn:E1; [|discriminate].
    inversion H; subst. clear H.
    destruct (analyzeLine_step _ _ _ _ _ E0) as [T0 C0].
    destruct (IH _ _ _ _ E1) as [T1 C1].
    rewrite scheduledOf_cons, app_assoc, <- T0. auto.
Qed.

(** The analysis of a document, read at one of its lines. *)
Lemma analyze_line options source prog k pl :
  analyze host options source = Ok prog ->
  nth_error (lines prog) k = Some pl ->
  exists rl st st',
    nth_error (parseLinesToRaw (Js.splitLines source)) k = Some rl
    /\ Props.stateBefore host options source k = Ok st
    /\ Props.stateBefore host options source (S k) = Ok st'
    /\ analyzeLine host st rl (Z.of_nat k) = Ok (pl, st')
    /\ tasks st = Props.scheduledOf (firstn k (lines prog))
    /\ cursorTime st = Props.lastEnd (tasks st).
Proof.
  unfold analyze, analyzeSourceLines. intros H Hk.
  set (rls := parseLinesToRaw (Js.splitLines source)) in *.
  set (st1 := applyDirectives (initialState host options) rls) in *.
  destruct (analyzeLines host st1 0 rls) as [[ls st2]|e] eqn:E; [|discriminate].
  inversion H; subst prog. clear H. cbn [lines] in *.
  pose proof (analyzeLines_length _ _ _ _ _ E) as Hlen.
  destruct (nth_error rls k) as [rl|] eqn:Erl.
  2:{ apply nth_error_None in Erl. assert (nth_error ls k <> None) by congruence.
      apply nth_error_Some in H. lia. }
  destruct (analyzeLines_nth _ _ _ _ _ _ _ E Erl) as (stk & pl' & stk' & A & B & C & D).
  rewrite Hk in C. inversion C; subst pl'. clear C.
  exists rl, stk, stk'. split; [reflexivity|].
  unfold Props.stateBefore. fold rls. fold st1. rewrite A, D.
  split; [reflexivity|]. split; [reflexivity|]. split; [exact B|].
  destruct (analyzeLines_scheduled _ _ _ _ _ A) as [T Cc].
  destruct (applyDirectives_frame rls (initialState host options)) as [Hc Ht].
  fold st1 in Hc, Ht. cbn in Hc, Ht. rewrite Ht in T. cbn in T.
  split; [exact T|]. apply Cc. rewrite Hc, Ht. reflexivity.
Qed.

End AnalyzerFacts.

Section RawFacts.

Import Analyzer.

(** ** The lines as [parseLinesToRaw] reads them *)

Lemma parseLineContent_cases line lineNo sec :
  (lc_task (parseLineContent line lineNo sec) = None
   /\ lc_diagnostics (parseLineContent line lineNo sec) = [])
  \/ (exists parts, lc_task (parseLineContent line lineNo sec) = Some parts
      /\ lc_directive (parseLineContent line lineNo sec) = None
      /\ sec = planner).
Proof.
  unfold parseLineContent.
  destruct (match matchDashLine line with
            | Some c => Some c
            | None => match matchBangLine line with
                      | Some c => Some ("!" ++ c)
                      | None => None
                      end
            end) as [content|]; [|left; cbn; auto].
  destruct (if Js.startsWith content "!" then matchDirective content else None)
    as [[nm argsStr]|]; [left; cbn; auto|].
  destruct sec; cbn [sectionMode_eqb].
  - destruct (parseTaskParts line content lineNo) as [t ds]. right. exists t. cbn. auto.
  - left. cbn. auto.
Qed.


Lemma parseLineToRaw_raw sec line lineNo :
  r_raw (fst (parseLineToRaw sec line lineNo)) = line
  /\ r_lineNo (fst (parseLineToRaw sec line lineNo)) = lineNo.
Proof.
  unfold parseLineToRaw. destruct (_ && _); cbn; auto.
Qed.


(** The section mode after a line: a section directive sets it, and nothing
    else does. *)
Lemma parseLineToRaw_section sec line lineNo :
  snd (parseLineToRaw sec line lineNo) =
  if Props.isDirectiveNamed "scratchpad" (fst (parseLineToRaw sec line lineNo)) then scratchpad
  else if Props.isDirectiveNamed "planner" (fst (parseLineToRaw sec line lineNo)) then planner
  else sec.
Proof.
  unfold parseLineToRaw, Props.isDirectiveNamed.
  destruct (_ && _); cbn [fst snd directive]; [|reflexivity].
  destruct (lc_directive (parseLineContent line lineNo sec)) as [d|]; [|reflexivity].
  destruct (String.eqb (name d) "scratchpad"); [reflexivity|].
  destruct (String.eqb (name d) "planner"); reflexivity.
Qed.

(** A line read as a task is read in planner mode, and is neither blank, nor
    a comment, nor a directive. *)
Lemma parseLineToRaw_task sec line lineNo parts :
  task (fst (parseLineToRaw sec line lineNo)) = Some parts ->
  sec = planner
  /\ isBlank (fst (parseLineToRaw sec line lineNo)) = false
  /\ isComment (fst (parseLineToRaw sec line lineNo)) = false
  /\ directive (fst (parseLineToRaw sec line lineNo)) = None
  /\ lc_task (parseLineContent line lineNo sec) = Some parts.
Proof.
  unfold parseLineToRaw.
  destruct (negb (Js.isEmpty (Js.trim line)) && negb (isCommentLine line) && _) eqn:E;
    cbn [fst task isBlank isComment directive]; [|discriminate].
  apply andb_true_iff in E as [E _]. apply andb_true_iff in E as [E1 E2].
  apply negb_true_iff in E1, E2. intros Ht.
  destruct (parseLineContent_cases line lineNo sec) as [(Hn & _) | (p & Hp & Hd & ->)].
  - congruence.
  - auto.
Qed.

(** A line read in scratchpad mode that is no directive is inert. *)
Lemma parseLineToRaw_scratchpad line lineNo :
  directive (fst (parseLineToRaw scratchpad line lineNo)) = None ->
  task (fst (parseLineToRaw scratchpad line lineNo)) = None
  /\ r_diagnostics (fst (parseLineToRaw scratchpad line lineNo))
     = Lexer.pp_diagnostics (Lexer.preprocessLine line lineNo).
Proof.
  unfold parseLineToRaw. destruct (_ && _); cbn [fst task directive r_diagnostics]; [|auto].
  intros Hd.
  destruct (parseLineContent_cases line lineNo scratchpad) as [(Hn & Hdg) | (p & _ & _ & Hs)].
  - rewrite Hn, Hdg, app_nil_r. auto.
  - discriminate Hs.
Qed.

Lemma parseLinesToRawFrom_length lines : forall sec n,
  List.length (parseLinesToRawFrom sec n lines) = List.length lines.
Proof.
  induction lines as [|l lines IH]; intros sec n; cbn [parseLinesToRawFrom]; [reflexivity|].
  destruct (parseLineToRaw sec l n) as [rl sec']. cbn [List.length]. f_equal. apply IH.
Qed.


Lemma parseLinesToRawFrom_nth lines : forall sec n k rl,
  nth_error (parseLinesToRawFrom sec n lines) k = Some rl ->
  exists line,
    nth_error lines k = Some line
    /\ rl = fst (parseLineToRaw (Props.sectionAfterFrom sec n (firstn k lines)) line
                   (n + Z.of_nat k)).
Proof.
  induction lines as [|l lines IH]; intros sec n k rl H.
  - destruct k; discriminate H.
  - cbn [parseLinesToRawFrom] in H.
    destruct (parseLineToRaw sec l n) as [rl0 sec'] eqn:E. destruct k as [|k].
    + cbn in H. inversion H; subst. exists l. cbn. rewrite Z.add_0_r, E. auto.
    + cbn [nth_error] in H. destruct (IH _ _ _ _ H) as (line & Hl & Hr).
      exists line. cbn [nth_error firstn Props.sectionAfterFrom]. rewrite E. cbn [snd].
      split; [exact Hl|]. rewrite Hr. do 2 f_equal. lia.
Qed.

(** The raw line of index [k] of a document. *)
Lemma parseLinesToRaw_nth source k rl :
  nth_error (parseLinesToRaw (Js.splitLines source)) k = Some rl ->
  exists line,
    nth_error (Js.splitLines source) k = Some line
    /\ rl = fst (parseLineToRaw (Props.sectionBefore source k) line (1 + Z.of_nat k)).
Proof. apply parseLinesToRawFrom_nth. Qed.

End RawFacts.

(** ** The codes of the diagnostics *)

Section RawCodes.

Import Analyzer.

Lemma rawCoded_snoc ds d :
  Props.rawCoded ds -> In (code d) Props.rawCodes -> Props.rawCoded (ds ++ [d]).
Proof. intros H Hd. apply Forall_app. split; [exact H | constructor; [exact Hd|constructor]]. Qed.

Lemma classifyPart_codes line lineNo acc part :
  Props.rawCoded (snd acc) -> Props.rawCoded (snd (classifyPart line lineNo acc part)).
Proof.
  destruct acc as [t ds]. unfold classifyPart. cbn [snd]. intros H.
  destruct (Js.isEmpty (Js.trim part)); [exact H|].
  destruct (isTimePart (Js.trim part)).
  { destruct (time t); cbn [snd]; [|exact H].
    apply rawCoded_snoc; [exact H|]. cbn. auto. }
  destruct (isDurationPart (Js.trim part)).
  { destruct (duration t); cbn [snd]; [|exact H].
    apply rawCoded_snoc; [exact H|]. cbn. auto. }
  destruct (isCategoryPart (Js.trim part)).
  { unfold parseCategory. destruct (_ || _); cbn [snd]; [|exact H].
    apply rawCoded_snoc; [exact H|]. cbn. auto. }
  destruct (isLikelyBadCategory (Js.trim part)).
  { cbn [snd]. apply rawCoded_snoc; [exact H|]. cbn. auto. }
  destruct (isLikelyBadDuration (Js.trim part)).
  { cbn [snd]. apply rawCoded_snoc; [exact H|]. cbn. auto. }
  exact H.
Qed.

Lemma classifyParts_codes line lineNo parts : forall acc,
  Props.rawCoded (snd acc) ->
  Props.rawCoded (snd (fold_left (classifyPart line lineNo) parts acc)).
Proof.
  induction parts as [|p parts IH]; intros acc H; cbn [fold_left]; [exact H|].
  apply IH, classifyPart_codes, H.
Qed.

Lemma parseTaskParts_codes line content lineNo :
  Props.rawCoded (snd (parseTaskParts line content lineNo)).
Proof.
  unfold parseTaskParts.
  pose proof (classifyParts_codes line lineNo (splitTaskParts content)
                (mkRawTaskParts None None [] [], []) (Forall_nil _)) as H.
  destruct (fold_left _ _ _) as [t ds]. cbn [snd] in H.
  destruct (Js.endsWith _ _); cbn [snd]; [|exact H].
  apply rawCoded_snoc; [exact H|]. cbn. auto 6.
Qed.

Lemma parseLineContent_codes line lineNo sec :
  Props.rawCoded (lc_diagnostics (parseLineContent line lineNo sec)).
Proof.
  unfold parseLineContent.
  destruct (match matchDashLine line with
            | Some c => Some c
            | None => match matchBangLine line with
                      | Some c => Some ("!" ++ c)
                      | None => None
                      end
            end) as [content|]; [|constructor].
  destruct (if Js.startsWith content "!" then matchDirective content else None)
    as [[nm argsStr]|]; [constructor|].
  destruct (sectionMode_eqb sec scratchpad); [constructor|].
  pose proof (parseTaskParts_codes line content lineNo) as H.
  destruct (parseTaskParts line content lineNo) as [t ds]. exact H.
Qed.

Lemma preprocessLine_codes line lineNo :
  Forall (fun d => code d = WarningCode.MISSING_SPACE_AFTER_DASH)
    (Lexer.pp_diagnostics (Lexer.preprocessLine line lineNo)).
Proof.
  unfold Lexer.preprocessLine. destruct (Lexer.matchDashPart line); [|constructor].
  destruct (_ && _); cbn; repeat constructor.
Qed.

(** The diagnostics that [parseLinesToRaw] gives a line carry the codes of
    the tokenizer and of the line parser, and no other. *)
Lemma parseLineToRaw_codes sec line lineNo :
  Props.rawCoded (r_diagnostics (fst (parseLineToRaw sec line lineNo))).
Proof.
  assert (Hpp : Props.rawCoded (Lexer.pp_diagnostics (Lexer.preprocessLine line lineNo))).
  { eapply Forall_impl; [|apply preprocessLine_codes]. intros d ->. cbn. auto. }
  unfold parseLineToRaw. destruct (_ && _); cbn [fst r_diagnostics]; [|exact Hpp].
  apply Forall_app. split; [exact Hpp | apply parseLineContent_codes].
Qed.

Lemma filter_none {A} (p : A -> bool) l :
  Forall (fun x => p x = false) l -> filter p l = [].
Proof.
  induction 1 as [|x l Hx _ IH]; cbn; [reflexivity|]. rewrite Hx. exact IH.
Qed.

Lemma rawCodes_no_overlap ds :
  Props.rawCoded ds -> filter Props.isOverlapCode (map code ds) = [].
Proof.
  intros H. apply filter_none. apply Forall_map. eapply Forall_impl; [|exact H].
  intros d Hd. cbn in Hd.
  destruct Hd as [<-|[<-|[<-|[<-|[<-|[]]]]]]; reflexivity.
Qed.

Lemma analysisCodes_no_overlap ds :
  Forall (fun d => In (code d) Props.analysisCodes) ds ->
  filter Props.isOverlapCode (map code ds) = [].
Proof.
  intros H. apply filter_none. apply Forall_map. eapply Forall_impl; [|exact H].
  intros d Hd. cbn in Hd.
  destruct Hd as [<-|[<-|[<-|[<-|[]]]]]; reflexivity.
Qed.

Lemma checkOverlap_intersects scheduled s e :
  checkOverlap scheduled (Some s) (Some e) = existsb (Props.intersects s e) scheduled.
Proof.
  unfold checkOverlap. induction scheduled as [|o rest IH]; cbn [existsb]; [reflexivity|].
  rewrite IH. f_equal. unfold Props.intersects, dateLt.
  destruct (start o), (end_ o); try reflexivity. rewrite Z.gtb_ltb. reflexivity.
Qed.

End RawCodes.

(** ** Task lines *)

Section TaskLines.

Import Analyzer.

Variable host : Host.

Lemma analyze_lengths options source prog :
  analyze host options source = Ok prog ->
  List.length (lines prog) = List.length (parseLinesToRaw (Js.splitLines source)).
Proof.
  unfold analyze, analyzeSourceLines.
  destruct (analyzeLines host _ 0 _) as [[ls st2]|e] eqn:E; [|discriminate].
  intros H. inversion H; subst. cbn [lines]. eapply analyzeLines_length, E.
Qed.

Lemma analyze_raw_line options source prog k rl :
  analyze host options source = Ok prog ->
  nth_error (parseLinesToRaw (Js.splitLines source)) k = Some rl ->
  exists pl, nth_error (lines prog) k = Some pl.
Proof.
  intros H Hk. pose proof (analyze_lengths _ _ _ H) as Hl.
  destruct (nth_error (lines prog) k) as [pl|] eqn:E; [eauto|].
  apply nth_error_None in E. assert (nth_error (parseLinesToRaw (Js.splitLines source)) k <> None) by congruence.
  apply nth_error_Some in H0. lia.
Qed.

(** A line of the result that holds a task node is a line that
    [parseLinesToRaw] read as a task, in planner mode, and its record is
    what [analyzeTask] returned for it. *)
Lemma task_line options source prog k pl :
  analyze host options source = Ok prog ->
  nth_error (lines prog) k = Some pl ->
  (exists t, node pl = Some (TaskN t))
  \/ (exists rl parts, nth_error (parseLinesToRaw (Js.splitLines source)) k = Some rl
                       /\ task rl = Some parts) ->
  exists rl parts st st',
    nth_error (parseLinesToRaw (Js.splitLines source)) k = Some rl
    /\ task rl = Some parts
    /\ Props.sectionBefore source k = planner
    /\ Props.rawCoded (r_diagnostics rl)
    /\ Props.stateBefore host options source k = Ok st
    /\ Props.stateBefore host options source (S k) = Ok st'
    /\ tasks st = Props.scheduledOf (firstn k (lines prog))
    /\ cursorTime st = Props.lastEnd (tasks st)
    /\ analyzeTask host st rl parts (generateLineId (r_raw rl) (Z.of_nat k)) = Ok (pl, st').
Proof.
  intros H Hk Ht.
  destruct (analyze_line host _ _ _ _ _ H Hk) as (rl & st & st' & Hrl & Hb & Ha & Hline & Hts & Hc).
  destruct (parseLinesToRaw_nth _ _ _ Hrl) as (line & Hl & Hraw).
  assert (Hcodes : Props.rawCoded (r_diagnostics rl)) by (rewrite Hraw; apply parseLineToRaw_codes).
  apply analyzeLine_cases in Hline.
  destruct Hline as [(Hn & _ & _ & _ & Hwhy) | [(d & _ & Hd & Hpl) | (parts & _ & _ & Hp & Htask)]].
  - exfalso. destruct Ht as [(t & Hnt) | (rl' & parts & Hrl' & Hp)]; [congruence|].
    rewrite Hrl in Hrl'. inversion Hrl'; subst rl'.
    rewrite Hraw in Hp, Hwhy.
    destruct (parseLineToRaw_task _ _ _ _ Hp) as (_ & B & C & _).
    destruct Hwhy as [Hbc | [_ Hno]]; [rewrite B, C in Hbc; discriminate | congruence].
  - exfalso. destruct Ht as [(t & Hnt) | (rl' & parts & Hrl' & Hp)].
    + destruct (analyzeDirective_node st rl d (generateLineId (r_raw rl) (Z.of_nat k)))
        as (diags & Hf & _).
      rewrite <- Hpl in Hf. cbn [fst] in Hf. subst pl. cbn in Hnt. discriminate.
    + rewrite Hrl in Hrl'. inversion Hrl'; subst rl'. rewrite Hraw in Hp, Hd.
      destruct (parseLineToRaw_task _ _ _ _ Hp) as (_ & _ & _ & D & _). congruence.
  - exists rl, parts, st, st'. repeat (split; [assumption|]).
    split; [|auto 10]. rewrite Hraw in Hp.
    destruct (parseLineToRaw_task _ _ _ _ Hp) as (S1 & _). exact S1.
Qed.

Lemma titleOf_nonempty parts : titleOf parts <> EmptyString.
Proof.
  unfold titleOf. destruct (Js.isEmpty _) eqn:E; [discriminate|].
  apply isEmpty_false in E. exact E.
Qed.

Lemma statusOf_invalid ds : statusOf ds = invalid <-> hasErrorCode ds = true.
Proof.
  unfold statusOf. destruct (hasErrorCode ds); [tauto|].
  destruct ds; split; discriminate.
Qed.

End TaskLines.

(** ** Lists *)

Lemma In_firstn_nth {A} (x : A) k l :
  In x (firstn k l) -> exists j, (j < k)%nat /\ nth_error l j = Some x.
Proof.
  intros Hin. apply In_nth_error in Hin. destruct Hin as (j & Hj).
  rewrite nth_error_firstn in Hj. destruct (j <? k)%nat eqn:E; [|discriminate].
  apply Nat.ltb_lt in E. eauto.
Qed.

Lemma flat_map_nil {A B} (f : A -> list B) l :
  (forall x, In x l -> f x = []) -> flat_map f l = [].
Proof.
  induction l as [|x l IH]; intros H; cbn; [reflexivity|].
  rewrite (H x (or_introl eq_refl)), IH; [reflexivity|].
  intros y Hy. apply H. right. exact Hy.
Qed.

Lemma app_snoc_neq {A} (l : list A) x : l <> (l ++ [x])%list.
Proof.
  intros H. apply (f_equal (@List.length A)) in H. rewrite length_app in H. cbn in H. lia.
Qed.


(** ** The two passes of [analyze] *)

Section Prepass.

Import Analyzer.

Variable host : Host.











End Prepass.
(** ** The field that a directive sets *)

Section Fields.

Import Analyzer.

Variable host : Host.















End Fields.

(** ** Shifting the time of a line *)






Lemma splitLinesAux_single s : forall cur,
  Js.forallb Props.notNewline s = true -> Js.splitLinesAux cur s = [cur ++ s].
Proof.
  induction s as [|c r IH]; intros cur H; cbn [Js.splitLinesAux].
  - rewrite append_nil_r. reflexivity.
  - cbn [Js.forallb] in H. apply andb_true_iff in H as [Hc Hr].
    unfold Props.notNewline in Hc. apply negb_true_iff in Hc. rewrite Hc.
    assert (E : Js.splitLinesAux (cur ++ Js.str1 c) r = [cur ++ String c r]).
    { rewrite (IH _ Hr). unfold Js.str1. rewrite append_assoc. reflexivity. }
    destruct r as [|d r']; [exact E|].
    cbn [Js.forallb] in Hr. apply andb_true_iff in Hr as [Hd _].
    unfold Props.notNewline in Hd. apply negb_true_iff in Hd.
    rewrite Hd, andb_false_r. exact E.
Qed.

Lemma splitLines_single s :
  Js.forallb Props.notNewline s = true -> Js.splitLines s = [s].
Proof. intros H. unfold Js.splitLines. rewrite (splitLinesAux_single _ _ H). reflexivity. Qed.

Lemma forallb_app p a b :
  Js.forallb p (a ++ b) = Js.forallb p a && Js.forallb p b.
Proof. induction a as [|c a IH]; cbn; [reflexivity|]. rewrite IH, andb_assoc. reflexivity. Qed.

(** No line of a document holds a line feed. *)
Lemma splitLinesAux_lines n : forall s cur,
  (String.length s <= n)%nat ->
  Js.forallb Props.notNewline cur = true ->
  Forall (fun l => Js.forallb Props.notNewline l = true) (Js.splitLinesAux cur s).
Proof.
  induction n as [|n IH]; intros s cur Hn Hcur.
  - destruct s; [|cbn in Hn; lia]. cbn. auto.
  - destruct s as [|c r]; [cbn; auto|]. cbn [String.length] in Hn. cbn [Js.splitLinesAux].
    destruct (Js.codeOf c =? 10) eqn:Ec.
    + constructor; [exact Hcur|]. apply IH; [lia | reflexivity].
    + assert (Hstep : Forall (fun l => Js.forallb Props.notNewline l = true)
                        (Js.splitLinesAux (cur ++ Js.str1 c) r)).
      { apply IH; [lia|]. rewrite forallb_app, Hcur. cbn. unfold Props.notNewline.
        rewrite Ec. reflexivity. }
      destruct r as [|d r']; [exact Hstep|].
      destruct ((Js.codeOf c =? 13) && (Js.codeOf d =? 10)); [|exact Hstep].
      constructor; [exact Hcur|]. apply IH; [cbn in Hn; lia | reflexivity].
Qed.

Lemma splitLines_lines s k line :
  nth_error (Js.splitLines s) k = Some line -> Js.forallb Props.notNewline line = true.
Proof.
  intros H. apply nth_error_In in H.
  pose proof (splitLinesAux_lines (String.length s) s EmptyString (le_n _) eq_refl) as F.
  rewrite Forall_forall in F. exact (F _ H).
Qed.

Lemma drop_app a b : Js.drop (String.length a) (a ++ b) = b.
Proof. induction a as [|c a IH]; cbn; [destruct b; reflexivity | exact IH]. Qed.

(** The marker of a line: the white space before the dash, the dash, and
    the white space after it. *)
Lemma matchDashPart_some line prefix :
  Lexer.matchDashPart line = Some prefix ->
  exists ws r,
    Js.forallb Js.isSpace ws = true
    /\ line = ws ++ String "-" r
    /\ prefix = ws ++ String "-" (Js.takeWhile Js.isSpace r)
    /\ line = prefix ++ Js.drop (String.length prefix) line.
Proof.
  unfold Lexer.matchDashPart. pose proof (takeWhile_dropWhile Js.isSpace line) as Hl.
  destruct (Js.dropWhile Js.isSpace line) as [|c r] eqn:Ed; [discriminate|].
  destruct (Ascii.eqb c "-") eqn:Ec; [|discriminate]. apply Ascii.eqb_eq in Ec. subst c.
  intros H. inversion H; subst prefix; clear H.
  exists (Js.takeWhile Js.isSpace line), r.
  split; [apply takeWhile_forallb|]. split; [symmetry; exact Hl|]. split; [reflexivity|].
  cbn [append].
  assert (E : line = (Js.takeWhile Js.isSpace line ++ String "-" (Js.takeWhile Js.isSpace r))
                     ++ Js.dropWhile Js.isSpace r).
  { rewrite append_assoc. cbn [append]. rewrite takeWhile_dropWhile. symmetry. exact Hl. }
  remember (Js.takeWhile Js.isSpace line ++ String "-" (Js.takeWhile Js.isSpace r)) as marker.
  rewrite E, drop_app. reflexivity.
Qed.



Lemma takeWhile_all p s : Js.forallb p s = true -> Js.takeWhile p s = s.
Proof.
  induction s as [|c r IH]; cbn; [reflexivity|].
  intros H. apply andb_true_iff in H as [-> Hr]. rewrite (IH Hr). reflexivity.
Qed.

Lemma forallb_drop p n : forall s, Js.forallb p s = true -> Js.forallb p (Js.drop n s) = true.
Proof.
  induction n as [|n IH]; intros s H; [destruct s; exact H|].
  destruct s as [|c r]; [reflexivity|]. cbn [Js.drop]. apply IH.
  cbn in H. apply andb_true_iff in H. tauto.
Qed.



Lemma dropWhile_head p s c r : Js.dropWhile p s = String c r -> p c = false.
Proof.
  induction s as [|d s IH]; cbn; [discriminate|].
  destruct (p d) eqn:E; [exact IH|]. intros H. inversion H; subst. exact E.
Qed.




Section Shift.

Variable host : Analyzer.Host.



End Shift.

(** ** The analysis of a document *)

Section Claims.

Import Analyzer.

Variable host : Host.

Lemma firstn_S_nth {A} (l : list A) : forall k x,
  nth_error l k = Some x -> firstn (S k) l = (firstn k l ++ [x])%list.
Proof.
  induction l as [|a l IH]; intros k x H; [destruct k; discriminate|].
  destruct k as [|k].
  - cbn in H. inversion H. reflexivity.
  - cbn [nth_error] in H. rewrite firstn_cons, (IH _ _ H). reflexivity.
Qed.

Lemma sectionAfterFrom_snoc l : forall sec n x,
  Props.sectionAfterFrom sec n (l ++ [x]) =
  snd (parseLineToRaw (Props.sectionAfterFrom sec n l) x (n + Z.of_nat (List.length l))).
Proof.
  induction l as [|a l IH]; intros sec n x.
  - cbn. rewrite Z.add_0_r. reflexivity.
  - cbn [app Props.sectionAfterFrom List.length]. rewrite IH. do 2 f_equal. lia.
Qed.

(** The section mode after a line, from the mode before it. *)
Lemma sectionBefore_S source k rl :
  nth_error (parseLinesToRaw (Js.splitLines source)) k = Some rl ->
  Props.sectionBefore source (S k) =
  if Props.isDirectiveNamed "scratchpad" rl then scratchpad
  else if Props.isDirectiveNamed "planner" rl then planner
  else Props.sectionBefore source k.
Proof.
  intros Hrl. destruct (parseLinesToRaw_nth _ _ _ Hrl) as (line & Hl & Hraw).
  unfold Props.sectionBefore. rewrite (firstn_S_nth _ _ _ Hl), sectionAfterFrom_snoc.
  rewrite parseLineToRaw_section.
  assert (Hlen : List.length (firstn k (Js.splitLines source)) = k).
  { rewrite length_firstn. apply Nat.min_l.
    apply Nat.lt_le_incl. apply nth_error_Some. congruence. }
  rewrite Hlen. unfold Props.sectionBefore in Hraw. rewrite <- Hraw. reflexivity.
Qed.

(** After a scratchpad directive the mode is [scratchpad] until a planner
    directive. *)
Lemma scratchpad_persists source i ri :
  nth_error (parseLinesToRaw (Js.splitLines source)) i = Some ri ->
  Props.isDirectiveNamed "scratchpad" ri = true ->
  forall k,
    (i < k)%nat ->
    (k <= List.length (parseLinesToRaw (Js.splitLines source)))%nat ->
    (forall j rj, (i < j < k)%nat ->
                  nth_error (parseLinesToRaw (Js.splitLines source)) j = Some rj ->
                  Props.isDirectiveNamed "planner" rj = false) ->
    Props.sectionBefore source k = scratchpad.
Proof.
  intros Hri Hsc k. induction k as [|k IH]; intros Hik Hlen Hno; [lia|].
  destruct (Nat.eq_dec i k) as [->|Hne].
  - rewrite (sectionBefore_S _ _ _ Hri), Hsc. reflexivity.
  - destruct (nth_error (parseLinesToRaw (Js.splitLines source)) k) as [rk|] eqn:Erk.
    2:{ apply nth_error_None in Erk. lia. }
    rewrite (sectionBefore_S _ _ _ Erk).
    destruct (Props.isDirectiveNamed "scratchpad" rk); [reflexivity|].
    rewrite (Hno k rk ltac:(lia) Erk). apply IH; [lia | lia |].
    intros j rj Hj. apply Hno. lia.
Qed.



(** C10.  Every line that the analyzer reads as a task (which it does in
    planner mode only) carries a task node in the result, whatever its
    status: the title of the node is never empty, it is the trimmed join of
    the title fragments, and the literal ["Untitled"] when nothing remains of
    them; the status is [invalid] exactly when a diagnostic has an
    error-class code, and the node is there all the same. *)
Theorem C10_task_line_keeps_its_node options source prog k rl parts :
  analyze host options source = Ok prog ->
  nth_error (parseLinesToRaw (Js.splitLines source)) k = Some rl ->
  task rl = Some parts ->
  Props.sectionBefore source k = planner
  /\ exists pl t,
       nth_error (lines prog) k = Some pl
       /\ node pl = Some (TaskN t)
       /\ title t <> EmptyString
       /\ (Js.trim (Js.join " " (titleParts parts)) = EmptyString -> title t = "Untitled")
       /\ (Js.trim (Js.join " " (titleParts parts)) <> EmptyString ->
           title t = Js.trim (Js.join " " (titleParts parts)))
       /\ (status pl = invalid <-> hasErrorCode (diagnostics pl) = true).
Proof.
  intros H Hrl Hp. destruct (analyze_raw_line host _ _ _ _ _ H Hrl) as (pl & Hk).
  destruct (task_line host _ _ _ _ _ H Hk (or_intror (ex_intro _ rl (ex_intro _ parts (conj Hrl Hp)))))
    as (rl' & parts' & st & st' & Hrl' & Hp' & Hsec & _ & _ & _ & _ & _ & Htask).
  rewrite Hrl in Hrl'. inversion Hrl'; subst rl'. rewrite Hp in Hp'. inversion Hp'; subst parts'.
  split; [exact Hsec|].
  destruct (analyzeTask_facts host _ _ _ _ _ _ Htask) as (t & Hn & _ & _ & _ & Hs & Ht & _).
  exists pl, t. split; [exact Hk|]. split; [exact Hn|]. rewrite Ht.
  split; [apply titleOf_nonempty|]. unfold titleOf. split; [|split].
  - intros ->. reflexivity.
  - intros Hne. apply isEmpty_false in Hne. rewrite Hne. reflexivity.
  - rewrite Hs. apply statusOf_invalid.
Qed.


(** C2.  A task line advances the cursor and joins the scheduled set exactly
    when its diagnostics hold no error-class code: then the cursor becomes
    its end instant and the scheduled set gains its node, and otherwise both
    stay as they were.  The scheduled set that a line meets is made of the
    task lines above it that carry no error-class code, so a line with one
    takes part in no later chaining or overlap check; and a task line
    without a time token that meets a scheduled task starts at the end
    instant of the most recent one. *)
Theorem C2_committal_and_chaining options source prog k pl t :
  analyze host options source = Ok prog ->
  nth_error (lines prog) k = Some pl ->
  node pl = Some (TaskN t) ->
  exists rl parts st st',
    nth_error (parseLinesToRaw (Js.splitLines source)) k = Some rl
    /\ task rl = Some parts
    /\ Props.stateBefore host options source k = Ok st
    /\ Props.stateBefore host options source (S k) = Ok st'
    /\ tasks st = Props.scheduledOf (firstn k (lines prog))
    /\ cursorTime st = Props.lastEnd (tasks st)
    /\ (hasErrorCode (diagnostics pl) = false <-> tasks st' = (tasks st ++ [t])%list)
    /\ (hasErrorCode (diagnostics pl) = false ->
        exists e, end_ t = Some e /\ cursorTime st' = Some e)
    /\ (hasErrorCode (diagnostics pl) = true ->
        cursorTime st' = cursorTime st /\ tasks st' = tasks st)
    /\ (time parts = None ->
        forall earlier recent, tasks st = (earlier ++ [recent])%list ->
        exists e, end_ recent = Some e /\ start t = Some e /\ explicitStart t = false).
Proof.
  intros H Hk Hn.
  destruct (task_line host _ _ _ _ _ H Hk (or_introl (ex_intro _ t Hn)))
    as (rl & parts & st & st' & Hrl & Hp & _ & _ & Hb & Ha & Hts & Hc & Htask).
  exists rl, parts, st, st'. do 6 (split; [assumption|]).
  destruct (analyzeTask_facts _ _ _ _ _ _ _ Htask)
    as (t' & Hn' & _ & _ & _ & _ & _ & Htime & _ & Hok & Herr & _).
  rewrite Hn in Hn'. inversion Hn'; subst t'. clear Hn'.
  split; [split|].
  - intros He. destruct (Hok He) as (e & _ & ->). reflexivity.
  - intros Hgrow. destruct (hasErrorCode (diagnostics pl)) eqn:E; [|reflexivity].
    rewrite (Herr eq_refl) in Hgrow. exfalso. exact (app_snoc_neq _ _ Hgrow).
  - split; [|split].
    + intros He. destruct (Hok He) as (e & Hend & ->). exists e. auto.
    + intros He. rewrite (Herr He). auto.
    + intros Hnone earlier recent Hlast.
      destruct (Htime Hnone) as [Hex Hstart].
      rewrite Hc, Hlast, lastEnd_snoc in Hstart.
      (* the most recent scheduled task was committed, so it has an end *)
      assert (Hend : exists e, end_ recent = Some e).
      { assert (Hin : In recent (Props.scheduledOf (firstn k (lines prog)))).
        { rewrite <- Hts, Hlast. apply in_or_app. right. left. reflexivity. }
        unfold Props.scheduledOf in Hin. apply in_flat_map in Hin.
        destruct Hin as (pj & Hpj & Hrec).
        destruct (node pj) as [[tj|dj]|] eqn:Enj; try contradiction.
        destruct (hasErrorCode (diagnostics pj)) eqn:Eej; [contradiction|].
        destruct Hrec as [->|[]].
        apply In_firstn_nth in Hpj. destruct Hpj as (j & _ & Hj).
        destruct (task_line host _ _ _ _ _ H Hj (or_introl (ex_intro _ recent Enj)))
          as (rlj & partsj & stj & stj' & _ & _ & _ & _ & _ & _ & _ & _ & Htaskj).
        destruct (analyzeTask_facts _ _ _ _ _ _ _ Htaskj)
          as (tj & Hnj & _ & _ & _ & _ & _ & _ & _ & Hokj & _).
        rewrite Enj in Hnj. inversion Hnj; subst tj.
        destruct (Hokj Eej) as (e & He & _). eauto. }
      destruct Hend as (e & He). exists e. rewrite Hstart. auto.
Qed.

(** C3.  For a task line with a resolved start and end, the overlap
    diagnostics are decided by the half-open interval test against the tasks
    scheduled above it and by the overlap policy in force at the line: no
    overlap diagnostic when no scheduled task intersects or when the policy
    is [ignore]; otherwise exactly one, of code [E030-overlap] under [error]
    and [W010-overlap] under [warning]. *)
Theorem C3_overlap_detection options source prog k pl t s e :
  analyze host options source = Ok prog ->
  nth_error (lines prog) k = Some pl ->
  node pl = Some (TaskN t) ->
  start t = Some s -> end_ t = Some e ->
  exists st,
    Props.stateBefore host options source k = Ok st
    /\ tasks st = Props.scheduledOf (firstn k (lines prog))
    /\ Props.overlapCodes pl =
       if existsb (Props.intersects s e) (tasks st) then
         match overlapPolicy (st_context st) with
         | policy_error => [ErrorCode.OVERLAP]
         | policy_warning => [WarningCode.OVERLAP]
         | policy_ignore => []
         end
       else [].
Proof.
  intros H Hk Hn Hs He.
  destruct (task_line host _ _ _ _ _ H Hk (or_introl (ex_intro _ t Hn)))
    as (rl & parts & st & st' & Hrl & Hp & _ & Hcodes & Hb & Ha & Hts & Hc & Htask).
  exists st. do 2 (split; [assumption|]).
  destruct (analyzeTask_facts _ _ _ _ _ _ _ Htask)
    as (t' & Hn' & _ & _ & _ & _ & _ & _ & _ & _ & _ & (pre & Hd & Hpre) & _).
  rewrite Hn in Hn'. inversion Hn'; subst t'. clear Hn'.
  unfold Props.overlapCodes. rewrite Hd, !map_app, !filter_app.
  rewrite (rawCodes_no_overlap _ Hcodes), (analysisCodes_no_overlap _ Hpre).
  rewrite Hs, He. cbn [option_map app]. unfold overlapDiagnostics.
  rewrite checkOverlap_intersects.
  destruct (overlapPolicy (st_context st)); destruct (existsb _ _); reflexivity.
Qed.

(** C5 (as amended).  A line that is read as a task (in planner mode) and
    has no time token gets the diagnostic [E020-missing-start-first-line] and
    the status [invalid] whenever no task line above it was scheduled; in
    particular when every line above it is blank, a comment or a directive,
    so that it is the first line of the document that could be a task. *)
Theorem C5_first_task_needs_a_start options source prog k rl parts pl :
  analyze host options source = Ok prog ->
  nth_error (parseLinesToRaw (Js.splitLines source)) k = Some rl ->
  task rl = Some parts ->
  time parts = None ->
  nth_error (lines prog) k = Some pl ->
  (Props.scheduledOf (firstn k (lines prog)) = [] ->
   Props.hasCode ErrorCode.MISSING_START_FIRST_LINE pl /\ status pl = invalid)
  /\ ((forall j rj, (j < k)%nat ->
                    nth_error (parseLinesToRaw (Js.splitLines source)) j = Some rj ->
                    Props.isInert rj = true) ->
      Props.hasCode ErrorCode.MISSING_START_FIRST_LINE pl /\ status pl = invalid).
Proof.
  intros H Hrl Hp Hnone Hk.
  destruct (task_line host _ _ _ _ _ H Hk (or_intror (ex_intro _ rl (ex_intro _ parts (conj Hrl Hp)))))
    as (rl' & parts' & st & st' & Hrl' & Hp' & _ & _ & _ & _ & Hts & Hc & Htask).
  rewrite Hrl in Hrl'. inversion Hrl'; subst rl'. rewrite Hp in Hp'. inversion Hp'; subst parts'.
  destruct (analyzeTask_facts _ _ _ _ _ _ _ Htask)
    as (t & Hn & _ & _ & _ & Hst & _ & Htime & Hmiss & _).
  assert (Hfirst : Props.scheduledOf (firstn k (lines prog)) = [] ->
                   Props.hasCode ErrorCode.MISSING_START_FIRST_LINE pl /\ status pl = invalid).
  { intros Hempty. destruct (Htime Hnone) as [_ Hstart].
    rewrite Hc, Hts, Hempty in Hstart. cbn in Hstart.
    destruct (Hmiss Hstart) as [Hin Herr]. split; [exact Hin|].
    rewrite Hst. apply statusOf_invalid, Herr. }
  split; [exact Hfirst|]. intros Hinert. apply Hfirst.
  unfold Props.scheduledOf. apply flat_map_nil. intros pj Hpj.
  apply In_firstn_nth in Hpj. destruct Hpj as (j & Hjk & Hj).
  destruct (node pj) as [[tj|dj]|] eqn:Enj; try reflexivity. exfalso.
  destruct (task_line host _ _ _ _ _ H Hj (or_introl (ex_intro _ tj Enj)))
    as (rlj & partsj & _ & _ & Hrlj & Hpj & _).
  specialize (Hinert j rlj Hjk Hrlj).
  destruct (parseLinesToRaw_nth _ _ _ Hrlj) as (line & _ & Hraw).
  rewrite Hraw in Hpj, Hinert.
  destruct (parseLineToRaw_task _ _ _ _ Hpj) as (_ & B & C & D & _).
  unfold Props.isInert in Hinert. rewrite B, C, D in Hinert. discriminate.
Qed.


(** C4 (as amended).  Between a scratchpad directive and the next planner
    directive (or the end of the document), every line that is not itself a
    directive is read in scratchpad mode and is returned with the status
    [valid], no semantic node, and no diagnostic but the tokenizer's warning
    of a missing space after the marker, however much its text resembles a
    task. *)
Theorem C4_scratchpad_isolation options source prog i k ri rk :
  analyze host options source = Ok prog ->
  nth_error (parseLinesToRaw (Js.splitLines source)) i = Some ri ->
  Props.isDirectiveNamed "scratchpad" ri = true ->
  (i < k)%nat ->
  (forall j rj, (i < j < k)%nat ->
                nth_error (parseLinesToRaw (Js.splitLines source)) j = Some rj ->
                Props.isDirectiveNamed "planner" rj = false) ->
  nth_error (parseLinesToRaw (Js.splitLines source)) k = Some rk ->
  directive rk = None ->
  Props.sectionBefore source k = scratchpad
  /\ exists pl line,
       nth_error (lines prog) k = Some pl
       /\ nth_error (Js.splitLines source) k = Some line
       /\ status pl = valid
       /\ node pl = None
       /\ diagnostics pl
          = Lexer.pp_diagnostics (Lexer.preprocessLine line (1 + Z.of_nat k))
       /\ Forall (fun d => code d = WarningCode.MISSING_SPACE_AFTER_DASH) (diagnostics pl).
Proof.
  intros H Hri Hsc Hik Hno Hrk Hd.
  assert (Hsec : Props.sectionBefore source k = scratchpad).
  { apply (scratchpad_persists source i ri Hri Hsc k Hik); [|exact Hno].
    apply Nat.lt_le_incl. apply nth_error_Some. congruence. }
  split; [exact Hsec|].
  destruct (analyze_raw_line host _ _ _ _ _ H Hrk) as (pl & Hk).
  destruct (analyze_line host _ _ _ _ _ H Hk) as (rl & st & st' & Hrl & _ & _ & Hline & _).
  rewrite Hrk in Hrl. inversion Hrl; subst rl. clear Hrl.
  destruct (parseLinesToRaw_nth _ _ _ Hrk) as (line & Hl & Hraw).
  rewrite Hsec in Hraw. rewrite Hraw in Hd.
  destruct (parseLineToRaw_scratchpad _ _ Hd) as [Ht Hdiag]. rewrite <- Hraw in Ht, Hdiag, Hd.
  exists pl, line. split; [exact Hk|]. split; [exact Hl|].
  apply analyzeLine_cases in Hline.
  destruct Hline as [(Hn & _ & Hs & Hdg & _) | [(d & _ & Hd' & _) | (parts & _ & _ & Hp & _)]];
    [|congruence|congruence].
  rewrite Hdg, Hdiag. repeat split; try assumption. apply preprocessLine_codes.
Qed.


End Claims.

Section ShiftClaims.
Import Analyzer.
Variable host : Host.



End ShiftClaims.

(** ** Batches *)

Lemma mapGet_mapSet {V} (m : list (string * V)) k v k' :
  TimeShift.mapGet String.eqb (TimeShift.mapSet String.eqb m k v) k'
  = if String.eqb k k' then Some v else TimeShift.mapGet String.eqb m k'.
Proof.
  induction m as [|[k0 v0] m IH]; cbn.
  - reflexivity.
  - destruct (String.eqb_spec k0 k) as [->|Hne]; cbn.
    + destruct (String.eqb k k'); reflexivity.
    + rewrite IH. destruct (String.eqb_spec k0 k') as [->|Hne'].
      * destruct (String.eqb_spec k k') as [->|_]; [contradiction Hne|]; reflexivity.
      * reflexivity.
Qed.

Section Batch.

Variable host : Analyzer.Host.

(** The loop of the batch: a line failed when one did before or one of the
    lines of the loop fails, and the entry of a key is the result of the
    last line of the loop that has it. *)
Lemma batchLoop_spec allLines offset todo : forall results hasErrors,
  let out := TimeShift.batchLoop host allLines offset results hasErrors todo in
  snd out
  = hasErrors
    || existsb (fun l => negb (TimeShift.success
                                 (TimeShift.executeTimeShift host l offset allLines))) todo
  /\ (forall line, In line todo ->
        exists other,
          In other todo /\ id other = id line
          /\ TimeShift.mapGet String.eqb (fst out) (id line)
             = Some (TimeShift.executeTimeShift host other offset allLines))
  /\ (forall k, (forall line, In line todo -> id line <> k) ->
        TimeShift.mapGet String.eqb (fst out) k = TimeShift.mapGet String.eqb results k).
Proof.
  induction todo as [|l todo IH]; intros results hasErrors; cbn zeta.
  - cbn. rewrite orb_false_r. split; [reflexivity|]. split; [contradiction|reflexivity].
  - cbn [TimeShift.batchLoop existsb].
    destruct (IH (TimeShift.mapSet String.eqb results (id l)
                    (TimeShift.executeTimeShift host l offset allLines))
                 (hasErrors || negb (TimeShift.success
                                       (TimeShift.executeTimeShift host l offset allLines))))
      as (He & Hin & Hout).
    cbn zeta in He, Hin, Hout. split; [rewrite He, orb_assoc; reflexivity|]. split.
    + intros line [<-|Hl].
      * destruct (in_dec String.string_dec (id l) (map id todo)) as [Hlater|Hnot].
        -- apply in_map_iff in Hlater. destruct Hlater as (l2 & Hid & Hl2).
           destruct (Hin l2 Hl2) as (other & Ho & Hido & Hget).
           exists other. split; [right; exact Ho|]. split; [congruence|].
           rewrite Hid in Hget. exact Hget.
        -- exists l. split; [left; reflexivity|]. split; [reflexivity|].
           rewrite Hout.
           ++ rewrite mapGet_mapSet, String.eqb_refl. reflexivity.
           ++ intros line Hline Heq. apply Hnot. apply in_map_iff. eauto.
      * destruct (Hin line Hl) as (other & Ho & Hido & Hget).
        exists other. split; [right; exact Ho|]. auto.
    + intros k Hk. rewrite Hout.
      * rewrite mapGet_mapSet. destruct (String.eqb_spec (id l) k) as [E|_]; [|reflexivity].
        exfalso. exact (Hk l (or_introl eq_refl) E).
      * intros line Hline. apply Hk. right. exact Hline.
Qed.

(** C9.  What the code does on a batch.  [executeBatchTimeShift] does shift
    each selected line on its own against the same lines, and keeps the
    result of every line under its id, and it reports a failure as soon as
    one line fails.  [shiftMultipleLines] then returns at once on that
    report, with no new content and no result for any line: the text of the
    lines that were shifted is lost, which is not what the claim says. *)
Theorem C9_batch_shift_is_all_or_nothing content lineNumbers offset program :
  TimeUtils.valid (TimeUtils.validateTimeOffset offset) = true ->
  Core.analyzeDocument host content = Analyzer.Ok program ->
  let selected := Core.selectLines (lines program) lineNumbers in
  let batch := TimeShift.executeBatchTimeShift host selected offset in
  (forall line, In line selected ->
     exists other,
       In other selected /\ id other = id line
       /\ TimeShift.mapGet String.eqb (TimeShift.b_results batch) (id line)
          = Some (TimeShift.executeTimeShift host other offset selected))
  /\ (TimeShift.b_success batch = false <->
      exists line,
        In line selected
        /\ TimeShift.success (TimeShift.executeTimeShift host line offset selected) = false)
  /\ (TimeShift.b_success batch = false ->
      Core.shiftMultipleLines host content lineNumbers offset
      = Analyzer.Ok (Core.mkBatchTimeShiftResult false None
                       (Some "Some lines failed to shift") [])).
Proof.
  intros Hv Hdoc selected batch.
  assert (Hb : batch =
               let out := TimeShift.batchLoop host selected offset [] false selected in
               TimeShift.mkBatchResult (negb (snd out)) (fst out)
                 (if snd out then Some "Some lines failed to shift" else None)).
  { unfold batch, TimeShift.executeBatchTimeShift. rewrite Hv. cbn [negb].
    destruct (TimeShift.batchLoop host selected offset [] false selected). reflexivity. }
  destruct (batchLoop_spec selected offset selected [] false) as (He & Hin & _).
  cbn zeta in He, Hin, Hb. cbn [orb] in He.
  split; [|split].
  - rewrite Hb. cbn [TimeShift.b_results]. exact Hin.
  - rewrite Hb. cbn [TimeShift.b_success]. rewrite He, negb_false_iff, existsb_exists.
    split; intros (line & Hl & Hs); exists line; (split; [exact Hl|]).
    + apply negb_true_iff in Hs. exact Hs.
    + rewrite Hs. reflexivity.
  - intros Hf. unfold Core.shiftMultipleLines. rewrite Hv, Hdoc. cbn [negb].
    fold selected. fold batch. rewrite Hf. cbn [negb]. do 2 f_equal.
    rewrite Hb in Hf |- *. cbn [TimeShift.b_success TimeShift.b_error] in Hf |- *.
    apply negb_false_iff in Hf. rewrite Hf. reflexivity.
Qed.

End Batch.

(** The theorem of C9 on a task and a comment: the first line is shifted,
    the second one cannot be, and the service returns nothing. *)
Lemma C9_witness_task_and_comment :
  Core.shiftMultipleLines Analyzer.sampleHost Samples.taskAndComment [1; 2] "+15m"
  = Analyzer.Ok (Core.mkBatchTimeShiftResult false None
                   (Some "Some lines failed to shift") []).
Proof.
  destruct (Core.analyzeDocument Analyzer.sampleHost Samples.taskAndComment)
    as [program|e] eqn:E; [|vm_compute in E; discriminate E].
  pose proof (C9_batch_shift_is_all_or_nothing Analyzer.sampleHost Samples.taskAndComment
                [1; 2] "+15m" program eq_refl E) as T.
  cbn zeta in T. apply (proj2 (proj2 T)).
  vm_compute in E. injection E as <-. vm_compute. reflexivity.
Defined.

(** On that batch [executeBatchTimeShift] holds the new text of the first
    line, and [shiftMultipleLines] returns neither it nor a result for any
    line. *)
Lemma C9_shifted_line_is_dropped :
  exists program,
    Core.analyzeDocument Analyzer.sampleHost Samples.taskAndComment = Analyzer.Ok program
    /\ map (fun kv => TimeShift.newLineContent (snd kv))
         (TimeShift.b_results
            (TimeShift.executeBatchTimeShift Analyzer.sampleHost
               (Core.selectLines (lines program) [1; 2]) "+15m"))
       = [Some "- 9:15am, A, 30m"; None]
    /\ Core.shiftMultipleLines Analyzer.sampleHost Samples.taskAndComment [1; 2] "+15m"
       = Analyzer.Ok (Core.mkBatchTimeShiftResult false None
                        (Some "Some lines failed to shift") []).
Proof.
  eexists. split; [vm_compute; reflexivity|]. split; vm_compute; reflexivity.
Qed.


(** ** The theorems on sample documents *)



(** The theorem of C2 on a chain whose second task has a bad duration: the
    third task meets the first one alone in the scheduled set, and starts
    where that one ends. *)
Lemma C2_witness_chain :
  exists prog pl t st recent e,
    Analyzer.analyze Analyzer.sampleHost Analyzer.noOptions Samples.chain = Analyzer.Ok prog
    /\ nth_error (lines prog) 2 = Some pl
    /\ node pl = Some (TaskN t)
    /\ Props.stateBefore Analyzer.sampleHost Analyzer.noOptions Samples.chain 2
       = Analyzer.Ok st
    /\ Analyzer.tasks st = [recent]
    /\ title recent = "A"
    /\ end_ recent = Some e /\ start t = Some e /\ explicitStart t = false.
Proof.
  assert (F : exists prog pl t,
             Analyzer.analyze Analyzer.sampleHost Analyzer.noOptions Samples.chain
             = Analyzer.Ok prog
             /\ nth_error (lines prog) 2 = Some pl /\ node pl = Some (TaskN t)).
  { vm_compute. do 3 eexists. repeat split; reflexivity. }
  destruct F as (prog & pl & t & H & Hk & Hn).
  destruct (C2_committal_and_chaining Analyzer.sampleHost Analyzer.noOptions Samples.chain
              prog 2 pl t H Hk Hn)
    as (rl & parts & st & st' & Hrl & Hp & Hst & _ & _ & _ & _ & _ & _ & Hchain).
  assert (Ht : time parts = None).
  { vm_compute in Hrl. injection Hrl as <-. vm_compute in Hp. injection Hp as <-.
    reflexivity. }
  assert (G : exists recent, Analyzer.tasks st = ([] ++ [recent])%list /\ title recent = "A").
  { vm_compute in Hst. injection Hst as <-. eexists. split; reflexivity. }
  destruct G as (recent & Hlast & Htitle).
  destruct (Hchain Ht [] recent Hlast) as (e & He & Hs & Hx).
  exists prog, pl, t, st, recent, e. auto 10.
Defined.

(** The theorem of C3 on two tasks that overlap, under the default policy. *)
Lemma C3_witness_overlapping :
  exists prog pl,
    Analyzer.analyze Analyzer.sampleHost Analyzer.noOptions Samples.overlapping
    = Analyzer.Ok prog
    /\ nth_error (lines prog) 1 = Some pl
    /\ Props.overlapCodes pl = [WarningCode.OVERLAP].
Proof.
  assert (F : exists prog pl t s e,
             Analyzer.analyze Analyzer.sampleHost Analyzer.noOptions Samples.overlapping
             = Analyzer.Ok prog
             /\ nth_error (lines prog) 1 = Some pl /\ node pl = Some (TaskN t)
             /\ start t = Some s /\ end_ t = Some e
             /\ s = 28948890 /\ e = 28948950).
  { vm_compute. do 5 eexists. repeat split; reflexivity. }
  destruct F as (prog & pl & t & s & e & H & Hk & Hn & Hs & He & -> & ->).
  destruct (C3_overlap_detection Analyzer.sampleHost Analyzer.noOptions Samples.overlapping
              prog 1 pl t _ _ H Hk Hn Hs He) as (st & Hst & _ & Hcodes).
  exists prog, pl. split; [exact H|]. split; [exact Hk|]. rewrite Hcodes.
  vm_compute in Hst. injection Hst as <-. reflexivity.
Defined.

(** The theorem of C4 on a line that reads like a task, between a
    scratchpad directive and a planner directive. *)
Lemma C4_witness_task_in_notes :
  exists prog pl,
    Analyzer.analyze Analyzer.sampleHost Analyzer.noOptions Samples.taskInNotes
    = Analyzer.Ok prog
    /\ nth_error (lines prog) 1 = Some pl
    /\ raw pl = "- 9am, Standup, 30m @work"
    /\ status pl = valid /\ node pl = None /\ diagnostics pl = [].
Proof.
  assert (F : exists prog ri rk,
             Analyzer.analyze Analyzer.sampleHost Analyzer.noOptions Samples.taskInNotes
             = Analyzer.Ok prog
             /\ nth_error (Analyzer.parseLinesToRaw (Js.splitLines Samples.taskInNotes)) 0
                = Some ri
             /\ Props.isDirectiveNamed "scratchpad" ri = true
             /\ nth_error (Analyzer.parseLinesToRaw (Js.splitLines Samples.taskInNotes)) 1
                = Some rk
             /\ directive rk = None).
  { vm_compute. do 3 eexists. repeat split; reflexivity. }
  destruct F as (prog & ri & rk & H & Hi & Hs & Hk & Hd).
  assert (Hnone : forall j rj, (0 < j < 1)%nat ->
                    nth_error (Analyzer.parseLinesToRaw (Js.splitLines Samples.taskInNotes)) j
                    = Some rj -> Props.isDirectiveNamed "planner" rj = false) by lia.
  destruct (C4_scratchpad_isolation Analyzer.sampleHost Analyzer.noOptions
              Samples.taskInNotes prog 0 1 ri rk H Hi Hs (le_n 1) Hnone Hk Hd)
    as (_ & pl & line & Hpl & Hline & Hst & Hnode & Hdiag & _).
  exists prog, pl. split; [exact H|]. split; [exact Hpl|].
  vm_compute in Hline. injection Hline as <-.
  split; [|split; [exact Hst | split; [exact Hnode | rewrite Hdiag; reflexivity]]].
  vm_compute in H. injection H as <-. vm_compute in Hpl. injection Hpl as <-. reflexivity.
Defined.

(** C4 as stated fails on a directive line: inside a scratchpad section a
    directive is still read as one, it keeps its node, and an unknown one is
    an error. *)
Lemma C4_directive_in_notes_keeps_its_node :
  exists prog ri pl d,
    Analyzer.analyze Analyzer.sampleHost Analyzer.noOptions Samples.todoInNotes
    = Analyzer.Ok prog
    /\ nth_error (Analyzer.parseLinesToRaw (Js.splitLines Samples.todoInNotes)) 0 = Some ri
    /\ Props.isDirectiveNamed "scratchpad" ri = true
    /\ List.length (lines prog) = 2%nat
    /\ nth_error (lines prog) 1 = Some pl
    /\ raw pl = "- !todo call mom"
    /\ node pl = Some (DirectiveN d)
    /\ status pl = invalid
    /\ map code (diagnostics pl) = [ErrorCode.UNKNOWN_DIRECTIVE].
Proof.
  vm_compute. do 4 eexists. repeat split; reflexivity.
Qed.

(** The theorem of C5 on a task without a time under a comment and a
    directive. *)
Lemma C5_witness_unanchored :
  exists prog pl,
    Analyzer.analyze Analyzer.sampleHost Analyzer.noOptions Samples.unanchored
    = Analyzer.Ok prog
    /\ nth_error (lines prog) 2 = Some pl
    /\ Props.hasCode ErrorCode.MISSING_START_FIRST_LINE pl
    /\ status pl = invalid.
Proof.
  assert (F : exists prog rl parts pl,
             Analyzer.analyze Analyzer.sampleHost Analyzer.noOptions Samples.unanchored
             = Analyzer.Ok prog
             /\ nth_error (Analyzer.parseLinesToRaw (Js.splitLines Samples.unanchored)) 2
                = Some rl
             /\ task rl = Some parts /\ time parts = None
             /\ nth_error (lines prog) 2 = Some pl
             /\ Props.scheduledOf (firstn 2 (lines prog)) = []).
  { vm_compute. do 4 eexists. repeat split; reflexivity. }
  destruct F as (prog & rl & parts & pl & H & Hrl & Hp & Ht & Hk & Hnone).
  exists prog, pl. split; [exact H|]. split; [exact Hk|].
  exact (proj1 (C5_first_task_needs_a_start Analyzer.sampleHost Analyzer.noOptions
                  Samples.unanchored prog 2 rl parts pl H Hrl Hp Ht Hk) Hnone).
Defined.

(** C5 as stated fails on its last part: after a scratchpad directive the
    first line that is not blank, a comment or a directive is free text, and
    it gets no diagnostic though it has no time. *)
Lemma C5_first_line_in_notes_has_no_diagnostic :
  exists prog r0 r1 pl,
    Analyzer.analyze Analyzer.sampleHost Analyzer.noOptions Samples.bangScratchpad
    = Analyzer.Ok prog
    /\ nth_error (Analyzer.parseLinesToRaw (Js.splitLines Samples.bangScratchpad)) 0 = Some r0
    /\ Props.isInert r0 = true
    /\ nth_error (Analyzer.parseLinesToRaw (Js.splitLines Samples.bangScratchpad)) 1 = Some r1
    /\ Props.isInert r1 = false
    /\ ParserUtils.findTimeTokenInLine (r_raw r1) = None
    /\ nth_error (lines prog) 1 = Some pl
    /\ raw pl = "- call mom"
    /\ diagnostics pl = []
    /\ status pl = valid.
Proof.
  do 4 eexists. repeat (split; [vm_compute; reflexivity|]). vm_compute. reflexivity.
Qed.

(** The theorem of C10 on a task line with a bad duration: it is invalid,
    and it has its node. *)
Lemma C10_witness_invalid_task :
  exists prog pl t,
    Analyzer.analyze Analyzer.sampleHost Analyzer.noOptions Samples.chain = Analyzer.Ok prog
    /\ nth_error (lines prog) 1 = Some pl
    /\ node pl = Some (TaskN t)
    /\ title t <> EmptyString
    /\ status pl = invalid.
Proof.
  assert (F : exists prog rl parts,
             Analyzer.analyze Analyzer.sampleHost Analyzer.noOptions Samples.chain
             = Analyzer.Ok prog
             /\ nth_error (Analyzer.parseLinesToRaw (Js.splitLines Samples.chain)) 1 = Some rl
             /\ task rl = Some parts).
  { vm_compute. do 3 eexists. repeat split; reflexivity. }
  destruct F as (prog & rl & parts & H & Hrl & Hp).
  destruct (C10_task_line_keeps_its_node Analyzer.sampleHost Analyzer.noOptions Samples.chain
              prog 1 rl parts H Hrl Hp)
    as (_ & pl & t & Hk & Hn & Hne & _ & _ & Hinv).
  exists prog, pl, t. split; [exact H|]. split; [exact Hk|]. split; [exact Hn|].
  split; [exact Hne|]. apply Hinv.
  vm_compute in H. injection H as <-. vm_compute in Hk. injection Hk as <-. reflexivity.
Defined.



(** ** Round trips of the time texts *)

Lemma readsBack_table :
  forallb (fun h => forallb (fun m =>
     Terms.readsBack h m TimeUtils.clock12 && Terms.readsBack h m TimeUtils.clock24
     && Terms.readsBack h m TimeUtils.word) (Props.range 60)) (Props.range 24) = true.
Proof. vm_compute. reflexivity. Qed.

Lemma readsBack_all h m f :
  0 <= h < 24 -> 0 <= m < 60 -> Terms.readsBack h m f = true.
Proof.
  intros Hh Hm. pose proof readsBack_table as T.
  rewrite forallb_forall in T. specialize (T h (range_In 24 h ltac:(lia))).
  rewrite forallb_forall in T. specialize (T m (range_In 60 m ltac:(lia))).
  apply andb_true_iff in T as [T Tw]. apply andb_true_iff in T as [T12 T24].
  destruct f; assumption.
Qed.

Lemma formatTimeString_reads hours minutes format :
  0 <= hours < 24 -> 0 <= minutes < 60 ->
  TimeUtils.parseTimeString (TimeUtils.formatTimeString hours minutes format)
  = Some (TimeUtils.mkParsedTime hours minutes (Terms.styleRead hours minutes format)).
Proof.
  intros Hh Hm. pose proof (readsBack_all hours minutes format Hh Hm) as R.
  unfold Terms.readsBack in R.
  destruct (TimeUtils.parseTimeString _) as [[ph pm pf]|]; [|discriminate R].
  cbn [TimeUtils.p_hours TimeUtils.p_minutes TimeUtils.p_format] in R.
  apply andb_true_iff in R as [R Hf]. apply andb_true_iff in R as [Hph Hpm].
  apply Z.eqb_eq in Hph, Hpm. subst ph pm. f_equal. f_equal.
  destruct pf, (Terms.styleRead hours minutes format); try discriminate Hf; reflexivity.
Qed.

(** X1.  A time of day that [formatTimeString] renders, in any of the three
    styles, is read back by [parseTimeString] as the same hours and minutes;
    the style is kept, but for the word style away from noon and midnight,
    which is rendered and read in the 12-hour style. *)
Theorem formatTimeString_is_read_back hours minutes format :
  0 <= hours < 24 -> 0 <= minutes < 60 ->
  TimeUtils.parseTimeString (TimeUtils.formatTimeString hours minutes format)
  = Some (TimeUtils.mkParsedTime hours minutes (Terms.styleRead hours minutes format))
  /\ (format <> TimeUtils.word -> Terms.styleRead hours minutes format = format).
Proof.
  intros Hh Hm. split; [apply formatTimeString_reads; assumption|].
  intros Hf. destruct format; try reflexivity. contradiction Hf. reflexivity.
Qed.


Lemma insertionReads_table :
  forallb (fun h => forallb (fun m => Terms.insertionReads h m) (Props.range 60))
    (Props.range 24) = true.
Proof. vm_compute. reflexivity. Qed.

Lemma parseTime_lineNo timeStr lineNo lineNo' c :
  Analyzer.parseTime timeStr lineNo = inr c -> Analyzer.parseTime timeStr lineNo' = inr c.
Proof.
  unfold Analyzer.parseTime.
  destruct (String.eqb (Js.toLowerCase timeStr) "noon"); [auto|].
  destruct (String.eqb (Js.toLowerCase timeStr) "midnight"); [auto|].
  destruct (Analyzer.matchTimeStr timeStr) as [[[hh mm] ampm]|]; [auto | discriminate].
Qed.

(** X3.  The time text that a shift inserts for a task without a time of
    its own is one that the analyzer takes for a time part, and reads as the
    very hours and minutes of the date it was rendered from. *)
Theorem inserted_time_is_read_by_the_analyzer (t : Z) lineNo :
  Analyzer.isTimePart (TimeShift.formatTimeForInsertion (Some t)) = true
  /\ Analyzer.parseTime (TimeShift.formatTimeForInsertion (Some t)) lineNo
     = inr (Analyzer.mkClockTime ((t / 60) mod 24) (t mod 60)).
Proof.
  set (h := (t / 60) mod 24). set (m := t mod 60).
  assert (Hh : 0 <= h < 24) by (apply Z.mod_pos_bound; lia).
  assert (Hm : 0 <= m < 60) by (apply Z.mod_pos_bound; lia).
  assert (E : TimeShift.formatTimeForInsertion (Some t)
              = TimeShift.formatTimeForInsertion (Some (h * 60 + m))).
  { unfold TimeShift.formatTimeForInsertion. fold h. fold m.
    replace ((h * 60 + m) / 60) with h by (apply Z.div_unique with (r := m); lia).
    replace ((h * 60 + m) mod 60) with m by (apply Z.mod_unique with (q := h); lia).
    rewrite (Z.mod_small h 24) by lia. reflexivity. }
  rewrite E. pose proof insertionReads_table as T.
  rewrite forallb_forall in T. specialize (T h (range_In 24 h ltac:(lia))).
  rewrite forallb_forall in T. specialize (T m (range_In 60 m ltac:(lia))).
  unfold Terms.insertionReads in T. apply andb_true_iff in T as [Tp Tr].
  split; [exact Tp|].
  destruct (Analyzer.parseTime _ 1) as [e|[ch cm]] eqn:P; [discriminate Tr|].
  cbn [Analyzer.getHours Analyzer.getMinutes] in Tr.
  apply andb_true_iff in Tr as [Hch Hcm]. apply Z.eqb_eq in Hch, Hcm. subst ch cm.
  exact (parseTime_lineNo _ 1 lineNo _ P).
Qed.

(** The theorem of X1 at five past nine in the evening, in the word style. *)
Lemma read_back_witness_evening :
  TimeUtils.formatTimeString 21 5 TimeUtils.word = "9:05pm"
  /\ TimeUtils.parseTimeString "9:05pm"
     = Some (TimeUtils.mkParsedTime 21 5 TimeUtils.clock12).
Proof.
  split; [reflexivity|].
  exact (proj1 (formatTimeString_is_read_back 21 5 TimeUtils.word
                  ltac:(lia) ltac:(lia))).
Defined.


(** ** Time parts *)

Lemma lowerChar_digit c : Js.isDigit c = true -> Js.lowerChar c = c.
Proof.
  destruct c as [[] [] [] [] [] [] [] []]; vm_compute; intros H;
    try discriminate H; reflexivity.
Qed.

Lemma equalsI_toLower lit : forall s,
  Js.equalsI lit s = true -> Js.toLowerCase s = Js.toLowerCase lit.
Proof.
  unfold Js.equalsI.
  induction lit as [|a lit IH]; intros [|b s] H; cbn in *; try discriminate H.
  - reflexivity.
  - apply andb_true_iff in H as [H Hlen]. apply andb_true_iff in H as [Hab Hp].
    unfold Js.eqCharI in Hab. apply Ascii.eqb_eq in Hab. rewrite <- Hab. f_equal.
    apply IH. rewrite Hp. exact Hlen.
Qed.

Lemma toLower_equalsI lit : forall s,
  Js.toLowerCase s = Js.toLowerCase lit -> Js.equalsI lit s = true.
Proof.
  unfold Js.equalsI.
  induction lit as [|a lit IH]; intros [|b s] H; cbn in *; try discriminate H.
  - reflexivity.
  - inversion H as [[Hab Hr]]. unfold Js.eqCharI. rewrite Hab, Ascii.eqb_refl.
    specialize (IH s Hr). apply andb_true_iff in IH as [Hp Hlen]. rewrite Hp. exact Hlen.
Qed.

Lemma eqb_lower_word lit s :
  Js.toLowerCase lit = lit ->
  String.eqb (Js.toLowerCase s) lit = Js.equalsI lit s.
Proof.
  intros Hl. destruct (Js.equalsI lit s) eqn:E.
  - apply equalsI_toLower in E. rewrite E, Hl. apply String.eqb_refl.
  - destruct (String.eqb_spec (Js.toLowerCase s) lit) as [Heq|]; [|reflexivity].
    rewrite <- Hl in Heq. apply toLower_equalsI in Heq. congruence.
Qed.

(** A part that starts with a digit is no time word. *)
Lemma digits_not_word lit part hh r :
  TimeUtils.oneOrTwoDigits part = Some (hh, r) ->
  Js.toLowerCase lit = lit ->
  (match lit with String c _ => Js.isDigit c | EmptyString => true end) = false ->
  Js.equalsI lit part = false.
Proof.
  intros Hd Hl Hc. destruct (Js.equalsI lit part) eqn:E; [|reflexivity].
  apply equalsI_toLower in E. rewrite Hl in E.
  destruct part as [|a p]; [discriminate Hd|]. cbn in Hd.
  destruct (Js.isDigit a) eqn:Ea; [|discriminate Hd].
  cbn in E. rewrite (lowerChar_digit _ Ea) in E.
  destruct lit as [|c l]; [discriminate E|]. inversion E; subst. congruence.
Qed.

(** The pattern of [isTimePart] and the one of [parseTime] accept the same
    texts. *)
Lemma isTimePart_parseTime part lineNo :
  Analyzer.isTimePart part = true <-> exists c, Analyzer.parseTime part lineNo = inr c.
Proof.
  unfold Analyzer.isTimePart, Analyzer.parseTime, Analyzer.matchTimeStr.
  rewrite !eqb_lower_word by reflexivity.
  destruct (TimeUtils.oneOrTwoDigits part) as [[hh r1]|] eqn:Ed.
  - rewrite (digits_not_word "noon" _ _ _ Ed eq_refl eq_refl).
    rewrite (digits_not_word "midnight" _ _ _ Ed eq_refl eq_refl).
    destruct (TimeUtils.optMinutes r1) as [mm r2].
    destruct (Js.isEmpty r2); cbn [orb]; [split; eauto|].
    destruct (Js.equalsI "am" r2 || Js.equalsI "pm" r2); split; eauto;
      intros H; try discriminate H; destruct H as [c H]; discriminate H.
  - destruct (Js.equalsI "noon" part); cbn [orb]; [split; eauto|].
    destruct (Js.equalsI "midnight" part); split; eauto;
      intros H; try discriminate H; destruct H as [c H]; discriminate H.
Qed.

Section TimeParts.

Import Analyzer.

Variable host : Host.

Lemma classifyPart_time line lineNo acc part :
  Terms.timeIsPart (fst acc) -> Terms.timeIsPart (fst (classifyPart line lineNo acc part)).
Proof.
  destruct acc as [t ds]. unfold classifyPart, Terms.timeIsPart. cbn [fst]. intros H.
  destruct (Js.isEmpty (Js.trim part)); [exact H|].
  destruct (isTimePart (Js.trim part)) eqn:Et.
  { destruct (time t) eqn:E; cbn [fst time]; [rewrite E; exact H|].
    intros ts Hts. inversion Hts; subst. exact Et. }
  destruct (isDurationPart (Js.trim part)).
  { destruct (duration t); cbn [fst time]; exact H. }
  destruct (isCategoryPart (Js.trim part)).
  { destruct (parseCategory _ _); cbn [fst time]; exact H. }
  destruct (isLikelyBadCategory (Js.trim part)); [exact H|].
  destruct (isLikelyBadDuration (Js.trim part)); exact H.
Qed.

Lemma classifyParts_time line lineNo parts : forall acc,
  Terms.timeIsPart (fst acc) -> Terms.timeIsPart (fst (fold_left (classifyPart line lineNo) parts acc)).
Proof.
  induction parts as [|p parts IH]; intros acc H; cbn [fold_left]; [exact H|].
  apply IH, classifyPart_time, H.
Qed.

Lemma parseLineToRaw_time sec line lineNo parts :
  task (fst (parseLineToRaw sec line lineNo)) = Some parts -> Terms.timeIsPart parts.
Proof.
  intros H. apply parseLineToRaw_task in H. destruct H as (_ & _ & _ & _ & H).
  unfold parseLineContent in H.
  destruct (match matchDashLine line with
            | Some c => Some c
            | None => match matchBangLine line with
                      | Some c => Some ("!" ++ c)
                      | None => None
                      end
            end) as [content|]; [|discriminate H].
  destruct (if Js.startsWith content "!" then matchDirective content else None)
    as [[nm argsStr]|]; [discriminate H|].
  destruct (sectionMode_eqb sec scratchpad); [discriminate H|].
  unfold parseTaskParts in H.
  pose proof (classifyParts_time line lineNo (splitTaskParts content)
                (mkRawTaskParts None None [] [], [])) as T.
  destruct (fold_left _ _ _) as [t ds]. cbn [fst] in T.
  assert (Ht : Terms.timeIsPart t) by (apply T; intros ts Hts; discriminate Hts).
  destruct (Js.endsWith _ _); cbn [lc_task] in H; inversion H; subst; exact Ht.
Qed.

(** The diagnostics of a task line, piece by piece. *)
Lemma analyzeTask_diagnostics st rl parts ident pl st' :
  analyzeTask host st rl parts ident = Ok (pl, st') ->
  let pt := option_map (fun t => parseTime t (r_lineNo rl)) (time parts) in
  let pd := option_map (fun d => parseDuration d (r_lineNo rl)) (duration parts) in
  let pc := parseCategories (rt_categories parts) (r_lineNo rl) in
  exists t startD endD,
    node pl = Some (TaskN t)
    /\ explicitStart t = snd (fst (determineStart host st rl pt))
    /\ diagnostics pl
       = (((r_diagnostics rl ++ parseErrors pt pd (snd pc))
           ++ snd (determineStart host st rl pt))
          ++ overlapDiagnostics st rl startD endD)%list.
Proof.
  unfold analyzeTask. intros H. cbn zeta.
  destruct (determineStart host st rl _) as [[startD ex] missing].
  cbn [fst snd].
  destruct startD as [[s|]|]; cbn [endTimeOf] in H; try discriminate H.
  - match type of H with
    | context [timeClip host ?a] => destruct (timeClip host a) as [e|]
    end; try discriminate H.
    inversion H; subst; clear H. cbn [node lineWith diagnostics explicitStart].
    eexists _, (Some (Some s)), (Some (Some e)). split; [reflexivity|]. split; reflexivity.
  - inversion H; subst; clear H. cbn [node lineWith diagnostics explicitStart].
    eexists _, None, None. split; [reflexivity|]. split; reflexivity.
Qed.

Lemma rawCoded_not_bad_time ds :
  Props.rawCoded ds -> Forall (fun d => code d <> ErrorCode.BAD_TIME) ds.
Proof.
  intros H. eapply Forall_impl; [|exact H]. intros d Hd E. cbn in Hd. rewrite E in Hd.
  repeat (destruct Hd as [Hd|Hd]; [discriminate Hd|]). exact Hd.
Qed.

Lemma overlapDiagnostics_codes st rl startD endD :
  Forall (fun d => code d = ErrorCode.OVERLAP \/ code d = WarningCode.OVERLAP)
    (overlapDiagnostics st rl startD endD).
Proof.
  unfold overlapDiagnostics. destruct startD as [s|]; [|constructor].
  destruct endD as [e|]; [|constructor].
  destruct (overlapPolicy (st_context st)); try (constructor; fail);
    destruct (checkOverlap (tasks st) s e); constructor; cbn; auto.
Qed.

Lemma determineStart_codes st rl pt :
  Forall (fun d => code d = ErrorCode.MISSING_START_FIRST_LINE)
    (snd (determineStart host st rl pt)).
Proof.
  unfold determineStart. destruct pt as [[e|v]|]; cbn [snd]; try constructor;
    destruct (cursorTime st); cbn [snd]; repeat constructor.
Qed.

Lemma analyzeTask_no_bad_time st rl parts ident pl st' :
  analyzeTask host st rl parts ident = Ok (pl, st') ->
  Terms.timeIsPart parts -> Props.rawCoded (r_diagnostics rl) ->
  Forall (fun d => code d <> ErrorCode.BAD_TIME) (diagnostics pl)
  /\ exists t, node pl = Some (TaskN t)
               /\ (explicitStart t = true <-> time parts <> None).
Proof.
  intros H Ht Hraw. apply analyzeTask_diagnostics in H. cbn zeta in H.
  destruct H as (t & startD & endD & Hn & Hex & Hd).
  assert (Hpt : option_map (fun ts => parseTime ts (r_lineNo rl)) (time parts) = None
                \/ exists v, option_map (fun ts => parseTime ts (r_lineNo rl)) (time parts)
                             = Some (inr v)).
  { destruct (time parts) as [ts|] eqn:E; [right|left; reflexivity].
    destruct (proj1 (isTimePart_parseTime ts (r_lineNo rl)) (Ht ts E)) as [v Hv].
    exists v. cbn. rewrite Hv. reflexivity. }
  split.
  - rewrite Hd.
    apply Forall_app; split; [apply Forall_app; split; [apply Forall_app; split|]|].
    + apply rawCoded_not_bad_time, Hraw.
    + unfold parseErrors.
      assert (Hdur : Forall (fun d => code d <> ErrorCode.BAD_TIME)
                       match option_map (fun d => parseDuration d (r_lineNo rl))
                               (duration parts) with
                       | Some (inl e) => [e]
                       | _ => []
                       end).
      { destruct (duration parts) as [ds|]; cbn [option_map]; [|constructor].
        destruct (parseDuration ds (r_lineNo rl)) as [e|z] eqn:Ed; [|constructor].
        constructor; [|constructor]. rewrite (parseDuration_error _ _ _ Ed). discriminate. }
      assert (Hcat : Forall (fun d => code d <> ErrorCode.BAD_TIME)
                       (snd (parseCategories (rt_categories parts) (r_lineNo rl)))).
      { eapply Forall_impl; [|apply parseCategories_errors]. intros d ->. discriminate. }
      destruct Hpt as [-> | [v ->]]; cbn [app];
        apply Forall_app; split; assumption.
    + eapply Forall_impl; [|apply determineStart_codes]. intros d ->. discriminate.
    + eapply Forall_impl; [|apply overlapDiagnostics_codes]. intros d [-> | ->]; discriminate.
  - exists t. split; [exact Hn|]. rewrite Hex. unfold determineStart.
    destruct Hpt as [E | [v E]]; rewrite E.
    + destruct (time parts); [discriminate E|].
      destruct (cursorTime st); cbn; split; intros; [discriminate | contradiction
                                                   | discriminate | contradiction].
    + destruct (time parts); [|discriminate E]. cbn. split; [discriminate | reflexivity].
Qed.

(** X4.  The pattern by which a part of a task line is taken for its time
    and the pattern by which [parseTime] reads it accept the same texts, so
    the time of a task line always parses: no line of an analysed document
    carries the diagnostic [E001-bad-time], and a task has an explicit start
    exactly when its line has a time part. *)
Theorem bad_time_is_never_reported :
  (forall part lineNo,
      isTimePart part = true <-> exists c, parseTime part lineNo = inr c)
  /\ (forall options source prog k pl,
        analyze host options source = Ok prog ->
        nth_error (lines prog) k = Some pl ->
        ~ In ErrorCode.BAD_TIME (map code (diagnostics pl))
        /\ forall t, node pl = Some (TaskN t) ->
             exists rl parts,
               nth_error (parseLinesToRaw (Js.splitLines source)) k = Some rl
               /\ task rl = Some parts
               /\ (explicitStart t = true <-> time parts <> None)).
Proof.
  split; [exact isTimePart_parseTime|].
  intros options source prog k pl H Hk.
  destruct (analyze_line host _ _ _ _ _ H Hk) as (rl & st & st' & Hrl & _ & _ & Hline & _).
  destruct (parseLinesToRaw_nth _ _ _ Hrl) as (line & Hl & Hraw).
  assert (Hcodes : Props.rawCoded (r_diagnostics rl))
    by (rewrite Hraw; apply parseLineToRaw_codes).
  assert (Hnot : forall ds, Forall (fun d => code d <> ErrorCode.BAD_TIME) ds ->
                            ~ In ErrorCode.BAD_TIME (map code ds)).
  { intros ds F Hin. apply in_map_iff in Hin. destruct Hin as (d & Hd & Hin).
    rewrite Forall_forall in F. exact (F d Hin Hd). }
  apply analyzeLine_cases in Hline.
  destruct Hline as [(Hn & _ & _ & Hdg & _) | [(d & _ & Hd & Hpl) | (parts & _ & _ & Hp & Htask)]].
  - split; [|intros t Ht; congruence].
    apply Hnot. rewrite Hdg. apply rawCoded_not_bad_time, Hcodes.
  - unfold analyzeDirective in Hpl.
    destruct (applyDirective st d) as [msg|st1]; inversion Hpl; subst; clear Hpl;
      cbn [diagnostics lineWith node]; (split; [|intros t Ht; discriminate Ht]); apply Hnot.
    + apply Forall_app. split; [apply rawCoded_not_bad_time, Hcodes|].
      constructor; [discriminate | constructor].
    + apply rawCoded_not_bad_time, Hcodes.
  - assert (Htp : Terms.timeIsPart parts).
    { rewrite Hraw in Hp. exact (parseLineToRaw_time _ _ _ _ Hp). }
    destruct (analyzeTask_no_bad_time _ _ _ _ _ _ Htask Htp Hcodes) as (F & t & Hn & Hex).
    split; [apply Hnot, F|]. intros t' Ht'. rewrite Hn in Ht'. inversion Ht'; subst t'.
    exists rl, parts. auto.
Qed.

End TimeParts.

(** The theorem of X4 on a chain of three tasks: the first has a time part
    and an explicit start, and no bad time is reported. *)
Lemma bad_time_witness_chain :
  exists prog pl t,
    Analyzer.analyze Analyzer.sampleHost Analyzer.noOptions Samples.chain = Analyzer.Ok prog
    /\ nth_error (lines prog) 0 = Some pl
    /\ node pl = Some (TaskN t)
    /\ ~ In ErrorCode.BAD_TIME (map code (diagnostics pl))
    /\ explicitStart t = true.
Proof.
  assert (F : exists prog pl t,
             Analyzer.analyze Analyzer.sampleHost Analyzer.noOptions Samples.chain
             = Analyzer.Ok prog
             /\ nth_error (lines prog) 0 = Some pl /\ node pl = Some (TaskN t)).
  { vm_compute. do 3 eexists. repeat split; reflexivity. }
  destruct F as (prog & pl & t & H & Hk & Hn).
  destruct (proj2 (bad_time_is_never_reported Analyzer.sampleHost) Analyzer.noOptions
              Samples.chain prog 0%nat pl H Hk) as (Hno & Hex).
  destruct (Hex t Hn) as (rl & parts & Hrl & Hp & Hiff).
  exists prog, pl, t. split; [exact H|]. split; [exact Hk|]. split; [exact Hn|].
  split; [exact Hno|]. apply Hiff.
  vm_compute in Hrl. injection Hrl as <-. vm_compute in Hp. injection Hp as <-. discriminate.
Defined.

(** ** The parsers of parser-utils.ts and those of the analyzer *)

Lemma clockOf_in_range h m :
  0 <= h < 24 -> 0 <= m < 60 -> Analyzer.clockOf h m = Analyzer.mkClockTime h m.
Proof.
  intros Hh Hm. unfold Analyzer.clockOf. f_equal.
  - replace ((h * 60 + m) / 60) with h by (apply Z.div_unique with (r := m); lia).
    apply Z.mod_small. lia.
  - symmetry. apply Z.mod_unique with (q := h); lia.
Qed.

(** X5.  A time that [parseTimeString] of parser-utils.ts accepts is a time
    of day, hours from 0 to 23 and minutes from 0 to 59, and the analyzer
    reads the same text as the same hours and minutes.  The analyzer accepts
    more: it has no range check, and ["13pm"] is one o'clock for it. *)
Theorem parseTimeString_agrees_with_the_analyzer :
  (forall timeStr lineNo r,
      ParserUtilsRest.parseTimeString timeStr = Some r ->
      0 <= ParserUtilsRest.hm_hours r <= 23
      /\ 0 <= ParserUtilsRest.hm_minutes r <= 59
      /\ Analyzer.parseTime timeStr lineNo
         = inr (Analyzer.mkClockTime (ParserUtilsRest.hm_hours r)
                  (ParserUtilsRest.hm_minutes r)))
  /\ ParserUtilsRest.parseTimeString "13pm" = None
  /\ Analyzer.parseTime "13pm" 1 = inr (Analyzer.mkClockTime 1 0).
Proof.
  split; [|split; reflexivity].
  intros timeStr lineNo r. unfold ParserUtilsRest.parseTimeString, Analyzer.parseTime.
  destruct (String.eqb (Js.toLowerCase timeStr) "noon").
  { intros H. inversion H; subst. cbn. repeat split; lia. }
  destruct (String.eqb (Js.toLowerCase timeStr) "midnight").
  { intros H. inversion H; subst. cbn. repeat split; lia. }
  destruct (Analyzer.matchTimeStr timeStr) as [[[hh mm] ampm]|]; [|discriminate].
  set (hours := Js.parseInt hh). set (minutes := TimeUtils.parseIntOr0 mm).
  destruct (hours <? 0) eqn:E1; [discriminate|].
  destruct (23 <? hours) eqn:E2; [discriminate|].
  destruct (minutes <? 0) eqn:E3; [discriminate|].
  destruct (59 <? minutes) eqn:E4; [discriminate|]. cbn [orb].
  apply Z.ltb_ge in E1, E2, E3, E4.
  destruct ampm as [a|]; cbn [option_map andb].
  - destruct (hours <? 1) eqn:E5; [discriminate|].
    destruct (12 <? hours) eqn:E6; [discriminate|]. cbn [orb].
    apply Z.ltb_ge in E5, E6.
    destruct (String.eqb (Js.toLowerCase a) "pm"); cbn [andb].
    + destruct (hours =? 12) eqn:E7; cbn [negb].
      * destruct (String.eqb (Js.toLowerCase a) "am"); cbn [andb];
          intros H; inversion H; subst r; cbn [ParserUtilsRest.hm_hours
                                                ParserUtilsRest.hm_minutes];
          rewrite clockOf_in_range by lia; repeat split; lia.
      * intros H; inversion H; subst r. cbn [ParserUtilsRest.hm_hours
                                              ParserUtilsRest.hm_minutes].
        rewrite clockOf_in_range by lia. repeat split; lia.
    + destruct (String.eqb (Js.toLowerCase a) "am" && (hours =? 12));
        intros H; inversion H; subst r; cbn [ParserUtilsRest.hm_hours
                                              ParserUtilsRest.hm_minutes];
        rewrite clockOf_in_range by lia; repeat split; lia.
  - intros H; inversion H; subst r. cbn [ParserUtilsRest.hm_hours
                                          ParserUtilsRest.hm_minutes].
    rewrite clockOf_in_range by lia. repeat split; lia.
Qed.

Lemma digit_not_space c : Js.isDigit c = true -> Js.isSpace c = false.
Proof.
  destruct c as [[] [] [] [] [] [] [] []]; vm_compute; intros H;
    try discriminate H; reflexivity.
Qed.

Lemma matchDurationStr_digit s h m :
  Analyzer.matchDurationStr s = Some (h, m) ->
  s = EmptyString \/ exists c r, s = String c r /\ Js.isDigit c = true.
Proof.
  destruct s as [|c r]; [auto|]. intros H. right. exists c, r. split; [reflexivity|].
  destruct (Js.isDigit c) eqn:E; [reflexivity|]. exfalso.
  unfold Analyzer.matchDurationStr, TimeUtils.optCount, Js.spanDigits in H.
  cbn in H. rewrite E in H. cbn in H. rewrite E in H. cbn in H. discriminate H.
Qed.

Lemma matchDurationStr_nonneg s h m :
  Analyzer.matchDurationStr s = Some (h, m) ->
  0 <= TimeUtils.parseIntOr0 h /\ 0 <= TimeUtils.parseIntOr0 m.
Proof.
  unfold Analyzer.matchDurationStr.
  destruct (TimeUtils.optCount "h" s) as [h' r1] eqn:E1.
  destruct (TimeUtils.optCount "m" r1) as [m' r2] eqn:E2.
  destruct (Js.isEmpty r2); [|discriminate]. intros H. inversion H; subst h' m'.
  split.
  - destruct h as [ds|]; cbn; [|lia].
    apply optCount_some in E1. apply isCount_nonneg, E1.
  - destruct m as [ds|]; cbn; [|lia].
    apply optCount_some in E2. apply isCount_nonneg, E2.
Qed.

(** X6.  [parseDurationString] of parser-utils.ts accepts a text exactly
    when the analyzer's [parseDuration] accepts it with a duration that is
    not zero, and gives the same number of minutes; the empty text and
    ["0m"], which the analyzer reads as zero minutes, it refuses. *)
Theorem parseDurationString_agrees_with_the_analyzer :
  (forall text lineNo minutes,
      ParserUtilsRest.parseDurationString text = Some minutes
      <-> Analyzer.parseDuration text lineNo = inr minutes /\ minutes <> 0)
  /\ (forall text minutes,
        ParserUtilsRest.parseDurationString text = Some minutes -> 0 < minutes)
  /\ Analyzer.parseDuration "" 1 = inr 0
  /\ Analyzer.parseDuration "0m" 1 = inr 0.
Proof.
  assert (Hiff : forall text lineNo minutes,
             ParserUtilsRest.parseDurationString text = Some minutes
             <-> Analyzer.parseDuration text lineNo = inr minutes /\ minutes <> 0).
  { intros text lineNo minutes.
    unfold ParserUtilsRest.parseDurationString, Analyzer.parseDuration.
    destruct (Analyzer.matchDurationStr text) as [[h m]|] eqn:Em.
    - destruct (matchDurationStr_nonneg _ _ _ Em) as [Hh Hm].
      destruct (matchDurationStr_digit _ _ _ Em) as [-> | (c & r & -> & Hc)].
      + cbn in Em. inversion Em; subst. cbn. split; [discriminate|].
        intros [H Hne]. inversion H. congruence.
      + assert (Hblank : Js.isEmpty (String c r) || Js.isEmpty (Js.trim (String c r)) = false).
        { cbn [Js.isEmpty orb]. apply isEmpty_false. unfold Js.trim, Js.trimStart.
          cbn [Js.dropWhile]. rewrite (digit_not_space _ Hc).
          apply trimEnd_nonempty, digit_not_space, Hc. }
        rewrite Hblank.
        destruct ((TimeUtils.parseIntOr0 h =? 0) && (TimeUtils.parseIntOr0 m =? 0)) eqn:Ez.
        * apply andb_true_iff in Ez as [Zh Zm]. apply Z.eqb_eq in Zh, Zm.
          split; [discriminate|]. intros [H Hne]. inversion H. lia.
        * split.
          -- intros H. inversion H; subst. split; [reflexivity|].
             apply andb_false_iff in Ez as [Z|Z]; apply Z.eqb_neq in Z; lia.
          -- intros [H _]. inversion H. reflexivity.
    - destruct (_ || _); split; try discriminate; intros [H _]; discriminate H. }
  split; [exact Hiff|]. split; [|split; reflexivity].
  intros text minutes H. apply (Hiff text 1) in H. destruct H as [H Hne].
  unfold Analyzer.parseDuration in H.
  destruct (Analyzer.matchDurationStr text) as [[h m]|] eqn:Em; [|discriminate H].
  inversion H. destruct (matchDurationStr_nonneg _ _ _ Em). lia.
Qed.
(** ** The tokens of a line *)

Lemma takeWhile_length p s : (String.length (Js.takeWhile p s) <= String.length s)%nat.
Proof. induction s as [|c r IH]; cbn; [lia|]. destruct (p c); cbn; lia. Qed.

Lemma drop_length n : forall s, String.length (Js.drop n s) = (String.length s - n)%nat.
Proof.
  induction n as [|n IH]; intros s; [destruct s; cbn; lia|].
  destruct s as [|c r]; cbn; [reflexivity | apply IH].
Qed.

Lemma take_drop n : forall s, Js.take n s ++ Js.drop n s = s.
Proof.
  induction n as [|n IH]; intros s; [destruct s; reflexivity|].
  destruct s as [|c r]; cbn; [reflexivity|]. rewrite IH. reflexivity.
Qed.

Lemma take_length n : forall s,
  (n <= String.length s)%nat -> String.length (Js.take n s) = n.
Proof.
  induction n as [|n IH]; intros s H; [destruct s; reflexivity|].
  destruct s as [|c r]; cbn in *; [lia|]. rewrite IH by lia. reflexivity.
Qed.

Lemma append_length a b :
  String.length (a ++ b) = (String.length a + String.length b)%nat.
Proof. induction a as [|c a IH]; cbn; [reflexivity|]. rewrite IH. reflexivity. Qed.

Lemma prefix_length lit : forall s,
  String.prefix lit s = true -> (String.length lit <= String.length s)%nat.
Proof.
  induction lit as [|a l IH]; intros s H; cbn; [lia|].
  destruct s as [|b r]; cbn in H; [discriminate|].
  destruct (ascii_dec a b); [|discriminate]. specialize (IH r H). cbn. lia.
Qed.

Lemma prefixI_length lit : forall s,
  Js.prefixI lit s = true -> (String.length lit <= String.length s)%nat.
Proof.
  induction lit as [|a l IH]; intros s H; cbn; [lia|].
  destruct s as [|b r]; cbn in H; [discriminate|].
  apply andb_true_iff in H as [_ H]. specialize (IH r H). cbn. lia.
Qed.

Lemma nonEmptyRun_bounds p s n :
  Lexer.nonEmptyRun p s = Some n -> (1 <= n <= String.length s)%nat.
Proof.
  unfold Lexer.nonEmptyRun, Lexer.runLength. pose proof (takeWhile_length p s).
  destruct (String.length (Js.takeWhile p s)); [discriminate|].
  intros E. inversion E. lia.
Qed.

Lemma literal_bounds lit s n :
  lit <> EmptyString -> Lexer.literal lit s = Some n -> (1 <= n <= String.length s)%nat.
Proof.
  unfold Lexer.literal. intros Hl. destruct (String.prefix lit s) eqn:E; [|discriminate].
  intros H. inversion H. apply prefix_length in E. destruct lit; [contradiction|]. cbn in *. lia.
Qed.

Lemma literalI_bounds lit s n :
  lit <> EmptyString -> Lexer.literalI lit s = Some n -> (1 <= n <= String.length s)%nat.
Proof.
  unfold Lexer.literalI. intros Hl. destruct (Js.prefixI lit s) eqn:E; [|discriminate].
  intros H. inversion H. apply prefixI_length in E. destruct lit; [contradiction|]. cbn in *. lia.
Qed.

Lemma optDurationMinutesLength_le s :
  (Lexer.optDurationMinutesLength s <= String.length s)%nat.
Proof.
  unfold Lexer.optDurationMinutesLength.
  destruct s as [|a [|b [|c r]]]; cbn; try lia;
    repeat match goal with |- context [if ?x then _ else _] => destruct x end; lia.
Qed.

Lemma optAmPmLength_le s : (Lexer.optAmPmLength s <= String.length s)%nat.
Proof.
  unfold Lexer.optAmPmLength.
  destruct (Js.prefixI "am" s) eqn:A; cbn [orb].
  - apply prefixI_length in A. cbn in A. lia.
  - destruct (Js.prefixI "pm" s) eqn:P; [|lia]. apply prefixI_length in P. cbn in P. lia.
Qed.

Lemma optColonMinutesLength_le s :
  (Lexer.optColonMinutesLength s <= String.length s)%nat.
Proof.
  unfold Lexer.optColonMinutesLength. destruct s as [|c r]; [cbn; lia|].
  destruct (Ascii.eqb c ":"); [|lia].
  destruct (TimeUtils.twoDigits r) as [[mm r']|] eqn:E; [|lia].
  unfold TimeUtils.twoDigits in E. destruct r as [|a [|b r'']]; try discriminate E.
  cbn. lia.
Qed.

Lemma oneOrTwoDigits_split s hh r :
  TimeUtils.oneOrTwoDigits s = Some (hh, r) ->
  s = hh ++ r /\ (1 <= String.length hh)%nat.
Proof.
  unfold TimeUtils.oneOrTwoDigits. destruct s as [|a s']; [discriminate|].
  destruct (Js.isDigit a); [|discriminate].
  destruct s' as [|b s'']; [intros H; inversion H; cbn; auto|].
  destruct (Js.isDigit b); intros H; inversion H; cbn; auto.
Qed.

Lemma matchPattern_bounds ty s n :
  Lexer.matchPattern ty s = Some n -> (1 <= n <= String.length s)%nat.
Proof.
  destruct ty; cbn [Lexer.matchPattern];
    try (apply nonEmptyRun_bounds); try (apply literal_bounds; discriminate).
  - destruct s as [|a r]; [discriminate|].
    destruct (Js.codeOf a =? 10); [intros [= <-]; cbn [String.length]; lia|].
    destruct r as [|b r']; [discriminate|].
    destruct (_ && _); [|discriminate]. intros [= <-]; cbn [String.length]; lia.
  - destruct s as [|c r]; [discriminate|]. destruct (Ascii.eqb c "#"); [|discriminate].
    intros [= <-]. unfold Lexer.runLength.
    pose proof (takeWhile_length Lexer.notLineBreak r). cbn [String.length]. lia.
  - destruct (String.prefix "//" s) eqn:E; [|discriminate].
    apply prefix_length in E. destruct s as [|a [|b r]]; cbn [String.length] in E; try lia.
    intros [= <-]. unfold Lexer.runLength. cbn [Js.drop String.length].
    pose proof (takeWhile_length Lexer.notLineBreak r) as Hl. lia.
  - destruct (Lexer.literalI "noon" s) as [k|] eqn:E.
    + intros [= <-]. apply (literalI_bounds "noon"); [discriminate | exact E].
    + apply literalI_bounds. discriminate.
  - unfold Lexer.matchDuration, Lexer.runLength.
    pose proof (takeWhile_length Js.isDigit s) as Hn.
    destruct (String.length (Js.takeWhile Js.isDigit s)) as [|k'] eqn:Ek; [discriminate|].
    pose proof (drop_length (S k') s) as Hd.
    destruct (Js.drop (S k') s) as [|c r]; [discriminate|]. cbn [String.length] in Hd.
    pose proof (optDurationMinutesLength_le r) as Ho.
    destruct (Ascii.eqb c "h"); [intros [= <-]; lia|].
    destruct (Ascii.eqb c "m"); [intros [= <-]; lia | discriminate].
  - unfold Lexer.matchTimeClock.
    destruct (TimeUtils.oneOrTwoDigits s) as [[hh r1]|] eqn:E; [|discriminate].
    apply oneOrTwoDigits_split in E. destruct E as [-> Hh].
    intros [= <-]. rewrite append_length.
    pose proof (optColonMinutesLength_le r1) as Hc.
    pose proof (optAmPmLength_le (Js.drop (Lexer.optColonMinutesLength r1) r1)) as Ha.
    rewrite drop_length in Ha. lia.
Qed.

Lemma firstMatch_bounds tys s ty n :
  Lexer.firstMatch tys s = Some (ty, n) -> (1 <= n <= String.length s)%nat.
Proof.
  induction tys as [|t tys IH]; cbn [Lexer.firstMatch]; [discriminate|].
  destruct (Lexer.matchPattern t s) as [k|] eqn:E; [|exact IH].
  apply matchPattern_bounds in E.
  destruct (Lexer.longer_alt t) as [alt|]; [|intros H; inversion H; subst; exact E].
  destruct (Lexer.matchPattern alt s) as [m|] eqn:Ea; [|intros H; inversion H; subst; exact E].
  apply matchPattern_bounds in Ea.
  destruct (k <? m)%nat; intros H; inversion H; subst; assumption.
Qed.

(** Every token of [lexFrom] is a piece of the text, at its offsets. *)
Lemma lexFrom_tokens lineNo s : forall skip offset tok,
  In tok (Lexer.lexFrom lineNo skip offset s) ->
  exists k n,
    (skip <= k)%nat /\ (1 <= n)%nat /\ (k + n <= String.length s)%nat
    /\ Lexer.startOffset tok = offset + Z.of_nat k
    /\ Lexer.endOffset tok = offset + Z.of_nat k + Z.of_nat n - 1
    /\ Lexer.image tok = Js.take n (Js.drop k s).
Proof.
  induction s as [|c r IH]; intros skip offset tok Hin; [contradiction|].
  cbn [Lexer.lexFrom] in Hin.
  assert (Hrest : forall j, In tok (Lexer.lexFrom lineNo j (offset + 1) r) ->
            exists k n,
              (S j <= k)%nat /\ (1 <= n)%nat /\ (k + n <= String.length (String c r))%nat
              /\ Lexer.startOffset tok = offset + Z.of_nat k
              /\ Lexer.endOffset tok = offset + Z.of_nat k + Z.of_nat n - 1
              /\ Lexer.image tok = Js.take n (Js.drop k (String c r))).
  { intros j Hj. destruct (IH _ _ _ Hj) as (k & n & Hk & Hn & Hl & Hs & He & Hi).
    exists (S k), n. cbn [String.length Js.drop]. repeat split; try lia. exact Hi. }
  destruct skip as [|j].
  - destruct (Lexer.firstMatch Lexer.allTokens (String c r)) as [[ty n]|] eqn:E.
    + pose proof (firstMatch_bounds _ _ _ _ E) as Hb.
      assert (Hlater : In tok (Lexer.lexFrom lineNo (n - 1) (offset + 1) r) ->
                exists k n0,
                  (0 <= k)%nat /\ (1 <= n0)%nat /\ (k + n0 <= String.length (String c r))%nat
                  /\ Lexer.startOffset tok = offset + Z.of_nat k
                  /\ Lexer.endOffset tok = offset + Z.of_nat k + Z.of_nat n0 - 1
                  /\ Lexer.image tok = Js.take n0 (Js.drop k (String c r))).
      { intros Hj. destruct (Hrest _ Hj) as (k & n0 & Hk & Hrem). exists k, n0.
        split; [lia | exact Hrem]. }
      destruct (Lexer.tokenType_eqb ty Lexer.WhiteSpace); [exact (Hlater Hin)|].
      destruct Hin as [<- | Hin]; [|exact (Hlater Hin)].
      exists O, n. cbn [Lexer.startOffset Lexer.endOffset Lexer.image Js.drop].
      repeat split; try lia.
    + destruct (Hrest _ Hin) as (k & n & Hk & Hrem). exists k, n. split; [lia | exact Hrem].
  - exact (Hrest _ Hin).
Qed.

Lemma firstTimeToken_in tokens tt :
  ParserUtils.firstTimeToken tokens = Some tt ->
  exists tok,
    In tok tokens
    /\ ParserUtils.timeStr tt = Lexer.image tok
    /\ ParserUtils.tt_start tt = Lexer.startOffset tok
    /\ ParserUtils.tt_end tt = Lexer.endOffset tok + 1.
Proof.
  induction tokens as [|tok tokens IH]; cbn [ParserUtils.firstTimeToken]; [discriminate|].
  intros H.
  assert (Hlater : ParserUtils.firstTimeToken tokens = Some tt ->
            exists tok0, In tok0 (tok :: tokens)
              /\ ParserUtils.timeStr tt = Lexer.image tok0
              /\ ParserUtils.tt_start tt = Lexer.startOffset tok0
              /\ ParserUtils.tt_end tt = Lexer.endOffset tok0 + 1).
  { intros H'. destruct (IH H') as (tok0 & Hin & Hrem). exists tok0. split; [right; exact Hin|].
    exact Hrem. }
  destruct (Lexer.tokenType tok); try exact (Hlater H);
    inversion H; subst; exists tok; cbn; auto using in_eq.
Qed.

(** The time token of a line, in the text that was tokenized. *)
Lemma findTimeToken_placed line tok :
  Js.forallb Props.notNewline line = true ->
  ParserUtils.findTimeTokenInLine line = Some tok ->
  exists k n,
    (1 <= n)%nat
    /\ (k + n <= String.length (Lexer.processedLine (Lexer.preprocessLine line 1)))%nat
    /\ ParserUtils.tt_start tok = Z.of_nat k
    /\ ParserUtils.tt_end tok = Z.of_nat (k + n)
    /\ ParserUtils.timeStr tok
       = Js.take n (Js.drop k (Lexer.processedLine (Lexer.preprocessLine line 1))).
Proof.
  intros Hnl Hf.
  unfold ParserUtils.findTimeTokenInLine, Lexer.tokenize, Lexer.tokenizeLines in Hf.
  rewrite (splitLines_single _ Hnl) in Hf.
  cbn [Lexer.tokenizeLinesFrom Lexer.tokens] in Hf. rewrite app_nil_r in Hf.
  destruct (firstTimeToken_in _ _ Hf) as (t & Hin & Hs & Hstart & Hend).
  destruct (lexFrom_tokens _ _ _ _ _ Hin) as (k & n & _ & Hn & Hl & Hso & Heo & Hi).
  exists k, n. rewrite Hs, Hstart, Hend, Hso, Heo, Hi. repeat split; try lia.
Qed.

Lemma preprocessLine_cases line lineNo :
  (Lexer.pp_hasSpaceAfterDash (Lexer.preprocessLine line lineNo) = true
   /\ Lexer.processedLine (Lexer.preprocessLine line lineNo) = line
   /\ Lexer.pp_diagnostics (Lexer.preprocessLine line lineNo) = [])
  \/ (Lexer.pp_hasSpaceAfterDash (Lexer.preprocessLine line lineNo) = false
      /\ (exists dashPart,
             Lexer.matchDashPart line = Some dashPart
             /\ Lexer.processedLine (Lexer.preprocessLine line lineNo)
                = dashPart ++ " " ++ Js.drop (String.length dashPart) line)
      /\ map code (Lexer.pp_diagnostics (Lexer.preprocessLine line lineNo))
         = [WarningCode.MISSING_SPACE_AFTER_DASH]).
Proof.
  unfold Lexer.preprocessLine. destruct (Lexer.matchDashPart line) as [dashPart|].
  - destruct (_ && _); cbn; [right | left]; eauto.
  - left. cbn. auto.
Qed.

Lemma takeWhile_app_end p gap rest :
  Js.forallb p gap = true ->
  match rest with String c _ => p c = false | EmptyString => True end ->
  Js.takeWhile p (gap ++ rest) = gap.
Proof.
  intros Hg Hr. destruct rest as [|c r].
  - rewrite append_nil_r. apply takeWhile_all, Hg.
  - apply takeWhile_app_stop; assumption.
Qed.

(** The dash part of a line that is white space, a dash, white space, and a
    rest that does not start with white space. *)
Lemma matchDashPart_parts indent gap rest :
  Js.forallb Js.isSpace indent = true -> Js.forallb Js.isSpace gap = true ->
  Lexer.startsWithSpace rest = false ->
  Lexer.matchDashPart (indent ++ "-" ++ gap ++ rest) = Some (indent ++ "-" ++ gap)
  /\ Js.drop (String.length (indent ++ "-" ++ gap)) (indent ++ "-" ++ gap ++ rest) = rest
  /\ Lexer.dashThenSpace (indent ++ "-" ++ gap)
     = Js.isEmpty indent && negb (Js.isEmpty gap).
Proof.
  intros Hi Hg Hr.
  assert (Hrest : match rest with String c _ => Js.isSpace c = false | EmptyString => True end).
  { destruct rest; [exact I | exact Hr]. }
  split; [|split].
  - unfold Lexer.matchDashPart. cbn [append].
    rewrite dropWhile_app_stop, takeWhile_app_stop by (assumption || reflexivity).
    cbn [Ascii.eqb Bool.eqb]. rewrite (takeWhile_app_end _ _ _ Hg Hrest). reflexivity.
  - replace (indent ++ "-" ++ gap ++ rest) with ((indent ++ "-" ++ gap) ++ rest).
    + apply drop_app.
    + rewrite !append_assoc. cbn [append]. reflexivity.
  - destruct indent as [|i indent].
    + cbn. destruct gap as [|g gap]; [reflexivity|]. cbn in Hg.
      apply andb_true_iff in Hg as [-> _]. reflexivity.
    + cbn in Hi. apply andb_true_iff in Hi as [Hi _]. cbn.
      destruct (Ascii.eqb i "-") eqn:E; [|destruct (indent ++ _); reflexivity].
      apply Ascii.eqb_eq in E. subst i. discriminate Hi.
Qed.

(** The text that is tokenized for a line.  A line that does not start,
    after white space, with a dash is tokenized as it is.  A line that is
    white space, a dash, white space and a rest is tokenized as it is when
    the rest is empty, and when the dash is the first character of the line
    and white space follows it; in every other case, of which an indented
    dash is one, a space is put in before the rest. *)
Lemma processedLine_text line lineNo :
  (forall indent gap rest,
      Js.forallb Js.isSpace indent = true -> Js.forallb Js.isSpace gap = true ->
      Lexer.startsWithSpace rest = false ->
      line = indent ++ "-" ++ gap ++ rest ->
      Lexer.processedLine (Lexer.preprocessLine line lineNo)
      = if Js.isEmpty rest || (Js.isEmpty indent && negb (Js.isEmpty gap)) then line
        else indent ++ "-" ++ gap ++ " " ++ rest)
  /\ (Js.startsWith (Js.trimStart line) "-" = false ->
      Lexer.processedLine (Lexer.preprocessLine line lineNo) = line).
Proof.
  split.
  - intros indent gap rest Hi Hg Hr ->.
    destruct (matchDashPart_parts indent gap rest Hi Hg Hr) as (Hd & Hdrop & Hdts).
    unfold Lexer.preprocessLine. rewrite Hd. cbv zeta. rewrite Hdrop, Hdts, Hr.
    cbn [negb]. rewrite andb_true_r.
    destruct rest as [|c r].
    + cbn [Js.len String.length Z.of_nat Z.ltb Z.compare Js.isEmpty orb].
      rewrite andb_false_r. reflexivity.
    + assert (L : (0 <? Js.len (String c r)) = true).
      { apply Z.ltb_lt. unfold Js.len. cbn [String.length]. lia. }
      rewrite L, andb_true_r. cbn [Js.isEmpty orb].
      destruct (Js.isEmpty indent && negb (Js.isEmpty gap)); cbn [negb Lexer.processedLine];
        [reflexivity|].
      rewrite !append_assoc. cbn [append]. reflexivity.
  - intros Hn. unfold Lexer.preprocessLine, Lexer.matchDashPart.
    unfold Js.trimStart, Js.startsWith in Hn.
    destruct (Js.dropWhile Js.isSpace line) as [|c r]; [reflexivity|].
    cbn in Hn. destruct (Ascii.eqb c "-") eqn:E; [|reflexivity].
    apply Ascii.eqb_eq in E. subst c. cbn in Hn. destruct r; discriminate Hn.
Qed.

(** X7.  The time token that [findTimeTokenInLine] finds in a line of a
    document lies inside the text that was tokenized, and its offsets
    delimit its own text there.  That text is not always the line.  A line
    that is white space, a dash, white space and a rest that is not empty is
    tokenized as it is only when the dash is its first character and white
    space follows the dash; otherwise, and so for every indented dash, one
    space is put in before the rest, and the offsets count that space.  A
    line whose first character after white space is not a dash is tokenized
    as it is. *)
Theorem time_token_is_where_its_offsets_say line tok :
  Js.forallb Props.notNewline line = true ->
  ParserUtils.findTimeTokenInLine line = Some tok ->
  let text := Lexer.processedLine (Lexer.preprocessLine line 1) in
  0 <= ParserUtils.tt_start tok
  /\ ParserUtils.tt_start tok < ParserUtils.tt_end tok
  /\ ParserUtils.tt_end tok <= Js.len text
  /\ Js.substring text (Z.to_nat (ParserUtils.tt_start tok))
       (Z.to_nat (ParserUtils.tt_end tok))
     = ParserUtils.timeStr tok
  /\ (forall indent gap rest,
        Js.forallb Js.isSpace indent = true -> Js.forallb Js.isSpace gap = true ->
        Lexer.startsWithSpace rest = false ->
        line = indent ++ "-" ++ gap ++ rest ->
        text = if Js.isEmpty rest || (Js.isEmpty indent && negb (Js.isEmpty gap)) then line
               else indent ++ "-" ++ gap ++ " " ++ rest)
  /\ (Js.startsWith (Js.trimStart line) "-" = false -> text = line).
Proof.
  intros Hnl Hf. cbn zeta.
  destruct (findTimeToken_placed _ _ Hnl Hf) as (k & n & Hn & Hl & Hs & He & Ht).
  rewrite Hs, He, Ht. unfold Js.len, Js.substring.
  split; [lia|]. split; [lia|]. split; [lia|]. split.
  - rewrite !Nat2Z.id. f_equal. lia.
  - exact (processedLine_text line 1).
Qed.

Lemma drop_drop a : forall b s, Js.drop a (Js.drop b s) = Js.drop (b + a) s.
Proof.
  intros b. induction b as [|b IH]; intros s; [destruct s; reflexivity|].
  destruct s as [|c r]; cbn [Js.drop Nat.add]; [destruct a; reflexivity | apply IH].
Qed.

(** A text cut at two offsets. *)
Lemma cut_in_three s k n :
  s = Js.take k s ++ Js.take n (Js.drop k s) ++ Js.drop (k + n) s.
Proof.
  rewrite <- drop_drop, take_drop, take_drop. reflexivity.
Qed.

Lemma preprocessLine_lineNo line a b :
  Lexer.pp_hasSpaceAfterDash (Lexer.preprocessLine line a)
  = Lexer.pp_hasSpaceAfterDash (Lexer.preprocessLine line b)
  /\ Lexer.processedLine (Lexer.preprocessLine line a)
     = Lexer.processedLine (Lexer.preprocessLine line b).
Proof.
  unfold Lexer.preprocessLine. destruct (Lexer.matchDashPart line); [|auto].
  destruct (_ && _); auto.
Qed.

Lemma parseLineToRaw_preprocess sec line lineNo :
  exists rest,
    r_diagnostics (fst (Analyzer.parseLineToRaw sec line lineNo))
    = (Lexer.pp_diagnostics (Lexer.preprocessLine line lineNo) ++ rest)%list.
Proof.
  unfold Analyzer.parseLineToRaw. destruct (_ && _); cbn [fst r_diagnostics].
  - eexists. reflexivity.
  - exists []. rewrite app_nil_r. reflexivity.
Qed.

Section ExplicitShift.

Import Analyzer.

Variable host : Host.

(** The shift of a task that has its time on a line without line feed:
    the text of the line with the first time token replaced, where the
    offsets of the token are those in the tokenized text. *)
Lemma shiftTaskTime_explicit rawLine t offset newLine :
  explicitStart t = true ->
  TimeShift.shiftTaskTime host rawLine t offset
  = Some (TimeShift.mkTimeShiftResult true (Some newLine) None None) ->
  exists tok parsedOffset newTime,
    ParserUtils.findTimeTokenInLine rawLine = Some tok
    /\ TimeUtils.parseTimeOffset offset = Some parsedOffset
    /\ TimeUtils.applyTimeOffsetToTimeString (ParserUtils.timeStr tok) parsedOffset
       = Some (TimeUtils.mkTimeShiftResult true (Some newTime) None)
    /\ newLine = Js.substring rawLine 0 (Z.to_nat (ParserUtils.tt_start tok))
                 ++ newTime
                 ++ Js.substringFrom rawLine (Z.to_nat (ParserUtils.tt_end tok)).
Proof.
  intros Hex. unfold TimeShift.shiftTaskTime.
  destruct (TimeUtils.parseTimeOffset offset) as [po|]; [|discriminate].
  destruct (start t) as [s|]; [|discriminate]. rewrite Hex.
  destruct (ParserUtils.findTimeTokenInLine rawLine) as [tok|]; [|discriminate].
  destruct (TimeUtils.applyTimeOffsetToTimeString (ParserUtils.timeStr tok) po)
    as [r|] eqn:A; [|discriminate].
  destruct (applyOffset_shape _ _ _ A) as [(nt & ->) | (msg & ->)];
    cbn [TimeUtils.success TimeUtils.newTime]; [|discriminate].
  intros [= <-]. eexists tok, po, nt. auto.
Qed.

Lemma executeTimeShift_success line offset allLines :
  TimeShift.success (TimeShift.executeTimeShift host line offset allLines) = true ->
  exists t newLine,
    node line = Some (TaskN t)
    /\ TimeShift.shiftTaskTime host (raw line) t offset
       = Some (TimeShift.mkTimeShiftResult true (Some newLine) None None)
    /\ TimeShift.newLineContent (TimeShift.executeTimeShift host line offset allLines)
       = Some newLine.
Proof.
  unfold TimeShift.executeTimeShift.
  destruct (negb (TimeUtils.valid (TimeUtils.validateTimeOffset offset)));
    [discriminate|].
  destruct (node line) as [[t|d]|]; try discriminate.
  destruct (negb (ParserUtils.lf_valid _)); [discriminate|].
  destruct (TimeShift.shiftTaskTime host (raw line) t offset)
    as [[ok text err aff]|] eqn:E; [|discriminate]. cbn [TimeShift.success negb].
  destruct ok; cbn [negb TimeShift.success TimeShift.newLineContent]; [|discriminate].
  intros _.
  assert (Hshape : exists newLine, text = Some newLine /\ err = None /\ aff = None).
  { unfold TimeShift.shiftTaskTime in E.
    repeat match type of E with
           | match ?x with _ => _ end = _ => destruct x
           | (if ?x then _ else _) = _ => destruct x
           | (let (_, _) := ?x in _) = _ => destruct x
           end; inversion E; subst; eauto. }
  destruct Hshape as (newLine & -> & -> & ->). eauto.
Qed.

(** X8.  A shift that succeeds on an analysed task line with an explicit
    start, when the dash of the line is followed by white space (the line
    has no warning [W001-missing-space-after-dash]), changes the first time
    token of the line and nothing else: the line is some text, the token,
    and some text, and the new line is the first text, the shifted token,
    and the second text. *)
Theorem shift_of_an_explicit_time_changes_the_token_only
  options source prog k pl t offset :
  analyze host options source = Ok prog ->
  nth_error (lines prog) k = Some pl ->
  node pl = Some (TaskN t) ->
  explicitStart t = true ->
  ~ In WarningCode.MISSING_SPACE_AFTER_DASH (map code (diagnostics pl)) ->
  TimeShift.success (TimeShift.executeTimeShift host pl offset (lines prog)) = true ->
  exists before tok after parsedOffset newTime,
    raw pl = before ++ ParserUtils.timeStr tok ++ after
    /\ ParserUtils.findTimeTokenInLine (raw pl) = Some tok
    /\ ParserUtils.tt_start tok = Js.len before
    /\ TimeUtils.parseTimeOffset offset = Some parsedOffset
    /\ TimeUtils.applyTimeOffsetToTimeString (ParserUtils.timeStr tok) parsedOffset
       = Some (TimeUtils.mkTimeShiftResult true (Some newTime) None)
    /\ TimeShift.newLineContent (TimeShift.executeTimeShift host pl offset (lines prog))
       = Some (before ++ newTime ++ after).
Proof.
  intros H Hk Hn Hex Hw Hsucc.
  destruct (task_line host _ _ _ _ _ H Hk (or_introl (ex_intro _ t Hn)))
    as (rl & parts & st & st' & Hrl & Hp & _ & _ & _ & _ & _ & _ & Htask).
  destruct (analyzeTask_facts host _ _ _ _ _ _ Htask) as (t' & _ & Hrw & _).
  destruct (analyzeTask_diagnostics host _ _ _ _ _ _ Htask) as (t0 & sD & eD & _ & _ & Hd).
  cbn zeta in Hd.
  destruct (parseLinesToRaw_nth _ _ _ Hrl) as (line & Hl & Hraw).
  assert (Hline : raw pl = line) by (rewrite Hrw, Hraw; apply parseLineToRaw_raw).
  pose proof (splitLines_lines _ _ _ Hl) as Hnl.
  (* the dash is followed by white space *)
  assert (Hsame : Lexer.processedLine (Lexer.preprocessLine line 1) = line).
  { destruct (preprocessLine_cases line 1) as [(_ & B & _) | (A & _ & _)]; [exact B|].
    exfalso. apply Hw. rewrite Hd, !map_app. apply in_or_app. left. apply in_or_app. left.
    apply in_or_app. left.
    destruct (parseLineToRaw_preprocess (Props.sectionBefore source k) line
                (1 + Z.of_nat k)) as (rest & Hpp).
    rewrite Hraw, Hpp, map_app. apply in_or_app. left.
    destruct (preprocessLine_cases line (1 + Z.of_nat k)) as [(A' & _) | (_ & _ & C)].
    - rewrite (proj1 (preprocessLine_lineNo line 1 (1 + Z.of_nat k))) in A. congruence.
    - rewrite C. left. reflexivity. }
  destruct (executeTimeShift_success _ _ _ Hsucc) as (t1 & newLine & Hn1 & Hshift & Hnew).
  rewrite Hn in Hn1. inversion Hn1; subst t1. clear Hn1.
  destruct (shiftTaskTime_explicit _ _ _ _ Hex Hshift)
    as (tok & po & newTime & Hf & Hpo & Happ & ->).
  rewrite Hline in *.
  destruct (findTimeToken_placed _ _ Hnl Hf) as (i & n & Hn0 & Hlen & Hs & He & Ht).
  rewrite Hsame in Hlen, Ht.
  exists (Js.take i line), tok, (Js.drop (i + n) line), po, newTime.
  split; [rewrite Ht; apply cut_in_three|]. split; [exact Hf|]. split.
  { rewrite Hs. unfold Js.len. rewrite take_length by lia. reflexivity. }
  split; [exact Hpo|]. split; [exact Happ|].
  rewrite Hnew, Hs, He, !Nat2Z.id. unfold Js.substring, Js.substringFrom.
  rewrite Nat.sub_0_r. destruct line; reflexivity.
Qed.

End ExplicitShift.

(** The theorem of X7 on an indented line: the text that is tokenized has a
    space more than the line, and the token starts at 5 there, not at 4. *)
Lemma time_token_witness_indented :
  exists tok,
    ParserUtils.findTimeTokenInLine "  - 9am, A" = Some tok
    /\ ParserUtils.timeStr tok = "9am"
    /\ ParserUtils.tt_start tok = 5
    /\ Lexer.processedLine (Lexer.preprocessLine "  - 9am, A" 1) = "  -  9am, A"
    /\ Js.substring "  -  9am, A" (Z.to_nat (ParserUtils.tt_start tok))
         (Z.to_nat (ParserUtils.tt_end tok))
       = ParserUtils.timeStr tok.
Proof.
  assert (F : exists tok, ParserUtils.findTimeTokenInLine "  - 9am, A" = Some tok).
  { vm_compute. eexists. reflexivity. }
  destruct F as (tok & Hf).
  pose proof (time_token_is_where_its_offsets_say "  - 9am, A" tok eq_refl Hf) as H.
  cbv zeta in H. destruct H as (_ & _ & _ & Hsub & Htext & _).
  exists tok. split; [exact Hf|].
  split; [vm_compute in Hf; injection Hf as <-; reflexivity|].
  split; [vm_compute in Hf; injection Hf as <-; reflexivity|].
  split; [exact (Htext "  " " " "9am, A" eq_refl eq_refl eq_refl eq_refl)|].
  exact Hsub.
Defined.

Lemma explicit_shift_witness_chain :
  exists prog pl before tok after newTime,
    Analyzer.analyze Analyzer.sampleHost Analyzer.noOptions Samples.chain = Analyzer.Ok prog
    /\ nth_error (lines prog) 0 = Some pl
    /\ raw pl = before ++ ParserUtils.timeStr tok ++ after
    /\ TimeShift.newLineContent
         (TimeShift.executeTimeShift Analyzer.sampleHost pl "+15m" (lines prog))
       = Some (before ++ newTime ++ after).
Proof.
  assert (F : exists prog pl t,
             Analyzer.analyze Analyzer.sampleHost Analyzer.noOptions Samples.chain
             = Analyzer.Ok prog
             /\ nth_error (lines prog) 0 = Some pl
             /\ node pl = Some (TaskN t)
             /\ explicitStart t = true
             /\ diagnostics pl = []
             /\ TimeShift.success
                  (TimeShift.executeTimeShift Analyzer.sampleHost pl "+15m" (lines prog))
                = true).
  { do 3 eexists. repeat (split; [vm_compute; reflexivity|]). vm_compute. reflexivity. }
  destruct F as (prog & pl & t & H & Hk & Hn & He & Hd & Hs).
  assert (Hw : ~ In WarningCode.MISSING_SPACE_AFTER_DASH (map code (diagnostics pl))).
  { rewrite Hd. intros []. }
  destruct (shift_of_an_explicit_time_changes_the_token_only Analyzer.sampleHost
              Analyzer.noOptions Samples.chain prog 0%nat pl t "+15m" H Hk Hn He Hw Hs)
    as (before & tok & after & parsedOffset & newTime & Hraw & _ & _ & _ & _ & Hnew).
  exists prog, pl, before, tok, after, newTime. auto.
Defined.
(** ** The lines of an analysed document *)

Lemma string_of_uint_digits d :
  Js.forallb Js.isDigit (DecimalString.NilEmpty.string_of_uint d) = true.
Proof. induction d; cbn; auto. Qed.

Lemma N_to_uint_nonnil n : N.to_uint n <> Decimal.Nil.
Proof.
  destruct n as [|p]; [discriminate|]. apply DecimalPos.Unsigned.to_uint_nonnil.
Qed.

Lemma numToString_digits n : 0 <= n -> Js.forallb Js.isDigit (Js.numToString n) = true.
Proof.
  intros Hn. unfold Js.numToString. destruct (n <? 0) eqn:E; [apply Z.ltb_lt in E; lia|].
  unfold DecimalString.NilZero.string_of_uint.
  destruct (N.to_uint (Z.to_N n)) eqn:Eu; try (rewrite <- Eu; apply string_of_uint_digits).
  reflexivity.
Qed.

Lemma numToString_inj a b :
  0 <= a -> 0 <= b -> Js.numToString a = Js.numToString b -> a = b.
Proof.
  intros Ha Hb. unfold Js.numToString.
  destruct (a <? 0) eqn:Ea; [apply Z.ltb_lt in Ea; lia|].
  destruct (b <? 0) eqn:Eb; [apply Z.ltb_lt in Eb; lia|].
  intros E.
  assert (Hu : Some (N.to_uint (Z.to_N a)) = Some (N.to_uint (Z.to_N b))).
  { rewrite <- (DecimalString.NilZero.usu _ (N_to_uint_nonnil (Z.to_N a))).
    rewrite <- (DecimalString.NilZero.usu _ (N_to_uint_nonnil (Z.to_N b))).
    rewrite E. reflexivity. }
  inversion Hu as [Hu']. apply DecimalN.Unsigned.to_uint_inj in Hu'. lia.
Qed.

(** The id of a line holds its index. *)
Lemma generateLineId_inj raw1 raw2 i j :
  0 <= i -> 0 <= j ->
  Analyzer.generateLineId raw1 i = Analyzer.generateLineId raw2 j -> i = j.
Proof.
  intros Hi Hj. unfold Analyzer.generateLineId. cbn zeta. intros E.
  cbn [append] in E. injection E as E.
  assert (T : forall n x, 0 <= n ->
            Js.takeWhile Js.isDigit (Js.numToString n ++ String "_" x) = Js.numToString n).
  { intros n x Hn. apply takeWhile_app_stop; [apply numToString_digits, Hn | reflexivity]. }
  apply numToString_inj; try assumption.
  rewrite <- (T i (Js.numToHex (Z.abs (Analyzer.hashFrom 0 raw1))) Hi).
  rewrite <- (T j (Js.numToHex (Z.abs (Analyzer.hashFrom 0 raw2))) Hj).
  cbn [append] in *. rewrite E. reflexivity.
Qed.

Section Lines.

Import Analyzer.

Variable host : Host.

(** The record of a line: its text, its number and its id are those of
    the raw line, whatever the kind of the line. *)
Lemma analyzeLine_record st rl i pl st' :
  analyzeLine host st rl i = Ok (pl, st') ->
  raw pl = r_raw rl /\ lineNo pl = r_lineNo rl /\ id pl = generateLineId (r_raw rl) i.
Proof.
  intros H. pose proof H as H0. apply analyzeLine_cases in H.
  destruct H as [(Hn & _) | [(d & _ & _ & Hd) | (parts & _ & _ & _ & Ht)]].
  - unfold analyzeLine in H0.
    destruct (isBlank rl || isComment rl); [inversion H0; subst; cbn; auto|].
    destruct (directive rl) as [d|].
    + unfold analyzeDirective in H0. destruct (applyDirective st d);
        inversion H0; subst; discriminate Hn.
    + destruct (task rl) as [t|]; [|inversion H0; subst; cbn; auto].
      apply analyzeTask_facts in H0. destruct H0 as (t' & Hn' & _). congruence.
  - unfold analyzeDirective in Hd. destruct (applyDirective st d);
      inversion Hd; subst; cbn; auto.
  - apply analyzeTask_facts in Ht. destruct Ht as (t & _ & A & B & C & _). auto.
Qed.

(** The record of the line of index [k] of a result. *)
Lemma analyze_record options source prog k pl :
  analyze host options source = Ok prog ->
  nth_error (lines prog) k = Some pl ->
  nth_error (Js.splitLines source) k = Some (raw pl)
  /\ lineNo pl = Z.of_nat k + 1
  /\ id pl = generateLineId (raw pl) (Z.of_nat k).
Proof.
  intros H Hk.
  destruct (analyze_line host _ _ _ _ _ H Hk) as (rl & st & st' & Hrl & _ & _ & Hl & _).
  destruct (parseLinesToRaw_nth _ _ _ Hrl) as (line & Hsrc & Hraw).
  destruct (analyzeLine_record _ _ _ _ _ Hl) as (A & B & C).
  destruct (parseLineToRaw_raw (Props.sectionBefore source k) line (1 + Z.of_nat k))
    as [R N]. rewrite <- Hraw in R, N.
  rewrite C, A, B, R, N, Hsrc. repeat split. lia.
Qed.

Lemma analyze_ids_distinct options source prog i j a b :
  analyze host options source = Ok prog ->
  nth_error (lines prog) i = Some a -> nth_error (lines prog) j = Some b ->
  id a = id b -> i = j.
Proof.
  intros H Ha Hb E.
  destruct (analyze_record _ _ _ _ _ H Ha) as (_ & _ & Ia).
  destruct (analyze_record _ _ _ _ _ H Hb) as (_ & _ & Ib).
  rewrite Ia, Ib in E. apply generateLineId_inj in E; lia.
Qed.

Lemma analyze_source_lengths options source prog :
  analyze host options source = Ok prog ->
  List.length (lines prog) = List.length (Js.splitLines source).
Proof.
  intros H. rewrite (analyze_lengths host _ _ _ H). unfold parseLinesToRaw.
  apply parseLinesToRawFrom_length.
Qed.

(** X9.  The analysis keeps the lines of the source: the result has one
    line for each line of the source, in order, and each carries the text of
    its line, its number counted from 1, and an id made from its text and
    its index; two lines of a result never have the same id. *)
Theorem analysis_keeps_the_lines_of_the_source options source prog :
  analyze host options source = Ok prog ->
  List.length (lines prog) = List.length (Js.splitLines source)
  /\ (forall k pl, nth_error (lines prog) k = Some pl ->
        nth_error (Js.splitLines source) k = Some (raw pl)
        /\ lineNo pl = Z.of_nat k + 1
        /\ id pl = generateLineId (raw pl) (Z.of_nat k))
  /\ (forall i j a b,
        nth_error (lines prog) i = Some a -> nth_error (lines prog) j = Some b ->
        id a = id b -> i = j).
Proof.
  intros H. split; [exact (analyze_source_lengths _ _ _ H)|]. split.
  - intros k pl Hk. exact (analyze_record _ _ _ _ _ H Hk).
  - intros i j a b Ha Hb E. exact (analyze_ids_distinct _ _ _ _ _ _ _ H Ha Hb E).
Qed.

End Lines.

Lemma lines_witness_chain :
  exists prog,
    Analyzer.analyze Analyzer.sampleHost Analyzer.noOptions Samples.chain = Analyzer.Ok prog
    /\ List.length (lines prog) = 3%nat.
Proof.
  assert (F : exists prog,
             Analyzer.analyze Analyzer.sampleHost Analyzer.noOptions Samples.chain
             = Analyzer.Ok prog).
  { vm_compute. eexists. reflexivity. }
  destruct F as (prog & H). exists prog. split; [exact H|].
  destruct (analysis_keeps_the_lines_of_the_source Analyzer.sampleHost Analyzer.noOptions
              Samples.chain prog H) as (Hlen & _).
  rewrite Hlen. reflexivity.
Defined.
(** ** The lines that a shift affects *)

Lemma collectAffected_In l : forall x,
  In x (TimeShift.collectAffected l) <->
  exists j, nth_error l j = Some x /\ TimeShift.isImplicitTask x = true
            /\ forall i y, (i < j)%nat -> nth_error l i = Some y ->
                           TimeShift.isExplicitTask y = false.
Proof.
  induction l as [|a r IH]; intros x; cbn [TimeShift.collectAffected].
  - split; [intros []|]. intros (j & H & _). destruct j; discriminate.
  - destruct (TimeShift.isExplicitTask a) eqn:Ea.
    + split; [intros []|]. intros (j & Hj & Hi & Hb). destruct j as [|j].
      * cbn in Hj. injection Hj as <-. unfold TimeShift.isExplicitTask in Ea.
        unfold TimeShift.isImplicitTask in Hi.
        destruct (node a) as [[t|d]|]; try discriminate. rewrite Ea in Hi. discriminate.
      * specialize (Hb 0%nat a ltac:(lia) eq_refl). congruence.
    + assert (R : In x (TimeShift.collectAffected r) <->
                  exists j, nth_error (a :: r) (S j) = Some x
                            /\ TimeShift.isImplicitTask x = true
                            /\ forall i y, (i < S j)%nat -> nth_error (a :: r) i = Some y ->
                                           TimeShift.isExplicitTask y = false).
      { rewrite IH. split; intros (j & Hj & Hi & Hb); exists j; repeat split; auto.
        - intros [|i] y Hlt Hy; [cbn in Hy; congruence|]. apply (Hb i); [lia|exact Hy].
        - intros i y Hlt Hy. apply (Hb (S i)); [lia|exact Hy]. }
      destruct (TimeShift.isImplicitTask a) eqn:Ia.
      * split.
        -- intros [<-|Hin].
           ++ exists 0%nat. repeat split; auto. intros i y Hlt. lia.
           ++ apply R in Hin. destruct Hin as (j & Hj). exists (S j). exact Hj.
        -- intros ([|j] & Hj & Hi & Hb).
           ++ left. cbn in Hj. congruence.
           ++ right. apply R. exists j. auto.
      * rewrite R. split.
        -- intros (j & Hj). exists (S j). exact Hj.
        -- intros ([|j] & Hj & Hi & Hb).
           ++ cbn in Hj. congruence.
           ++ exists j. auto.
Qed.

Lemma findIndexFrom_spec p l : forall n idx,
  TimeShift.findIndexFrom n p l = Some idx ->
  exists k x, idx = (n + k)%nat /\ nth_error l k = Some x /\ p x = true.
Proof.
  induction l as [|a r IH]; intros n idx H; cbn in H; [discriminate|].
  destruct (p a) eqn:Pa.
  - injection H as <-. exists 0%nat, a. repeat split; auto.
  - destruct (IH _ _ H) as (k & x & -> & Hk & Px). exists (S k), x. repeat split; auto; lia.
Qed.

Lemma findIndexFrom_none p l : forall n,
  TimeShift.findIndexFrom n p l = None -> forall x, In x l -> p x = false.
Proof.
  induction l as [|a r IH]; intros n H x []; cbn in H; destruct (p a) eqn:Pa;
    try discriminate.
  - subst. exact Pa.
  - eapply IH; eauto.
Qed.

Lemma nth_error_skipn {A} (l : list A) : forall n j,
  nth_error (skipn n l) j = nth_error l (n + j).
Proof.
  induction l as [|a r IH]; intros [|n] j; cbn; auto.
  destruct j; reflexivity.
Qed.

Section Affected.

Import Analyzer.

Variable host : Host.

Lemma findIndex_of_line options source prog k pl :
  analyze host options source = Ok prog ->
  nth_error (lines prog) k = Some pl ->
  TimeShift.findIndexFrom 0 (fun l => String.eqb (id l) (id pl)) (lines prog) = Some k.
Proof.
  intros H Hk.
  destruct (TimeShift.findIndexFrom 0 (fun l => (id l =? id pl)%string) (lines prog))
    as [idx|] eqn:E.
  - destruct (findIndexFrom_spec _ _ _ _ E) as (j & x & -> & Hj & Px).
    apply String.eqb_eq in Px.
    rewrite (analyze_ids_distinct host _ _ _ _ _ _ _ H Hj Hk Px). reflexivity.
  - pose proof (findIndexFrom_none _ _ _ E pl (nth_error_In _ _ Hk)) as N.
    cbn in N. rewrite String.eqb_refl in N. discriminate.
Qed.

Lemma findAffectedLines_below options source prog k pl :
  analyze host options source = Ok prog ->
  nth_error (lines prog) k = Some pl ->
  TimeShift.findAffectedLines pl (lines prog)
  = TimeShift.collectAffected (skipn (S k) (lines prog)).
Proof.
  intros H Hk. unfold TimeShift.findAffectedLines.
  rewrite (findIndex_of_line _ _ _ _ _ H Hk). reflexivity.
Qed.

(** X10.  The lines that a shift of line [k] of an analysed document reports
    as affected are the tasks without a start of their own that follow it,
    up to the next task that has one: a line is among them exactly when it
    stands below line [k], is such a task, and no task with a start of its own
    stands between the two. *)
Theorem affected_lines_are_the_chained_tasks_below options source prog k pl :
  analyze host options source = Ok prog ->
  nth_error (lines prog) k = Some pl ->
  forall l,
    In l (TimeShift.findAffectedLines pl (lines prog)) <->
    exists j, (k < j)%nat /\ nth_error (lines prog) j = Some l
      /\ (exists t, node l = Some (TaskN t) /\ explicitStart t = false)
      /\ forall i x t, (k < i < j)%nat -> nth_error (lines prog) i = Some x ->
                       node x = Some (TaskN t) -> explicitStart t = false.
Proof.
  intros H Hk l. rewrite (findAffectedLines_below _ _ _ _ _ H Hk), collectAffected_In.
  split.
  - intros (j & Hj & Hi & Hb). rewrite nth_error_skipn in Hj.
    exists (S k + j)%nat. split; [lia|]. split; [exact Hj|]. split.
    + unfold TimeShift.isImplicitTask in Hi. destruct (node l) as [[t|d]|]; try discriminate.
      exists t. split; [reflexivity|]. destruct (explicitStart t); [discriminate|reflexivity].
    + intros i x t Hlt Hx Hn. specialize (Hb (i - S k)%nat x ltac:(lia)).
      rewrite nth_error_skipn in Hb. replace (S k + (i - S k))%nat with i in Hb by lia.
      specialize (Hb Hx). unfold TimeShift.isExplicitTask in Hb. rewrite Hn in Hb. exact Hb.
  - intros (j & Hlt & Hj & (t & Hn & He) & Hb). exists (j - S k)%nat.
    rewrite nth_error_skipn. replace (S k + (j - S k))%nat with j by lia.
    split; [exact Hj|]. split.
    + unfold TimeShift.isImplicitTask. rewrite Hn, He. reflexivity.
    + intros i y Hi. rewrite nth_error_skipn. intros Hy.
      unfold TimeShift.isExplicitTask. destruct (node y) as [[ty|d]|] eqn:Ny; auto.
      apply (Hb (S k + i)%nat y ty); [lia|exact Hy|exact Ny].
Qed.

End Affected.

Lemma affected_witness_chain :
  exists prog pl l,
    Analyzer.analyze Analyzer.sampleHost Analyzer.noOptions Samples.chain = Analyzer.Ok prog
    /\ nth_error (lines prog) 0 = Some pl
    /\ nth_error (lines prog) 2 = Some l
    /\ In l (TimeShift.findAffectedLines pl (lines prog)).
Proof.
  assert (F : exists prog pl l,
             Analyzer.analyze Analyzer.sampleHost Analyzer.noOptions Samples.chain
             = Analyzer.Ok prog
             /\ nth_error (lines prog) 0 = Some pl /\ nth_error (lines prog) 2 = Some l).
  { vm_compute. do 3 eexists. repeat split; reflexivity. }
  destruct F as (prog & pl & l & H & Hk & Hl).
  exists prog, pl, l. split; [exact H|]. split; [exact Hk|]. split; [exact Hl|].
  apply (affected_lines_are_the_chained_tasks_below Analyzer.sampleHost Analyzer.noOptions
           Samples.chain prog 0%nat pl H Hk l).
  exists 2%nat. split; [lia|]. split; [exact Hl|].
  vm_compute in H. injection H as <-. vm_compute in Hl. injection Hl as <-.
  split.
  - eexists. split; reflexivity.
  - intros i x t Hi. assert (i = 1%nat) as -> by lia. vm_compute.
    intros [= <-] [= <-]. reflexivity.
Defined.
(** ** The shift of one line of a document *)

Lemma assignAt_inside text l : forall k,
  (k < List.length l)%nat ->
  Service.assignAt k text l = (firstn k l ++ text :: skipn (S k) l)%list.
Proof.
  induction l as [|a r IH]; intros [|k] H; cbn in *; try lia; auto.
  rewrite IH by lia. reflexivity.
Qed.

Lemma lineAt_inside (ls : list ParsedLine) n :
  1 <= n <= Z.of_nat (List.length ls) ->
  exists line, Core.lineAt ls n = Some line
               /\ nth_error ls (Z.to_nat (n - 1)) = Some line.
Proof.
  intros H. unfold Core.lineAt. destruct (1 <=? n) eqn:E; [|lia].
  destruct (nth_error ls (Z.to_nat (n - 1))) as [line|] eqn:N.
  - exists line. auto.
  - apply nth_error_None in N. lia.
Qed.

Lemma lineAt_outside (ls : list ParsedLine) n :
  ~ (1 <= n <= Z.of_nat (List.length ls)) -> Core.lineAt ls n = None.
Proof.
  intros H. unfold Core.lineAt. destruct (1 <=? n) eqn:E; [|reflexivity].
  apply nth_error_None. lia.
Qed.

Section ShiftOfALine.

Import Analyzer.

Variable host : Host.

Lemma executeTimeShift_affected line offset allLines :
  TimeShift.success (TimeShift.executeTimeShift host line offset allLines) = true ->
  TimeShift.affectedLines (TimeShift.executeTimeShift host line offset allLines)
  = Some (map id (TimeShift.findAffectedLines line allLines)).
Proof.
  unfold TimeShift.executeTimeShift.
  destruct (negb (TimeUtils.valid (TimeUtils.validateTimeOffset offset)));
    [discriminate|].
  destruct (node line) as [[t|d]|]; try discriminate.
  destruct (negb (ParserUtils.lf_valid _)); [discriminate|].
  destruct (TimeShift.shiftTaskTime host (raw line) t offset) as [r|]; [|discriminate].
  destruct (TimeShift.success r) eqn:E; cbn [negb]; [reflexivity|]. rewrite E. discriminate.
Qed.

Lemma lineNumberOfId_line options source prog k l :
  analyze host options source = Ok prog ->
  nth_error (lines prog) k = Some l ->
  Service.lineNumberOfId (lines prog) (id l) = Z.of_nat k + 1.
Proof.
  intros H Hk. unfold Service.lineNumberOfId.
  destruct (find (fun x => (id x =? id l)%string) (lines prog)) as [x|] eqn:F.
  - apply find_some in F. destruct F as [Hin Hid]. apply String.eqb_eq in Hid.
    destruct (In_nth_error _ _ Hin) as [j Hj].
    pose proof (analyze_ids_distinct host _ _ _ _ _ _ _ H Hj Hk Hid) as ->.
    destruct (analyze_record host _ _ _ _ _ H Hj) as (_ & N & _). exact N.
  - pose proof (find_none _ _ F l (nth_error_In _ _ Hk)) as N. cbn in N.
    rewrite String.eqb_refl in N. discriminate.
Qed.

(** The numbers of the affected lines: the ids lead back to the lines. *)
Lemma affected_numbers options source prog k pl :
  analyze host options source = Ok prog ->
  nth_error (lines prog) k = Some pl ->
  filter (fun n => 0 <? n)
    (map (Service.lineNumberOfId (lines prog))
       (map id (TimeShift.findAffectedLines pl (lines prog))))
  = map lineNo (TimeShift.findAffectedLines pl (lines prog))
  /\ Forall (fun n => Z.of_nat k + 1 < n <= Z.of_nat (List.length (lines prog)))
       (map lineNo (TimeShift.findAffectedLines pl (lines prog))).
Proof.
  intros H Hk.
  assert (A : forall l, In l (TimeShift.findAffectedLines pl (lines prog)) ->
              exists j, (k < j < List.length (lines prog))%nat
                        /\ nth_error (lines prog) j = Some l).
  { intros l Hin. rewrite (findAffectedLines_below host _ _ _ _ _ H Hk) in Hin.
    apply collectAffected_In in Hin. destruct Hin as (j & Hj & _).
    rewrite nth_error_skipn in Hj. exists (S k + j)%nat. split; [|exact Hj].
    assert (nth_error (lines prog) (S k + j) <> None) as N by congruence.
    apply nth_error_Some in N. lia. }
  induction (TimeShift.findAffectedLines pl (lines prog)) as [|l r IH]; cbn.
  - split; [reflexivity|constructor].
  - destruct (A l (or_introl eq_refl)) as (j & Hlt & Hj).
    destruct (analyze_record host _ _ _ _ _ H Hj) as (_ & N & _).
    rewrite (lineNumberOfId_line _ _ _ _ _ H Hj).
    destruct IH as [IH1 IH2]; [intros x Hx; apply A; right; exact Hx|].
    destruct (0 <? Z.of_nat j + 1) eqn:P; [|lia]. split.
    + rewrite IH1, N. reflexivity.
    + constructor; [lia|exact IH2].
Qed.

(** X11.  The shift of line [lineNumber] of a document by a valid offset: a
    number outside the lines of the document gives the error [Line not found];
    otherwise the result is the one of the shift of that line, and a success
    returns the lines of the document joined by line feeds, with that line
    alone replaced, and as affected lines the numbers of the lines that the
    shift of the line reports, each one below the shifted line. *)
Theorem shiftTime_replaces_one_line content lineNumber offset program :
  TimeUtils.valid (TimeUtils.validateTimeOffset offset) = true ->
  Core.analyzeDocument host content = Ok program ->
  let sourceLines := Js.splitLines content in
  let count := Z.of_nat (List.length sourceLines) in
  (~ (1 <= lineNumber <= count) ->
   Service.shiftTime host content lineNumber offset
   = Ok (Service.mkTimeShiftResult false None (Some Service.msgLineNotFound) None))
  /\ (1 <= lineNumber <= count ->
      exists line,
        nth_error (lines program) (Z.to_nat (lineNumber - 1)) = Some line
        /\ let shifted := TimeShift.executeTimeShift host line offset (lines program) in
           (TimeShift.success shifted = false ->
            Service.shiftTime host content lineNumber offset
            = Ok (Service.mkTimeShiftResult false None (TimeShift.error shifted) None))
           /\ (TimeShift.success shifted = true ->
               exists newLine,
                 TimeShift.newLineContent shifted = Some newLine
                 /\ Service.shiftTime host content lineNumber offset
                    = Ok (Service.mkTimeShiftResult true
                            (Some (Samples.document
                                     (firstn (Z.to_nat (lineNumber - 1)) sourceLines
                                      ++ newLine
                                         :: skipn (S (Z.to_nat (lineNumber - 1))) sourceLines)))
                            None
                            (Some (map lineNo
                                     (TimeShift.findAffectedLines line (lines program)))))
                 /\ Forall (fun n => lineNumber < n <= count)
                      (map lineNo (TimeShift.findAffectedLines line (lines program))))).
Proof.
  intros Hv Ha sourceLines count.
  assert (Hlen : List.length (lines program) = List.length sourceLines).
  { exact (analyze_source_lengths host _ _ _ Ha). }
  unfold Service.shiftTime. rewrite Hv, Ha. cbn [negb]. split.
  - intros Hout. rewrite lineAt_outside; [reflexivity|]. rewrite Hlen. exact Hout.
  - intros Hin.
    destruct (lineAt_inside (lines program) lineNumber) as (line & Hl & Hn);
      [rewrite Hlen; exact Hin|].
    exists line. split; [exact Hn|]. rewrite Hl. cbv zeta. split.
    + intros Hs. rewrite Hs. reflexivity.
    + intros Hs. rewrite Hs. cbn [negb].
      destruct (executeTimeShift_success host _ _ _ Hs) as (t & newLine & _ & _ & Hc).
      exists newLine. split; [exact Hc|].
      destruct (affected_numbers _ _ _ _ _ Ha Hn) as [A B].
      rewrite Hc, (executeTimeShift_affected _ _ _ Hs). cbn [option_map].
      rewrite A, assignAt_inside by (fold sourceLines; lia). split; [reflexivity|].
      rewrite Hlen in B. fold count in B. eapply Forall_impl; [|exact B].
      cbn. intros n. lia.
Qed.

End ShiftOfALine.

Lemma shiftTime_witness_chain :
  Service.shiftTime Analyzer.sampleHost Samples.chain 1 "+15m"
  = Analyzer.Ok
      (Service.mkTimeShiftResult true
         (Some (Samples.document ["- 9:15am, A, 1h"; "- B, 5x"; "- C, 30m"]))
         None (Some [2; 3])).
Proof.
  assert (F : exists program,
             Core.analyzeDocument Analyzer.sampleHost Samples.chain = Analyzer.Ok program).
  { vm_compute. eexists. reflexivity. }
  destruct F as (program & Ha).
  destruct (shiftTime_replaces_one_line Analyzer.sampleHost Samples.chain 1 "+15m" program
              eq_refl Ha) as [_ B].
  destruct B as (line & Hn & _ & S); [vm_compute; split; discriminate|].
  vm_compute in Ha. injection Ha as <-. vm_compute in Hn. injection Hn as <-.
  destruct S as (newLine & Hc & E & _); [vm_compute; reflexivity|].
  rewrite E. vm_compute in Hc. injection Hc as <-. vm_compute. reflexivity.
Defined.
(** ** The status of a line and the columns of its diagnostics *)

Lemma lastIndexOfFrom_found c s : forall i found,
  0 <= i -> (0 <= found \/ Js.existsb (Ascii.eqb c) s = true) ->
  0 <= Js.lastIndexOfFrom c i s found.
Proof.
  induction s as [|d r IH]; intros i found Hi H; cbn.
  - destruct H as [H|H]; [exact H|discriminate].
  - apply IH; [lia|]. destruct (Ascii.eqb c d) eqn:E; [left; lia|].
    cbn in H. rewrite E in H. exact H.
Qed.

Lemma drop_existsb c r n : forall s,
  Js.drop n s = String c r -> Js.existsb (Ascii.eqb c) s = true.
Proof.
  induction n as [|n IH]; intros s H.
  - destruct s; cbn in H; [discriminate|]. injection H as -> ->. cbn.
    rewrite Ascii.eqb_refl. reflexivity.
  - destruct s as [|d s]; cbn in H; [discriminate|]. cbn. rewrite (IH _ H).
    apply orb_true_r.
Qed.

Lemma trimEnd_existsb p s :
  Js.existsb p (Js.trimEnd s) = true -> Js.existsb p s = true.
Proof.
  induction s as [|c r IH]; cbn; [auto|].
  destruct (Js.isEmpty (Js.trimEnd r) && Js.isSpace c); cbn; [discriminate|].
  intros H. apply orb_true_iff in H as [H|H]; [rewrite H; reflexivity|].
  rewrite (IH H). apply orb_true_r.
Qed.

Lemma dropWhile_existsb p q s :
  Js.existsb p (Js.dropWhile q s) = true -> Js.existsb p s = true.
Proof.
  induction s as [|c r IH]; cbn; [auto|].
  destruct (q c); cbn; [|auto]. intros H. rewrite (IH H). apply orb_true_r.
Qed.

Lemma trailing_comma_found s :
  Js.endsWith (Js.trim s) "," = true -> 0 <= Js.lastIndexOf s ",".
Proof.
  unfold Js.endsWith. intros H. apply andb_true_iff in H as [_ H].
  apply String.eqb_eq in H. unfold Js.lastIndexOf.
  apply lastIndexOfFrom_found; [lia|]. right.
  apply (dropWhile_existsb _ Js.isSpace), trimEnd_existsb.
  exact (drop_existsb _ _ _ _ H).
Qed.

Lemma spanOver_placed code msg lineNo s :
  s <> EmptyString -> Terms.placed (mkDiagnostic code msg (Analyzer.spanOver lineNo s)).
Proof.
  intros H. eexists. split; [reflexivity|]. cbn. unfold Js.len.
  destruct s; [contradiction|]. cbn [String.length]. lia.
Qed.

Section Placed.

Import Analyzer.

Lemma placed_snoc ds d :
  Forall Terms.placed ds -> Terms.placed d -> Forall Terms.placed (ds ++ [d]).
Proof. intros H Hd. apply Forall_app. split; [exact H | constructor; [exact Hd|constructor]]. Qed.

Lemma isCategoryPart_nonempty part : isCategoryPart part = true -> part <> EmptyString.
Proof. intros H ->. vm_compute in H. discriminate. Qed.

Lemma classifyPart_placed line lineNo acc part :
  line <> EmptyString ->
  Forall Terms.placed (snd acc) ->
  Forall Terms.placed (snd (classifyPart line lineNo acc part)).
Proof.
  destruct acc as [t ds]. unfold classifyPart. cbn [snd]. intros Hl H.
  destruct (Js.isEmpty (Js.trim part)); [exact H|].
  destruct (isTimePart (Js.trim part)).
  { destruct (time t); cbn [snd]; [|exact H].
    apply placed_snoc; [exact H|]. apply spanOver_placed, Hl. }
  destruct (isDurationPart (Js.trim part)).
  { destruct (duration t); cbn [snd]; [|exact H].
    apply placed_snoc; [exact H|]. apply spanOver_placed, Hl. }
  destruct (isCategoryPart (Js.trim part)) eqn:Ec.
  { unfold parseCategory. destruct (_ || _); cbn [snd]; [|exact H].
    apply placed_snoc; [exact H|]. apply spanOver_placed, isCategoryPart_nonempty, Ec. }
  destruct (isLikelyBadCategory (Js.trim part)).
  { cbn [snd]. apply placed_snoc; [exact H|]. apply spanOver_placed, Hl. }
  destruct (isLikelyBadDuration (Js.trim part)).
  { cbn [snd]. apply placed_snoc; [exact H|]. apply spanOver_placed, Hl. }
  exact H.
Qed.

Lemma classifyParts_placed line lineNo parts : forall acc,
  line <> EmptyString ->
  Forall Terms.placed (snd acc) ->
  Forall Terms.placed (snd (fold_left (classifyPart line lineNo) parts acc)).
Proof.
  induction parts as [|p parts IH]; intros acc Hl H; cbn [fold_left]; [exact H|].
  apply IH; [exact Hl|]. apply classifyPart_placed; assumption.
Qed.

Lemma parseTaskParts_placed line content lineNo :
  line <> EmptyString ->
  Forall Terms.placed (snd (parseTaskParts line content lineNo)).
Proof.
  intros Hl. unfold parseTaskParts.
  pose proof (classifyParts_placed line lineNo (splitTaskParts content)
                (mkRawTaskParts None None [] [], []) Hl (Forall_nil _)) as H.
  destruct (fold_left _ _ _) as [t ds]. cbn [snd] in H.
  destruct (Js.endsWith _ _) eqn:E; cbn [snd]; [|exact H].
  apply placed_snoc; [exact H|]. eexists. split; [reflexivity|]. cbn.
  pose proof (trailing_comma_found _ E). lia.
Qed.

Lemma parseLineContent_placed line lineNo sec :
  line <> EmptyString ->
  Forall Terms.placed (lc_diagnostics (parseLineContent line lineNo sec)).
Proof.
  intros Hl. unfold parseLineContent.
  destruct (match matchDashLine line with
            | Some c => Some c
            | None => match matchBangLine line with
                      | Some c => Some ("!" ++ c)
                      | None => None
                      end
            end) as [content|]; [|constructor].
  destruct (if Js.startsWith content "!" then matchDirective content else None)
    as [[nm argsStr]|]; [constructor|].
  destruct (sectionMode_eqb sec scratchpad); [constructor|].
  pose proof (parseTaskParts_placed line content lineNo Hl) as H.
  destruct (parseTaskParts line content lineNo) as [t ds]. exact H.
Qed.

Lemma preprocessLine_placed line lineNo :
  Forall Terms.placed (Lexer.pp_diagnostics (Lexer.preprocessLine line lineNo)).
Proof.
  unfold Lexer.preprocessLine. destruct (Lexer.matchDashPart line) as [dashPart|] eqn:E;
    [|constructor].
  destruct (_ && _); cbn; [|constructor]. constructor; [|constructor].
  eexists. split; [reflexivity|]. cbn.
  destruct (matchDashPart_some _ _ E) as (ws & r & _ & _ & -> & _).
  unfold Js.len. rewrite append_length. cbn [String.length]. lia.
Qed.

Lemma parseLineToRaw_placed sec line lineNo :
  Forall Terms.placed (r_diagnostics (fst (parseLineToRaw sec line lineNo))).
Proof.
  unfold parseLineToRaw.
  destruct (negb (Js.isEmpty (Js.trim line)) && _ && _) eqn:G; cbn [fst r_diagnostics];
    [|apply preprocessLine_placed].
  apply Forall_app. split; [apply preprocessLine_placed|].
  apply parseLineContent_placed. intros ->. vm_compute in G. discriminate.
Qed.

(** A line that is parsed as a task or a directive is not empty. *)
Lemma parseLineToRaw_nonempty sec line lineNo :
  task (fst (parseLineToRaw sec line lineNo)) <> None
  \/ directive (fst (parseLineToRaw sec line lineNo)) <> None ->
  line <> EmptyString.
Proof.
  intros H ->. vm_compute in H. destruct H as [H|H]; apply H; reflexivity.
Qed.

(** A line without a task and without a directive has the diagnostics of
    the tokenizer alone. *)
Lemma parseLineToRaw_plain sec line lineNo :
  isBlank (fst (parseLineToRaw sec line lineNo))
  || isComment (fst (parseLineToRaw sec line lineNo)) = true
  \/ (directive (fst (parseLineToRaw sec line lineNo)) = None
      /\ task (fst (parseLineToRaw sec line lineNo)) = None) ->
  r_diagnostics (fst (parseLineToRaw sec line lineNo))
  = Lexer.pp_diagnostics (Lexer.preprocessLine line lineNo).
Proof.
  unfold parseLineToRaw.
  destruct (negb (Js.isEmpty (Js.trim line)) && negb (isCommentLine line) && _) eqn:G;
    cbn [fst r_diagnostics isBlank isComment task directive]; [|reflexivity].
  apply andb_true_iff in G as [G _]. apply andb_true_iff in G as [G1 G2].
  apply negb_true_iff in G1, G2. rewrite G1, G2. cbn [orb].
  intros [H|[_ Ht]]; [discriminate|].
  destruct (parseLineContent_cases line lineNo sec) as [(_ & Hd) | (p & Hp & _)].
  - rewrite Hd, app_nil_r. reflexivity.
  - rewrite Hp in Ht. discriminate.
Qed.

Variable host : Host.

Lemma parseErrors_placed parts lineNo :
  Terms.timeIsPart parts ->
  Forall Terms.placed
    (parseErrors (option_map (fun t => parseTime t lineNo) (time parts))
       (option_map (fun d => parseDuration d lineNo) (duration parts))
       (snd (parseCategories (rt_categories parts) lineNo))).
Proof.
  intros Ht. unfold parseErrors. apply Forall_app. split; [|apply Forall_app; split].
  - destruct (time parts) as [ts|] eqn:E; cbn [option_map]; [|constructor].
    destruct (proj1 (isTimePart_parseTime ts lineNo) (Ht ts E)) as [v ->]. constructor.
  - destruct (duration parts) as [ds|]; cbn [option_map]; [|constructor].
    unfold parseDuration. destruct (matchDurationStr ds) as [[h m]|] eqn:E; [constructor|].
    constructor; [|constructor]. apply spanOver_placed. intros ->. vm_compute in E.
    discriminate.
  - induction (rt_categories parts) as [|c r IH]; cbn [parseCategories snd]; [constructor|].
    destruct (parseCategories r lineNo) as [result errors]. cbn [snd] in IH.
    destruct (Js.startsWith c ":") eqn:S; [|exact IH].
    destruct (existsb _ _); cbn [snd]; [|exact IH].
    constructor; [|exact IH]. apply spanOver_placed. intros ->. vm_compute in S.
    discriminate.
Qed.

Lemma determineStart_placed st rl pt :
  r_raw rl <> EmptyString -> Forall Terms.placed (snd (determineStart host st rl pt)).
Proof.
  intros Hr. unfold determineStart.
  assert (D : Forall Terms.placed
                (snd match cursorTime st with
                     | Some cursor => (Some (Some cursor), false, [])
                     | None =>
                         (None, false,
                          [mkDiagnostic ErrorCode.MISSING_START_FIRST_LINE
                             "First task must have an explicit start time"
                             (spanOver (r_lineNo rl) (r_raw rl))])
                     end)).
  { destruct (cursorTime st); cbn [snd]; [constructor|].
    constructor; [|constructor]. apply spanOver_placed, Hr. }
  destruct pt as [[e|v]|]; [exact D | constructor | exact D].
Qed.

Lemma overlapDiagnostics_placed st rl startD endD :
  r_raw rl <> EmptyString -> Forall Terms.placed (overlapDiagnostics st rl startD endD).
Proof.
  intros Hr. unfold overlapDiagnostics.
  destruct startD as [s|]; [|constructor]. destruct endD as [e|]; [|constructor].
  destruct (overlapPolicy (st_context st)); try (constructor; fail);
    destruct (checkOverlap (tasks st) s e); constructor; try constructor;
    apply spanOver_placed, Hr.
Qed.

(** What the analysis of a line keeps about its diagnostics: the status
    reflects them, and each has its columns. *)
Lemma analyze_line_diagnostics options source prog k pl :
  analyze host options source = Ok prog ->
  nth_error (lines prog) k = Some pl ->
  Forall Terms.placed (diagnostics pl)
  /\ ((node pl <> None /\ status pl = statusOf (diagnostics pl))
      \/ (node pl = None /\ status pl = valid
          /\ Forall (fun d => code d = WarningCode.MISSING_SPACE_AFTER_DASH)
               (diagnostics pl))).
Proof.
  intros H Hk.
  destruct (analyze_line host _ _ _ _ _ H Hk) as (rl & st & st' & Hrl & _ & _ & Hl & _).
  destruct (parseLinesToRaw_nth _ _ _ Hrl) as (line & _ & Hraw).
  set (sec := Props.sectionBefore source k) in *. set (n := 1 + Z.of_nat k) in *.
  pose proof (parseLineToRaw_placed sec line n) as Hp. rewrite <- Hraw in Hp.
  pose proof (parseLineToRaw_nonempty sec line n) as Hne. rewrite <- Hraw in Hne.
  pose proof (parseLineToRaw_plain sec line n) as Hpl. rewrite <- Hraw in Hpl.
  pose proof (proj1 (parseLineToRaw_raw sec line n)) as Hr. rewrite <- Hraw in Hr.
  destruct (analyzeLine_cases host _ _ _ _ _ Hl)
    as [(Hn & _ & Hs & Hd & Hc) | [(d & _ & Hd & Ha) | (parts & _ & _ & Ht & Ha)]].
  - rewrite Hd. split; [exact Hp|]. right. split; [exact Hn|]. split; [exact Hs|].
    rewrite (Hpl Hc). apply preprocessLine_codes.
  - assert (Hline : r_raw rl <> EmptyString).
    { rewrite Hr. apply Hne. right. rewrite Hd. discriminate. }
    unfold analyzeDirective in Ha.
    destruct (applyDirective st d) as [msg|st1]; inversion Ha; subst pl; cbn.
    + split; [|left; split; [discriminate|reflexivity]].
      apply placed_snoc; [exact Hp|]. apply spanOver_placed, Hline.
    + split; [exact Hp|]. left. split; [discriminate|reflexivity].
  - assert (Hline : r_raw rl <> EmptyString).
    { rewrite Hr. apply Hne. left. rewrite Ht. discriminate. }
    assert (Htime : Terms.timeIsPart parts).
    { apply (parseLineToRaw_time sec line n). rewrite <- Hraw. exact Ht. }
    destruct (analyzeTask_facts host _ _ _ _ _ _ Ha) as (t & Hn & _ & _ & _ & Hs & _).
    apply (analyzeTask_diagnostics host) in Ha. cbn zeta in Ha.
    destruct Ha as (t' & startD & endD & _ & _ & Hd). split.
    + rewrite Hd.
      apply Forall_app; split; [apply Forall_app; split; [apply Forall_app; split|]|].
      * exact Hp.
      * apply parseErrors_placed, Htime.
      * apply determineStart_placed, Hline.
      * apply overlapDiagnostics_placed, Hline.
    + left. split; [rewrite Hn; discriminate | exact Hs].
Qed.

Lemma hasErrorCode_exists ds :
  hasErrorCode ds = true <->
  exists d, In d ds /\ Js.startsWith (code d) "E" = true.
Proof.
  unfold hasErrorCode. rewrite existsb_exists. reflexivity.
Qed.

Lemma warning_not_error ds :
  Forall (fun d => code d = WarningCode.MISSING_SPACE_AFTER_DASH) ds ->
  hasErrorCode ds = false.
Proof.
  intros H. destruct (hasErrorCode ds) eqn:E; [|reflexivity].
  apply hasErrorCode_exists in E. destruct E as (d & Hin & Hs).
  rewrite Forall_forall in H. rewrite (H d Hin) in Hs. vm_compute in Hs. discriminate.
Qed.

Lemma status_invalid options source prog k pl :
  analyze host options source = Ok prog ->
  nth_error (lines prog) k = Some pl ->
  status pl = invalid <-> hasErrorCode (diagnostics pl) = true.
Proof.
  intros H Hk.
  destruct (analyze_line_diagnostics _ _ _ _ _ H Hk) as [_ [[_ Hs] | (_ & Hs & Hw)]].
  - rewrite Hs. apply statusOf_invalid.
  - rewrite Hs, (warning_not_error _ Hw). split; discriminate.
Qed.

(** X12.  The status of a line of an analysed document reflects its
    diagnostics: the line is [invalid] exactly when one of them has a code
    that starts with E; a line [valid_with_warnings] is a task or a directive
    and has a diagnostic; and a line that is neither a task nor a directive is
    [valid], with at most warnings of a missing space after the dash. *)
Theorem status_reflects_the_diagnostics options source prog k pl :
  analyze host options source = Ok prog ->
  nth_error (lines prog) k = Some pl ->
  (status pl = invalid <->
   exists d, In d (diagnostics pl) /\ Js.startsWith (code d) "E" = true)
  /\ (status pl = valid_with_warnings -> node pl <> None /\ diagnostics pl <> [])
  /\ (status pl = valid -> node pl <> None -> diagnostics pl = [])
  /\ (node pl = None ->
      status pl = valid
      /\ Forall (fun d => code d = WarningCode.MISSING_SPACE_AFTER_DASH) (diagnostics pl)).
Proof.
  intros H Hk. split; [|split; [|split]].
  - rewrite <- hasErrorCode_exists. exact (status_invalid _ _ _ _ _ H Hk).
  - destruct (analyze_line_diagnostics _ _ _ _ _ H Hk) as [_ [[Hn Hs] | (_ & Hs & _)]];
      [|rewrite Hs; discriminate].
    rewrite Hs. unfold statusOf. destruct (hasErrorCode (diagnostics pl)); [discriminate|].
    destruct (diagnostics pl); [discriminate|]. intros _. split; [exact Hn|discriminate].
  - destruct (analyze_line_diagnostics _ _ _ _ _ H Hk) as [_ [[Hn Hs] | (Hn & _)]];
      [|intros _ C; contradiction].
    rewrite Hs. unfold statusOf. destruct (hasErrorCode (diagnostics pl)); [discriminate|].
    destruct (diagnostics pl); [reflexivity|discriminate].
  - intros Hn.
    destruct (analyze_line_diagnostics _ _ _ _ _ H Hk) as [_ [[C _] | (_ & Hs & Hw)]];
      [contradiction|]. split; assumption.
Qed.

Lemma lineAt_nth (ls : list ParsedLine) n pl :
  Core.lineAt ls n = Some pl <-> 1 <= n /\ nth_error ls (Z.to_nat (n - 1)) = Some pl.
Proof.
  unfold Core.lineAt. destruct (1 <=? n) eqn:E.
  - split; [intros H; split; [lia|exact H] | intros [_ H]; exact H].
  - split; [discriminate | intros [C _]; lia].
Qed.

Lemma infoOf_placed line d :
  Terms.placed d ->
  1 <= Service.startColumn (Service.infoOf line d) < Service.endColumn (Service.infoOf line d).
Proof.
  intros (s & Hs & Hc). unfold Service.infoOf. cbn. rewrite Hs. unfold Service.orElse.
  destruct (startCol s =? 0) eqn:A; [lia|]. destruct (endCol s =? 0) eqn:B; [lia|]. exact Hc.
Qed.

Lemma infoOf_severity line d :
  Service.severity (Service.infoOf line d) = Service.sev_error
  <-> Js.startsWith (code d) "E" = true.
Proof.
  unfold Service.infoOf. cbn. destruct (Js.startsWith (code d) "E");
    split; auto; discriminate.
Qed.

(** X13.  The diagnostics that the service lists for a document that the
    analysis accepts: every diagnostic of every line is listed with the number
    of its line; each entry has a line number of the document and a range of
    columns that starts at 1 or later and is not empty; and a line has an
    entry of severity [error] exactly when its status is [invalid]. *)
Theorem diagnostics_of_a_document content program :
  Core.analyzeDocument host content = Ok program ->
  exists infos,
    Service.getDiagnostics host content = Ok infos
    /\ Forall (fun i =>
                 1 <= Service.startColumn i < Service.endColumn i
                 /\ 1 <= Service.di_line i <= Z.of_nat (List.length (Js.splitLines content)))
         infos
    /\ (forall n pl d,
          Core.lineAt (lines program) n = Some pl -> In d (diagnostics pl) ->
          exists i, In i infos /\ Service.di_line i = n
                    /\ Service.di_code i = code d /\ Service.di_message i = message d)
    /\ (forall n pl,
          Core.lineAt (lines program) n = Some pl ->
          (status pl = invalid <->
           exists i, In i infos /\ Service.di_line i = n
                     /\ Service.severity i = Service.sev_error)).
Proof.
  intros Ha. unfold Service.getDiagnostics. rewrite Ha. eexists. split; [reflexivity|].
  unfold Core.analyzeDocument, parseAndAnalyze in Ha.
  assert (Hno : forall n pl, Core.lineAt (lines program) n = Some pl -> lineNo pl = n).
  { intros n pl Hl. apply lineAt_nth in Hl as [Hn Hl].
    destruct (analyze_record host _ _ _ _ _ Ha Hl) as (_ & N & _). lia. }
  split; [|split].
  - apply Forall_forall. intros i Hi. apply in_flat_map in Hi.
    destruct Hi as (line & Hline & Hi). apply in_map_iff in Hi. destruct Hi as (d & <- & Hd).
    destruct (In_nth_error _ _ Hline) as [k Hk].
    destruct (analyze_line_diagnostics _ _ _ _ _ Ha Hk) as [Hp _].
    rewrite Forall_forall in Hp. split; [apply infoOf_placed, Hp, Hd|].
    destruct (analyze_record host _ _ _ _ _ Ha Hk) as (_ & N & _).
    assert (nth_error (lines program) k <> None) as B by congruence.
    apply nth_error_Some in B. rewrite (analyze_source_lengths host _ _ _ Ha) in B.
    cbn [Service.di_line Service.infoOf]. lia.
  - intros n pl d Hl Hd. exists (Service.infoOf pl d). split.
    + apply in_flat_map. exists pl. split.
      * apply lineAt_nth in Hl as [_ Hl]. exact (nth_error_In _ _ Hl).
      * apply in_map, Hd.
    + cbn. rewrite (Hno _ _ Hl). auto.
  - intros n pl Hl. pose proof (Hno _ _ Hl) as Hn.
    apply lineAt_nth in Hl as [H1 Hl].
    rewrite (status_invalid _ _ _ _ _ Ha Hl), hasErrorCode_exists. split.
    + intros (d & Hd & He). exists (Service.infoOf pl d). split.
      * apply in_flat_map. exists pl. split; [exact (nth_error_In _ _ Hl)|].
        apply in_map, Hd.
      * split; [exact Hn|]. exact (proj2 (infoOf_severity _ _) He).
    + intros (i & Hi & Hline & Hsev). apply in_flat_map in Hi.
      destruct Hi as (line & Hin & Hi). apply in_map_iff in Hi. destruct Hi as (d & <- & Hd).
      destruct (In_nth_error _ _ Hin) as [k Hk].
      destruct (analyze_record host _ _ _ _ _ Ha Hk) as (_ & N & _).
      cbn [Service.di_line Service.infoOf] in Hline.
      assert (k = Z.to_nat (n - 1)) as -> by lia.
      rewrite Hl in Hk. injection Hk as <-. exists d. split; [exact Hd|].
      exact (proj1 (infoOf_severity _ _) Hsev).
Qed.

End Placed.

Lemma status_witness_chain :
  exists prog pl d,
    Analyzer.analyze Analyzer.sampleHost Analyzer.noOptions Samples.chain = Analyzer.Ok prog
    /\ nth_error (lines prog) 1 = Some pl
    /\ status pl = invalid
    /\ In d (diagnostics pl) /\ Js.startsWith (code d) "E" = true.
Proof.
  assert (F : exists prog pl,
             Analyzer.analyze Analyzer.sampleHost Analyzer.noOptions Samples.chain
             = Analyzer.Ok prog
             /\ nth_error (lines prog) 1 = Some pl /\ status pl = invalid).
  { vm_compute. do 2 eexists. repeat split; reflexivity. }
  destruct F as (prog & pl & H & Hk & Hs).
  destruct (status_reflects_the_diagnostics Analyzer.sampleHost Analyzer.noOptions
              Samples.chain prog 1%nat pl H Hk) as (Hiff & _).
  destruct (proj1 Hiff Hs) as (d & Hd & He).
  exists prog, pl, d. auto.
Defined.

Lemma diagnostics_witness_chain :
  exists program,
    Core.analyzeDocument Analyzer.sampleHost Samples.chain = Analyzer.Ok program
    /\ Service.getDiagnostics Analyzer.sampleHost Samples.chain
       = Analyzer.Ok
           [Service.mkDiagnosticInfo 2 1 8 "Invalid duration format: 5x"
              ErrorCode.BAD_DURATION Service.sev_error].
Proof.
  assert (F : exists program,
             Core.analyzeDocument Analyzer.sampleHost Samples.chain = Analyzer.Ok program).
  { vm_compute. eexists. reflexivity. }
  destruct F as (program & Ha). exists program. split; [exact Ha|].
  destruct (diagnostics_of_a_document Analyzer.sampleHost Samples.chain program Ha)
    as (infos & Hg & _).
  rewrite Hg. vm_compute in Hg. injection Hg as <-. reflexivity.
Defined.
(** ** The quick shift of a line *)

Lemma splitLinesAux_nonempty s : forall cur, Js.splitLinesAux cur s <> [].
Proof.
  induction s as [|c r IH]; intros cur; cbn [Js.splitLinesAux]; [discriminate|].
  destruct (Js.codeOf c =? 10); [discriminate|].
  destruct r as [|d r']; [apply IH|].
  destruct ((Js.codeOf c =? 13) && (Js.codeOf d =? 10)); [discriminate | apply IH].
Qed.

Section QuickShift.

Import Analyzer.

Variable host : Host.

(** The outcome of the shift of a line does not depend on the other lines;
    they decide the affected lines alone. *)
Lemma executeTimeShift_allLines line offset a b :
  TimeShift.success (TimeShift.executeTimeShift host line offset a)
  = TimeShift.success (TimeShift.executeTimeShift host line offset b)
  /\ TimeShift.newLineContent (TimeShift.executeTimeShift host line offset a)
     = TimeShift.newLineContent (TimeShift.executeTimeShift host line offset b)
  /\ TimeShift.error (TimeShift.executeTimeShift host line offset a)
     = TimeShift.error (TimeShift.executeTimeShift host line offset b).
Proof.
  unfold TimeShift.executeTimeShift.
  destruct (negb (TimeUtils.valid (TimeUtils.validateTimeOffset offset))); [auto|].
  destruct (node line) as [[t|d]|]; auto.
  destruct (negb (ParserUtils.lf_valid _)); [auto|].
  destruct (TimeShift.shiftTaskTime host (raw line) t offset) as [r|]; auto.
  destruct (negb (TimeShift.success r)); auto.
Qed.

Lemma executeTimeShift_not_task line offset allLines :
  TimeUtils.valid (TimeUtils.validateTimeOffset offset) = true ->
  (forall t, node line <> Some (TaskN t)) ->
  TimeShift.executeTimeShift host line offset allLines
  = TimeShift.failure (Some TimeShift.msgNotTask).
Proof.
  intros Hv Hn. unfold TimeShift.executeTimeShift. rewrite Hv. cbn [negb].
  destruct (node line) as [[t|d]|]; [destruct (Hn t eq_refl) | reflexivity | reflexivity].
Qed.

Lemma executeTimeShift_failure line offset allLines :
  TimeShift.success (TimeShift.executeTimeShift host line offset allLines) = false ->
  TimeShift.newLineContent (TimeShift.executeTimeShift host line offset allLines) = None.
Proof.
  unfold TimeShift.executeTimeShift.
  destruct (negb (TimeUtils.valid (TimeUtils.validateTimeOffset offset))); [auto|].
  destruct (node line) as [[t|d]|]; auto.
  destruct (negb (ParserUtils.lf_valid _)); [auto|].
  destruct (TimeShift.shiftTaskTime host (raw line) t offset)
    as [[ok text err aff]|] eqn:E; [|reflexivity].
  cbn [TimeShift.success]. destruct ok; cbn [negb TimeShift.success]; [discriminate|].
  intros _. cbn [TimeShift.newLineContent].
  unfold TimeShift.shiftTaskTime in E.
  repeat match type of E with
         | match ?x with _ => _ end = _ => destruct x
         | (if ?x then _ else _) = _ => destruct x
         | (let (_, _) := ?x in _) = _ => destruct x
         end;
    inversion E; reflexivity.
Qed.

(** X14.  The quick shift of a text by a valid offset is the shift of line 1
    of the text as a document: both succeed or both fail; on success the new
    document is the new line followed by the other lines of the text; on
    failure the two errors are the same, but for a first line that is not a
    task, where each has a message of its own. *)
Theorem quickShiftTime_is_the_shift_of_line_one content offset program :
  TimeUtils.valid (TimeUtils.validateTimeOffset offset) = true ->
  Core.analyzeDocument host content = Ok program ->
  exists quick shifted,
    Service.quickShiftTime host content offset = Ok quick
    /\ Service.shiftTime host content 1 offset = Ok shifted
    /\ Service.q_success quick = Service.s_success shifted
    /\ (Service.s_success shifted = true ->
        exists newLine,
          Service.q_newLine quick = Some newLine
          /\ Service.s_newContent shifted
             = Some (Samples.document (newLine :: tl (Js.splitLines content))))
    /\ (Service.s_success shifted = false ->
        Service.q_newLine quick = None /\ Service.s_newContent shifted = None
        /\ (Service.q_error quick = Service.s_error shifted
            \/ (Service.q_error quick = Some Service.msgNotTaskLine
                /\ Service.s_error shifted = Some TimeShift.msgNotTask))).
Proof.
  intros Hv Ha.
  pose proof (analyze_source_lengths host _ _ _ Ha) as Hlen.
  unfold Service.quickShiftTime, Service.shiftTime. rewrite Hv, Ha. cbn [negb].
  unfold Core.analyzeDocument in Ha. rewrite Ha.
  destruct (Js.splitLines content) as [|first rest] eqn:Es;
    [destruct (splitLinesAux_nonempty _ _ Es)|].
  destruct (lines program) as [|line others] eqn:El; [discriminate Hlen|].
  cbn [Core.lineAt Z.leb Z.compare Z.sub Z.to_nat Z.opp Z.add Z.pos_sub nth_error].
  change (Core.lineAt (line :: others) 1) with (Some line).
  destruct (executeTimeShift_allLines line offset [] (line :: others)) as (E1 & E2 & E3).
  destruct (node line) as [[t|d]|] eqn:En.
  - destruct (TimeShift.success (TimeShift.executeTimeShift host line offset
                                  (line :: others))) eqn:S; cbn [negb].
    + destruct (executeTimeShift_success host _ _ _ S) as (t' & newLine & _ & _ & Hc).
      do 2 eexists. split; [reflexivity|]. split; [reflexivity|]. cbn.
      split; [exact E1|]. split; [|discriminate]. intros _. exists newLine.
      rewrite E2, Hc. auto.
    + do 2 eexists. split; [reflexivity|]. split; [reflexivity|]. cbn.
      split; [exact E1|]. split; [discriminate|]. intros _.
      rewrite E2, (executeTimeShift_failure _ _ _ S). auto.
  - rewrite (executeTimeShift_not_task line offset (line :: others) Hv)
      by (intros t; rewrite En; discriminate).
    cbn. do 2 eexists. split; [reflexivity|]. split; [reflexivity|]. cbn.
    split; [reflexivity|]. split; [discriminate|]. auto.
  - rewrite (executeTimeShift_not_task line offset (line :: others) Hv)
      by (intros t; rewrite En; discriminate).
    cbn. do 2 eexists. split; [reflexivity|]. split; [reflexivity|]. cbn.
    split; [reflexivity|]. split; [discriminate|]. auto.
Qed.

End QuickShift.

Lemma quickShiftTime_witness_chain :
  exists quick shifted,
    Service.quickShiftTime Analyzer.sampleHost Samples.chain "+15m" = Analyzer.Ok quick
    /\ Service.shiftTime Analyzer.sampleHost Samples.chain 1 "+15m" = Analyzer.Ok shifted
    /\ Service.q_newLine quick = Some "- 9:15am, A, 1h"
    /\ Service.s_newContent shifted
       = Some (Samples.document ["- 9:15am, A, 1h"; "- B, 5x"; "- C, 30m"]).
Proof.
  assert (F : exists program,
             Core.analyzeDocument Analyzer.sampleHost Samples.chain = Analyzer.Ok program).
  { vm_compute. eexists. reflexivity. }
  destruct F as (program & Ha).
  destruct (quickShiftTime_is_the_shift_of_line_one Analyzer.sampleHost Samples.chain "+15m"
              program eq_refl Ha) as (quick & shifted & Hq & Hs & _ & Hok & _).
  exists quick, shifted. split; [exact Hq|]. split; [exact Hs|].
  vm_compute in Hq. injection Hq as <-. vm_compute in Hs. injection Hs as <-.
  destruct (Hok eq_refl) as (newLine & Hn & Hc). split; [reflexivity|reflexivity].
Defined.
(** ** The duration token of a line *)



